(** * Leaf-disease detection pipeline: a shallow embedding of its scripts

    The repository is a set of Python scripts around a deep-learning
    framework: [training/utils.py], [training/model.py],
    [training/train.py], [training/evaluate.py] and
    [quantization/post_training_quant.py].  Each module below embeds the
    functions of one script.  What the scripts ask of the framework
    (Keras, TFLite, sklearn, matplotlib, the logging module) is a call
    that is logged and may raise; what they read back is a field of an
    environment record.

    Conventions.
    - A Python [str] is a [string]; one [ascii] stands for one code point
      below 256, and the character classes ([str.isspace], [str.lower])
      are the ones Python uses on that range.
    - Exceptions are values of [exn]; a computation that may raise
      returns a [result]; a computation that also changes a store (the
      file system, the log of framework calls) lives in [M].
    - Python's true division of two integers is the exact quotient in
      [Q]; its rounding to a binary float is not part of the model. *)

From Stdlib Require Import ZArith QArith Lia String Ascii List.
From stdpp Require Import base strings list gmap sorting.

Set Warnings "-register-all".
Close Scope Q_scope.
Open Scope string_scope.
Open Scope list_scope.

(** ** Python runtime *)

Module Py.

Inductive exn : Type :=
| KeyError (key : string)
| ValueError (msg : string)
| TypeError (msg : string)
| AttributeError (attr : string)
| IndexError
| ZeroDivisionError
| FileNotFoundError (path : string)
| FileExistsError (path : string)
| IsADirectoryError (path : string)
| SystemExit (code : Z)
| FrameworkError (msg : string).

Inductive result (A : Type) : Type :=
| Ok (a : A)
| Raise (e : exn).
Arguments Ok {A} a.
Arguments Raise {A} e.

#[global] Instance result_ret : MRet result := @Ok.
#[global] Instance result_bind : MBind result := fun A B f r =>
  match r with
  | Ok a => f a
  | Raise e => Raise e
  end.

(** A computation over a store [S]: the store survives a raise. *)
Definition M (S A : Type) : Type := S -> result A * S.

#[global] Instance M_ret {S} : MRet (M S) := fun A a s => (Ok a, s).
#[global] Instance M_bind {S} : MBind (M S) := fun A B f c s =>
  match c s with
  | (Ok a, s') => f a s'
  | (Raise e, s') => (Raise e, s')
  end.

(** Sequencing, for [result] and for [M S] alike. *)
Definition bind {F : Type -> Type} `{MBind F} {A B} (c : F A) (k : A -> F B) : F B :=
  mbind k c.

Definition lift {S A} (r : result A) : M S A := fun s => (r, s).
Definition raise {S A} (e : exn) : M S A := fun s => (Raise e, s).
Definition get_store {S} : M S S := fun s => (Ok s, s).

(** *** Characters and strings *)

Definition LF : ascii := ascii_of_nat 10.
Definition CR : ascii := ascii_of_nat 13.
Definition SLASH : ascii := "/"%char.

(** [str.isspace] on code points below 256. *)
Definition is_space (c : ascii) : bool :=
  let n := N_of_ascii c in
  ((9 <=? n) && (n <=? 13) || (28 <=? n) && (n <=? 32)
   || (n =? 133) || (n =? 160))%N.

(** [str.lower] on code points below 256. *)
Definition lower_char (c : ascii) : ascii :=
  let n := N_of_ascii c in
  if ((65 <=? n) && (n <=? 90))%N then ascii_of_N (n + 32)
  else if ((192 <=? n) && (n <=? 222) && negb (n =? 215))%N
       then ascii_of_N (n + 32)
  else c.

Fixpoint lower (s : string) : string :=
  match s with
  | EmptyString => EmptyString
  | String c r => String (lower_char c) (lower r)
  end.

Fixpoint lstrip (s : string) : string :=
  match s with
  | EmptyString => EmptyString
  | String c r => if is_space c then lstrip r else s
  end.

Fixpoint rstrip (s : string) : string :=
  match s with
  | EmptyString => EmptyString
  | String c r =>
      match rstrip r with
      | EmptyString => if is_space c then EmptyString else String c EmptyString
      | r' => String c r'
      end
  end.

(** [s.strip()] *)
Definition strip (s : string) : string := lstrip (rstrip s).

(** [s.endswith(suffix)] *)
Definition endswith (s suffix : string) : bool :=
  let n := String.length s in
  let k := String.length suffix in
  (k <=? n)%nat && String.eqb (substring (n - k) k s) suffix.

(** [s.endswith((a, b, ...))] *)
Definition endswith_any (s : string) (suffixes : list string) : bool :=
  existsb (endswith s) suffixes.

Definition contains_char (c : ascii) (s : string) : bool :=
  existsb (Ascii.eqb c) (list_ascii_of_string s).

Definition first_char (s : string) : option ascii :=
  match s with
  | EmptyString => None
  | String c _ => Some c
  end.

Fixpoint last_char (s : string) : option ascii :=
  match s with
  | EmptyString => None
  | String c EmptyString => Some c
  | String _ r => last_char r
  end.

(** *** Text streams *)

(** Reading in text mode with the default [newline=None]: the line
    ends [\r\n] and [\r] both arrive as [\n]. *)
Fixpoint universal_newlines (after_cr : bool) (s : string) : string :=
  match s with
  | EmptyString => EmptyString
  | String c r =>
      if Ascii.eqb c CR then String LF (universal_newlines true r)
      else if Ascii.eqb c LF then
        if after_cr then universal_newlines false r
        else String LF (universal_newlines false r)
      else String c (universal_newlines false r)
  end.

(** [f.readlines()] on translated text: every line keeps its [\n]. *)
Fixpoint split_keepends (cur : string) (s : string) : list string :=
  match s with
  | EmptyString => match cur with EmptyString => [] | _ => [cur] end
  | String c r =>
      if Ascii.eqb c LF then (cur +:+ String LF EmptyString) :: split_keepends EmptyString r
      else split_keepends (cur +:+ String c EmptyString) r
  end.

Definition readlines (content : string) : list string :=
  split_keepends EmptyString (universal_newlines false content).

(** *** Numbers *)

(** [a / b] on two [int]s. *)
Definition truediv (a b : Z) : result Q :=
  if (b =? 0)%Z then Raise ZeroDivisionError
  else Ok (Qmake a 1 / Qmake b 1)%Q.

(** *** Slices *)

(** The position a slice bound [i] denotes in a sequence of [len]
    items: negative bounds count from the end, and both ends clamp. *)
Definition slice_bound (i : Z) (len : nat) : nat :=
  if (i <? 0)%Z then Z.to_nat (Z.max 0 (Z.of_nat len + i))
  else Nat.min (Z.to_nat i) len.

(** *** Values of a loaded YAML document *)

Inductive value : Type :=
| VNone
| VBool (b : bool)
| VInt (z : Z)
| VFloat (q : Q)
| VStr (s : string)
| VList (l : list value)
| VDict (d : list (string * value)).

Fixpoint assoc {A} (k : string) (d : list (string * A)) : option A :=
  match d with
  | [] => None
  | (k', v) :: r => if String.eqb k k' then Some v else assoc k r
  end.

(** [d[k]] *)
Definition getitem (d : value) (k : string) : result value :=
  match d with
  | VDict kvs =>
      match assoc k kvs with
      | Some v => Ok v
      | None => Raise (KeyError k)
      end
  | VStr _ | VList _ => Raise (TypeError "indices must be integers")
  | _ => Raise (TypeError "object is not subscriptable")
  end.

(** [config[a][b]] *)
Definition getitem_in (config : value) (a b : string) : result value :=
  match getitem config a with
  | Ok d => getitem d b
  | Raise e => Raise e
  end.

(** [d.get(k, default)] *)
Definition get (d : value) (k : string) (default : value) : result value :=
  match d with
  | VDict kvs => Ok (match assoc k kvs with Some v => v | None => default end)
  | _ => Raise (AttributeError "get")
  end.

(** Truth value of an object in an [if]. *)
Definition truthy (v : value) : bool :=
  match v with
  | VNone => false
  | VBool b => b
  | VInt z => negb (z =? 0)%Z
  | VFloat q => negb (Qeq_bool q 0)
  | VStr s => negb (String.eqb s EmptyString)
  | VList l => match l with [] => false | _ => true end
  | VDict d => match d with [] => false | _ => true end
  end.

Fixpoint is_substring (s t : string) : bool :=
  String.prefix s t ||
  match t with
  | EmptyString => false
  | String _ r => is_substring s r
  end.

Definition is_str (s : string) (v : value) : bool :=
  match v with
  | VStr t => String.eqb s t
  | _ => false
  end.

(** [s in container] for a string [s]. *)
Definition contains (s : string) (container : value) : result bool :=
  match container with
  | VList l => Ok (existsb (is_str s) l)
  | VStr t => Ok (is_substring s t)
  | VDict d => Ok (match assoc s d with Some _ => true | None => false end)
  | _ => Raise (TypeError "argument is not iterable")
  end.

(** [v[:n]] for a non-negative literal [n]. *)
Definition slice_to (n : nat) (v : value) : result value :=
  match v with
  | VList l => Ok (VList (firstn n l))
  | VStr s => Ok (VStr (substring 0 n s))
  | _ => Raise (TypeError "object is not subscriptable")
  end.

(** [tuple(v)]; a tuple is kept as a [VList]. *)
Definition tuple (v : value) : result value :=
  match v with
  | VList l => Ok (VList l)
  | VStr s => Ok (VList (map (fun c => VStr (String c EmptyString)) (list_ascii_of_string s)))
  | VDict d => Ok (VList (map (fun kv => VStr (fst kv)) d))
  | _ => Raise (TypeError "object is not iterable")
  end.

(** A path argument of [os.path.join]/[os.listdir] must be a [str]. *)
Definition as_str (v : value) : result string :=
  match v with
  | VStr s => Ok s
  | _ => Raise (TypeError "expected str, bytes or os.PathLike object")
  end.

(** [v.lower()] *)
Definition lower_of (v : value) : result string :=
  match v with
  | VStr s => Ok (lower s)
  | _ => Raise (AttributeError "lower")
  end.

(** [np.argmax] of a one-dimensional array: the first position of
    the largest entry. *)
Fixpoint argmax_from (best : Q) (best_i i : nat) (l : list Q) : nat :=
  match l with
  | [] => best_i
  | x :: r =>
      if Qle_bool x best then argmax_from best best_i (S i) r
      else argmax_from x i (S i) r
  end.

Definition argmax (l : list Q) : result Z :=
  match l with
  | [] => Raise (ValueError "attempt to get argmax of an empty sequence")
  | x :: r => Ok (Z.of_nat (argmax_from x 0 1 r))
  end.

Definition has_leading_space (s : string) : bool :=
  match first_char s with
  | Some c => is_space c
  | None => false
  end.

Definition has_trailing_space (s : string) : bool :=
  match last_char s with
  | Some c => is_space c
  | None => false
  end.

End Py.
Import Py.

Notation "'let*' x ':=' c 'in' k" := (Py.bind c (fun x => k))
  (at level 10, x name, c at level 100, k at level 200).

(** ** The operating system as the scripts use it *)

Module OS.

(** A store of files and directories, keyed by the path string the
    script passes.  Text files hold their text, binary files their
    bytes, one [ascii] per byte. *)
Record filesystem : Type := {
  files : gmap string string;
  dirs : gset string
}.

Definition empty_fs : filesystem := {| files := ∅; dirs := ∅ |}.

(** [p[:p.rfind('/') + 1]] *)
Fixpoint head_upto_slash (p : string) : string :=
  match p with
  | EmptyString => EmptyString
  | String c r =>
      match head_upto_slash r with
      | EmptyString => if Ascii.eqb c SLASH then String c EmptyString else EmptyString
      | h => String c h
      end
  end.

Fixpoint all_slashes (s : string) : bool :=
  match s with
  | EmptyString => true
  | String c r => Ascii.eqb c SLASH && all_slashes r
  end.

Fixpoint rstrip_slashes (s : string) : string :=
  match s with
  | EmptyString => EmptyString
  | String c r =>
      match rstrip_slashes r with
      | EmptyString => if Ascii.eqb c SLASH then EmptyString else String c EmptyString
      | r' => String c r'
      end
  end.

(** [os.path.dirname] (posixpath). *)
Definition dirname (p : string) : string :=
  let head := head_upto_slash p in
  if negb (String.eqb head EmptyString) && negb (all_slashes head)
  then rstrip_slashes head else head.

(** [os.path.join(a, b)] (posixpath, two arguments). *)
Definition join (a b : string) : string :=
  if String.prefix "/" b then b
  else if String.eqb a EmptyString || endswith a "/" then a +:+ b
  else a +:+ "/" +:+ b.

(** A path and the directories above it, nearest first. *)
Fixpoint ancestors (fuel : nat) (p : string) : list string :=
  match fuel with
  | O => []
  | S fuel' =>
      if String.eqb p EmptyString then []
      else p :: (let d := dirname p in
                 if String.eqb d p then [] else ancestors fuel' d)
  end.

Definition dir_chain (p : string) : list string :=
  ancestors (S (String.length p)) p.

(** [os.makedirs(name, exist_ok=True)]: the empty name is refused, a
    file in the way is an error, and every missing directory on the
    way is created. *)
Definition makedirs (name : string) : M filesystem unit := fun fs =>
  if String.eqb name EmptyString then (Raise (FileNotFoundError name), fs)
  else match List.find (fun d => bool_decide (is_Some (files fs !! d))) (dir_chain name) with
       | Some d => (Raise (FileExistsError d), fs)
       | None => (Ok tt, {| files := files fs;
                            dirs := list_to_set (dir_chain name) ∪ dirs fs |})
       end.

Definition dir_exists (fs : filesystem) (d : string) : bool :=
  String.eqb d EmptyString || bool_decide (d ∈ dirs fs).

(** [with open(path, "w"/"wb") as f: f.write(data)] *)
Definition write_file (path data : string) : M filesystem unit := fun fs =>
  if bool_decide (path ∈ dirs fs) then (Raise (IsADirectoryError path), fs)
  else if negb (dir_exists fs (dirname path)) then (Raise (FileNotFoundError path), fs)
  else (Ok tt, {| files := <[path := data]> (files fs); dirs := dirs fs |}).

(** [with open(path, "r"/"rb") as f: f.read()] before any newline
    translation. *)
Definition read_file (path : string) : M filesystem string := fun fs =>
  match files fs !! path with
  | Some data => (Ok data, fs)
  | None => if bool_decide (path ∈ dirs fs) then (Raise (IsADirectoryError path), fs)
            else (Raise (FileNotFoundError path), fs)
  end.

(** [os.path.isfile] and [os.path.getsize]. *)
Definition isfile (fs : filesystem) (path : string) : bool :=
  bool_decide (is_Some (files fs !! path)).

Definition getsize (path : string) : M filesystem Z := fun fs =>
  match files fs !! path with
  | Some data => (Ok (Z.of_nat (String.length data)), fs)
  | None => (Raise (FileNotFoundError path), fs)
  end.

End OS.

(** ** The framework as the scripts see it *)

Module Framework.
Import OS.

Inductive backbone : Type := MobileNetV2 | EfficientNetB0.

Inductive optimizer : Type :=
| Adam (learning_rate : value)
| SGD (learning_rate : value) (momentum : Q).

Inductive dtype : Type := float32 | uint8.
Inductive optimize : Type := OPTIMIZE_DEFAULT.
Inductive ops_set : Type := TFLITE_BUILTINS | TFLITE_BUILTINS_INT8.

(** The attributes of a [tf.lite.TFLiteConverter] the scripts set;
    [representative_dataset] holds the arguments of the generator
    the lambda calls. *)
Record converter : Type := {
  optimizations : list optimize;
  representative_dataset : option (string * Z);
  supported_ops : list ops_set;
  inference_input_type : dtype;
  inference_output_type : dtype
}.

(** One row of [f1_scores.csv]. *)
Record csv_row : Type := {
  row_class : string;
  row_precision : Q;
  row_recall : Q;
  row_f1 : Q;
  row_support : Z
}.

(** Calls into the framework, as the scripts make them.  The helpers
    of [utils.py] that only wrap the framework ([setup_logging],
    [load_dataset], [setup_callbacks]) and [print_model_summary] are
    calls as well.  [trainable] is the state of the backbone's layers
    when the call is made.
    - [ListDevices]: [tf.config.list_physical_devices("GPU")]
    - [SetSeedTF], [SetSeedNP]: [tf.random.set_seed], [np.random.seed]
    - [BuildBackbone], [BuildHead]: [MobileNetV2(...)] or
      [EfficientNetB0(...)], then the layers and [Model(...)] on top
    - [MakeOptimizer], [Compile], [Fit], [SaveModel]:
      [keras.optimizers.*], [model.compile], [model.fit], [model.save]
    - [LoadModel], [Predict]: [keras.models.load_model], [model.predict]
    - [LoadTestDataset], [LoadTfliteDataset]:
      [image_dataset_from_directory]
    - [AccuracyScore], [AveragedScores], [ClassificationReport],
      [ConfusionMatrix]: the sklearn.metrics functions of those names
    - [WriteCsv], [PlotConfusionMatrix], [WriteReport]: the files
      [f1_scores.csv], [confusion_matrix.png], [performance_analysis.md]
    - [Convert]: [TFLiteConverter.from_keras_model] and
      [converter.convert()]
    - [Interpreter], [Invoke], [Benchmark]: [tf.lite.Interpreter] with
      [allocate_tensors], one [set_tensor]/[invoke]/[get_tensor], the
      timed runs of [benchmark_inference_time] *)
Inductive call : Type :=
| ListDevices
| SetupLogging (config : value)
| SetSeedTF (seed : value)
| SetSeedNP (seed : value)
| LoadDataset (train_dir val_dir batch_size image_size : value)
| BuildBackbone (b : backbone) (input_shape weights : value)
| BuildHead (b : backbone) (input_shape num_classes dropout_rate : value)
| Summary
| MakeOptimizer (opt : optimizer)
| Compile (opt : optimizer) (loss metrics : value) (trainable : list bool)
| SetupCallbacks (config : value)
| Fit (initial_epoch : option value) (epochs : value)
      (class_weight : option (list (nat * Q))) (trainable : list bool)
| SaveModel (path : string)
| LoadModel (path : string)
| LoadTestDataset (test_dir batch_size image_size : value)
| Predict (batch : nat)
| AccuracyScore
| AveragedScores (average : string)
| ClassificationReport (target_names : list string)
| WriteCsv (path : string) (rows : list csv_row)
| ConfusionMatrix
| PlotConfusionMatrix (save_path : string)
| WriteReport (path : string) (classes : list (string * Q * Q * Q))
| Convert (model_path : string) (cfg : converter)
| Interpreter (tflite_path : string)
| LoadTfliteDataset (test_data_dir : string)
| Invoke (sample : nat)
| Benchmark (tflite_path : string) (num_runs : Z).

(** What the world outside the scripts answers.  Every call may
    raise; the remaining fields are the data the scripts read back. *)
Record environment : Type := {
  raises : call -> option exn;
  yaml_safe_load : string -> result value;
  listdir : string -> result (list string);
  isdir : string -> bool;
  timestamp : string;
  backbone_depth : backbone -> nat;
  (* evaluation: batches of (prediction row, one-hot label row) *)
  test_class_names : list string;
  test_batches : list (list (list Q * list Q));
  accuracy_score : list Z -> list Z -> Q;
  (* TFLite: the converted bytes; the samples of a test directory
     as (dequantized output vector, label vector) *)
  tflite_bytes : string -> converter -> string;
  tflite_samples : string -> list (list Q * list Q)
}.

(** The store of a run: the files the scripts write and read back,
    and the log of framework calls. *)
Record world : Type := {
  fs : filesystem;
  log : list call
}.

Definition initial_world : world := {| fs := empty_fs; log := [] |}.

Definition on_fs {A} (c : M filesystem A) : M world A := fun w =>
  let '(r, fs') := c (fs w) in (r, {| fs := fs'; log := log w |}).

(** A framework call: logged, then it returns or raises. *)
Definition ext (env : environment) (c : call) : M world unit := fun w =>
  let w' := {| fs := fs w; log := log w ++ [c] |} in
  match raises env c with
  | Some e => (Raise e, w')
  | None => (Ok tt, w')
  end.

Definition is_fit (c : call) : bool :=
  match c with
  | Fit _ _ _ _ => true
  | _ => false
  end.

Definition is_save (c : call) : bool :=
  match c with
  | SaveModel _ => true
  | _ => false
  end.

(** The store after further framework calls. *)
Definition logged (w : world) (calls : list call) : world :=
  {| fs := fs w; log := log w ++ calls |}.

End Framework.
Import Framework.

(** ** argparse, as far as the command lines of the scripts need it *)

Module Argparse.

Inductive action : Type := store | store_true | help.

Record argument : Type := {
  option_string : string;
  action_of : action;
  default : value;
  required : bool
}.

(** [parser.add_argument(flag, type=str, required=..., default=...)] *)
Definition add_store (flag : string) (req : bool) (dflt : value) : argument :=
  {| option_string := flag; action_of := store; default := dflt; required := req |}.

(** [parser.add_argument(flag, action="store_true")] and the same
    call with an explicit [default=...]. *)
Definition add_store_true (flag : string) (dflt : option value) : argument :=
  {| option_string := flag; action_of := store_true;
     default := match dflt with Some v => v | None => VBool false end;
     required := false |}.

Definition help_argument : argument :=
  {| option_string := "--help"; action_of := help; default := VNone; required := false |}.

(** The attribute an option is stored under: its name without the
    leading dashes. *)
Definition dest (a : argument) : string :=
  substring 2 (String.length (option_string a) - 2) (option_string a).

Definition namespace : Type := list (string * value).

Definition defaults (parser : list argument) : namespace :=
  map (fun a => (dest a, default a))
      (List.filter (fun a => match action_of a with help => false | _ => true end) parser).

Fixpoint setattr (ns : namespace) (k : string) (v : value) : namespace :=
  match ns with
  | [] => [(k, v)]
  | (k', v') :: r => if String.eqb k k' then (k, v) :: r else (k', v') :: setattr r k v
  end.

(** [name=value] split at the first [=]. *)
Fixpoint split_eq (s : string) : string * option string :=
  match s with
  | EmptyString => (EmptyString, None)
  | String c r =>
      if Ascii.eqb c "="%char then (EmptyString, Some r)
      else let '(n, v) := split_eq r in (String c n, v)
  end.

(** The option a long flag denotes: itself, or the one option it
    abbreviates. *)
Inductive resolved : Type :=
| Known (a : argument)
| Ambiguous
| Unknown.

Definition resolve (parser : list argument) (name : string) : resolved :=
  match List.find (fun a => String.eqb (option_string a) name) parser with
  | Some a => Known a
  | None =>
      match List.filter (fun a => String.prefix name (option_string a)) parser with
      | [a] => Known a
      | [] => Unknown
      | _ => Ambiguous
      end
  end.

Definition all_digits (s : string) : bool :=
  forallb (fun c => (48 <=? N_of_ascii c)%N && (N_of_ascii c <=? 57)%N)
          (list_ascii_of_string s).

Fixpoint split_dot (s : string) : string * option string :=
  match s with
  | EmptyString => (EmptyString, None)
  | String c r =>
      if Ascii.eqb c "."%char then (EmptyString, Some r)
      else let '(n, v) := split_dot r in (String c n, v)
  end.

(** [^-\d+$|^-\d*\.\d+$] *)
Definition negative_number (s : string) : bool :=
  match s with
  | String c r =>
      Ascii.eqb c "-"%char &&
      match split_dot r with
      | (n, None) => negb (String.eqb n EmptyString) && all_digits n
      | (n, Some f) => all_digits n && negb (String.eqb f EmptyString) && all_digits f
      end
  | EmptyString => false
  end.

(** A token that is read as an option rather than as a value. *)
Definition option_like (t : string) : bool :=
  String.prefix "-" t && (1 <? String.length t)%nat
  && negb (negative_number t) && negb (contains_char " "%char t).

Record progress : Type := {
  ns : namespace;
  seen : list string;
  extras : bool
}.

Definition usage_error {A} : result A := Raise (SystemExit 2).

Definition record_value (st : progress) (a : argument) (v : value) : progress :=
  {| ns := setattr (ns st) (dest a) v;
     seen := option_string a :: seen st;
     extras := extras st |}.

Definition with_extras (st : progress) : progress :=
  {| ns := ns st; seen := seen st; extras := true |}.

(** One pass over the command line. *)
Fixpoint consume (parser : list argument) (argv : list string) (st : progress)
  : result progress :=
  match argv with
  | [] => Ok st
  | t :: rest =>
      if String.eqb t "--" then
        Ok (match rest with [] => st | _ => with_extras st end)
      else if String.eqb t "-h" then Raise (SystemExit 0)
      else if String.prefix "--" t then
        let '(name, explicit) := split_eq t in
        match resolve parser name with
        | Ambiguous => usage_error
        | Unknown => consume parser rest (with_extras st)
        | Known a =>
            match action_of a, explicit with
            | help, None => Raise (SystemExit 0)
            | help, Some _ => usage_error
            | store_true, None => consume parser rest (record_value st a (VBool true))
            | store_true, Some _ => usage_error
            | store, Some v => consume parser rest (record_value st a (VStr v))
            | store, None =>
                match rest with
                | [] => usage_error
                | v :: rest' =>
                    if String.eqb v "--" then
                      match rest' with
                      | [] => usage_error
                      | v' :: rest'' =>
                          Ok (match rest'' with
                              | [] => record_value st a (VStr v')
                              | _ => with_extras (record_value st a (VStr v'))
                              end)
                      end
                    else if option_like v then usage_error
                    else consume parser rest' (record_value st a (VStr v))
                end
            end
        end
      else consume parser rest (with_extras st)
  end.

(** [parser.parse_args(argv)]: every usage error ends the process
    with status 2, [-h]/[--help] with status 0. *)
Definition parse_args (parser : list argument) (argv : list string) : result namespace :=
  let parser := help_argument :: parser in
  let* st := consume parser argv
               {| ns := defaults parser; seen := []; extras := false |} in
  if existsb (fun a => required a
                       && negb (existsb (String.eqb (option_string a)) (seen st))) parser
  then usage_error
  else if extras st then usage_error
  else Ok (ns st).

(** [args.name] *)
Definition getattr (args : namespace) (name : string) : result value :=
  match assoc name args with
  | Some v => Ok v
  | None => Raise (AttributeError name)
  end.

End Argparse.

(** ** training/utils.py *)

Module Utils.
Import OS.

Definition str_le (a b : string) : Prop := String.leb a b = true.
#[global] Instance str_le_dec a b : Decision (str_le a b) :=
  decide (String.leb a b = true).

(** [sorted(names)] for strings. *)
Definition sorted (names : list string) : list string := merge_sort str_le names.

Definition is_image (f : string) : bool :=
  endswith_any (lower f) [".png"; ".jpg"; ".jpeg"].

Section with_env.
Context (env : environment).

(** The [for i, class_name in enumerate(class_names)] loop: the
    count of image files of each class directory, in order. *)
Definition count_images (data_dir class_name : string) : result Z :=
  let* entries := listdir env (join data_dir class_name) in
  mret (Z.of_nat (length (List.filter is_image entries))).

(** The dictionary comprehension over [class_counts.items()]. *)
Definition weight_of (total n : Z) (item : nat * Z) : result (nat * Q) :=
  let* w := truediv total (n * snd item) in
  mret (fst item, w).

(** [compute_class_weights(data_dir)]; a dictionary is the list of
    its items in insertion order. *)
Definition compute_class_weights (data_dir : string) : result (list (nat * Q)) :=
  let* entries := listdir env data_dir in
  let class_names := sorted (List.filter (fun d => isdir env (join data_dir d)) entries) in
  let* counts := mapM (count_images data_dir) class_names in
  let class_counts := imap (fun i count => (i, count)) counts in
  let total := foldr Z.add 0%Z (map snd class_counts) in
  mapM (weight_of total (Z.of_nat (length class_counts))) class_counts.

End with_env.

(** [save_class_names(class_names, save_path)] *)
Definition write_lines (class_names : list string) : string :=
  String.concat EmptyString (map (fun name => name +:+ String LF EmptyString) class_names).

Definition save_class_names (class_names : list string) (save_path : string)
  : M filesystem unit :=
  makedirs (dirname save_path) ;;
  write_file save_path (write_lines class_names).

(** [load_class_names(file_path)] *)
Definition load_class_names (file_path : string) : M filesystem (list string) :=
  let* content := read_file file_path in
  mret (map strip (readlines content)).

(** A name the round trip preserves: it holds neither of the two
    characters a text stream reads as a line end, and no white space
    at either end. *)
Definition clean_name (name : string) : Prop :=
  contains_char LF name = false /\ contains_char CR name = false /\
  has_leading_space name = false /\ has_trailing_space name = false.

(** The class directories [compute_class_weights] enumerates, given
    the listing of [data_dir]. *)
Definition class_dirs (env : environment) (data_dir : string) (entries : list string)
  : list string :=
  sorted (List.filter (fun d => isdir env (join data_dir d)) entries).

Definition Zsum (l : list Z) : Z := foldr Z.add 0%Z l.


(** [total / (n * count)] for every class, keyed by its position. *)
Definition balanced (counts : list Z) : list (nat * Q) :=
  imap (fun i count =>
          (i, (inject_Z (Zsum counts) / inject_Z (Z.of_nat (length counts) * count))%Q))
       counts.

End Utils.

(** ** training/model.py *)

Module Model.

(** A Keras model built by this script.  [model] and [base_model] of
    the source are two references into one object graph: the record
    holds the single copy of the backbone's per-layer [trainable]
    flags, so a change through either reference is seen by both. *)
Record net : Type := {
  base : backbone;
  layers : list bool;
  compiled_with : option optimizer
}.

Record kwargs : Type := {
  input_shape : value;
  num_classes : value;
  dropout_rate : value;
  weights : value
}.

Section with_env.
Context (env : environment).

(** [create_mobilenetv2_model] and [create_efficientnet_model]
    differ in the backbone only: load it, freeze it
    ([base_model.trainable = False]), put the head on top. *)
Definition create_model (b : backbone) (kw : kwargs) : M world net :=
  ext env (BuildBackbone b (input_shape kw) (weights kw)) ;;
  let frozen := repeat false (backbone_depth env b) in
  ext env (BuildHead b (input_shape kw) (num_classes kw) (dropout_rate kw)) ;;
  mret {| base := b; layers := frozen; compiled_with := None |}.

Definition create_mobilenetv2_model : kwargs -> M world net := create_model MobileNetV2.
Definition create_efficientnet_model : kwargs -> M world net := create_model EfficientNetB0.

(** [get_model(architecture, **kwargs)] *)
Definition get_model (architecture : value) (kw : kwargs) : M world net :=
  let* a := lift (lower_of architecture) in
  if String.eqb a "mobilenetv2" then create_mobilenetv2_model kw
  else if existsb (String.eqb a) ["efficientnet"; "efficientnet_lite0"]
       then create_efficientnet_model kw
  else match architecture with
       | VStr s => raise (ValueError ("Unknown architecture: " +:+ s))
       | _ => raise (AttributeError "lower")
       end.

End with_env.

(** The two bounds of [layers[:n]] and [layers[n:]]. *)
Definition slice_bounds (n : value) (len : nat) : result (nat * nat) :=
  match n with
  | VInt z => Ok (slice_bound z len, slice_bound z len)
  | VBool b => let z := if b then 1%Z else 0%Z in Ok (slice_bound z len, slice_bound z len)
  | VNone => Ok (len, 0)
  | _ => Raise (TypeError "slice indices must be integers or None or have an __index__ method")
  end.

(** [unfreeze_base_model(base_model, unfreeze_from_layer)] on the
    per-layer flags. *)
Definition unfreeze_base_model (flags : list bool) (unfreeze_from_layer : value)
  : result (list bool) :=
  let flags := map (fun _ => true) flags in
  let* b := slice_bounds unfreeze_from_layer (length flags) in
  let flags := map (fun _ => false) (firstn (fst b) flags) ++ skipn (fst b) flags in
  let flags := firstn (snd b) flags ++ map (fun _ => true) (skipn (snd b) flags) in
  mret flags.

End Model.

(** ** training/train.py *)

Module Train.
Import OS Model.

Record history : Type := {
  hist_initial_epoch : option value;
  hist_epochs : value
}.

Section with_env.
Context (env : environment).

(** [load_config(config_path)] *)
Definition load_config (config_path : string) : M world value :=
  let* text := on_fs (read_file config_path) in
  lift (yaml_safe_load env text).

(** [config[a][b]] in a run. *)
Definition getitem2 (config : value) (a b : string) : M world value :=
  lift (getitem_in config a b).

(** [compile_model(model, config)] *)
Definition compile_model (model : net) (config : value) : M world net :=
  let* optimizer_config := lift (getitem config "optimizer") in
  let* lr := lift (getitem optimizer_config "learning_rate") in
  let* name := lift (getitem optimizer_config "name") in
  let* name := lift (lower_of name) in
  let optimizer :=
    if String.eqb name "adam" then Adam lr
    else if String.eqb name "sgd" then SGD lr (9 # 10)
    else Adam lr in
  ext env (MakeOptimizer optimizer) ;;
  let* loss := getitem2 config "loss" "name" in
  let* has_metrics := lift (contains "metrics" config) in
  let* metrics := lift (if has_metrics then getitem config "metrics"
                        else Ok (VList [VStr "accuracy"])) in
  ext env (Compile optimizer loss metrics (layers model)) ;;
  mret {| base := base model; layers := layers model;
          compiled_with := Some optimizer |}.

(** [model.fit(train_ds, validation_data=val_ds, ...)] *)
Definition fit (model : net) (initial_epoch : option value) (epochs : value)
    (class_weight : option (list (nat * Q))) : M world history :=
  ext env (Fit initial_epoch epochs class_weight (layers model)) ;;
  mret {| hist_initial_epoch := initial_epoch; hist_epochs := epochs |}.

(** Phase 2 of [train_model]: the body of
    [if config["training"].get("freeze_base", True)]. *)
Definition fine_tune (model : net) (config : value) (initial_epochs : value)
    (class_weights : option (list (nat * Q))) : M world net :=
  let* training := lift (getitem config "training") in
  let* unfreeze_from := lift (get training "freeze_until_layer" (VInt 100)) in
  let* flags := lift (unfreeze_base_model (layers model) unfreeze_from) in
  let* training := lift (getitem config "training") in
  let* fine_tune_lr := lift (get training "fine_tune_learning_rate" (VFloat (1 # 10000))) in
  ext env (MakeOptimizer (Adam fine_tune_lr)) ;;
  let* loss := getitem2 config "loss" "name" in
  let* metrics := lift (get config "metrics" (VList [VStr "accuracy"])) in
  ext env (Compile (Adam fine_tune_lr) loss metrics flags) ;;
  let model := {| base := base model; layers := flags;
                  compiled_with := Some (Adam fine_tune_lr) |} in
  let* total_epochs := getitem2 config "training" "epochs" in
  fit model (Some initial_epochs) total_epochs class_weights ;;
  mret model.

(** The tail of [train_model]: save in the configured formats. *)
Definition save_final (config : value) : M world unit :=
  let* save_dir := getitem2 config "export" "save_dir" in
  let* model_name := getitem2 config "model" "architecture" in
  let stamp := timestamp env in
  let* formats := getitem2 config "export" "formats" in
  let* has_h5 := lift (contains "h5" formats) in
  (if has_h5 then
     let* save_dir := lift (as_str save_dir) in
     let* model_name := lift (as_str model_name) in
     let h5_path := join (join save_dir model_name) (model_name +:+ "_" +:+ stamp +:+ ".h5") in
     on_fs (makedirs (dirname h5_path)) ;;
     ext env (SaveModel h5_path)
   else mret tt : M world unit) ;;
  let* formats := getitem2 config "export" "formats" in
  let* has_sm := lift (contains "saved_model" formats) in
  (if has_sm then
     let* save_dir := lift (as_str save_dir) in
     let* model_name := lift (as_str model_name) in
     let sm_path := join (join save_dir model_name) ("saved_model_" +:+ stamp) in
     ext env (SaveModel sm_path)
   else mret tt : M world unit).

(** [train_model], from "Setup logging" to "Compute class weights
    if enabled": the class weights the fits will use. *)
Definition load_data (config : value) : M world (option (list (nat * Q))) :=
  ext env (SetupLogging config) ;;
  getitem2 config "model" "architecture" ;;
  let* seed := lift (getitem config "seed") in
  ext env (SetSeedTF seed) ;;
  let* seed := lift (getitem config "seed") in
  ext env (SetSeedNP seed) ;;
  let* train_dir := getitem2 config "dataset" "train_dir" in
  let* val_dir := getitem2 config "dataset" "val_dir" in
  let* batch_size := getitem2 config "dataset" "batch_size" in
  let* shape := getitem2 config "model" "input_shape" in
  let* shape := lift (slice_to 2 shape) in
  let* image_size := lift (tuple shape) in
  ext env (LoadDataset train_dir val_dir batch_size image_size) ;;
  let* cw := lift (get config "class_weights" (VDict [])) in
  let* enabled := lift (get cw "enabled" (VBool false)) in
  if truthy enabled then
    let* train_dir := getitem2 config "dataset" "train_dir" in
    let* train_dir := lift (as_str train_dir) in
    let* weights := lift (Utils.compute_class_weights env train_dir) in
    mret (Some weights)
  else mret None.

(** [train_model], from "Create model" to "Setup callbacks": the
    compiled model with its backbone frozen. *)
Definition build_model (config : value) : M world net :=
  getitem2 config "model" "architecture" ;;
  let* architecture := getitem2 config "model" "architecture" in
  let* shape := getitem2 config "model" "input_shape" in
  let* shape := lift (tuple shape) in
  let* classes := getitem2 config "model" "num_classes" in
  let* dropout := getitem2 config "model" "dropout_rate" in
  let* pretrained := getitem2 config "model" "weights" in
  let* model := get_model env architecture
                  {| input_shape := shape; num_classes := classes;
                     dropout_rate := dropout; weights := pretrained |} in
  ext env Summary ;;
  let* model := compile_model model config in
  ext env (SetupCallbacks config) ;;
  mret model.

(** [train_model(config_path)] *)
Definition train_model (config_path : string) : M world (net * history) :=
  let* config := load_config config_path in
  let* class_weights := load_data config in
  let* model := build_model config in
  (* Phase 1: train the classifier head with the base frozen *)
  let* training := lift (getitem config "training") in
  let* initial_epochs := lift (get training "unfreeze_epoch" (VInt 10)) in
  let* history1 := fit model None initial_epochs class_weights in
  (* Phase 2: fine-tune with unfrozen layers *)
  let* training := lift (getitem config "training") in
  let* freeze_base := lift (get training "freeze_base" (VBool true)) in
  let* model := (if truthy freeze_base
                 then fine_tune model config initial_epochs class_weights
                 else mret model : M world net) in
  save_final config ;;
  mret (model, history1).

(** [main()] of the training script on the command line [argv]. *)
Definition parser : list Argparse.argument :=
  [ Argparse.add_store "--config" false (VStr "config.yaml") ].

Definition main (argv : list string) : M world unit :=
  let* args := lift (Argparse.parse_args parser argv) in
  ext env ListDevices ;;
  let* config_path := lift (let* v := Argparse.getattr args "config" in as_str v) in
  train_model config_path ;;
  mret tt.

End with_env.

End Train.

(** ** sklearn.metrics, as far as evaluate.py relies on it *)

Module Sklearn.

Definition count_if {A} (f : A -> bool) (l : list A) : Z :=
  Z.of_nat (length (List.filter f l)).

(** A ratio with [zero_division="warn"]: [0.0] on a zero denominator. *)
Definition ratio (num den : Z) : Q :=
  if (den =? 0)%Z then 0%Q else (Qmake num 1 / Qmake den 1)%Q.

Definition tp (l : Z) (y_true y_pred : list Z) : Z :=
  count_if (fun p => (fst p =? l)%Z && (snd p =? l)%Z) (zip y_true y_pred).

Definition precision_of (l : Z) (y_true y_pred : list Z) : Q :=
  ratio (tp l y_true y_pred) (count_if (Z.eqb l) y_pred).

Definition recall_of (l : Z) (y_true y_pred : list Z) : Q :=
  ratio (tp l y_true y_pred) (count_if (Z.eqb l) y_true).

Definition f1_of (l : Z) (y_true y_pred : list Z) : Q :=
  ratio (2 * tp l y_true y_pred)
        (count_if (Z.eqb l) y_pred + count_if (Z.eqb l) y_true).

Definition support_of (l : Z) (y_true : list Z) : Z := count_if (Z.eqb l) y_true.

(** [precision_recall_fscore_support(y_true, y_pred, average=None,
    labels=labels)]: one entry per requested label, in the order of
    [labels]; inputs of different lengths are refused. *)
Definition precision_recall_fscore_support (y_true y_pred : list Z) (labels : list Z)
  : result (list Q * list Q * list Q * list Z) :=
  if negb (length y_true =? length y_pred)%nat
  then Raise (ValueError "Found input variables with inconsistent numbers of samples")
  else Ok (map (fun l => precision_of l y_true y_pred) labels,
           map (fun l => recall_of l y_true y_pred) labels,
           map (fun l => f1_of l y_true y_pred) labels,
           map (fun l => support_of l y_true) labels).

End Sklearn.

(** ** training/evaluate.py *)

Module Evaluate.
Import OS Sklearn.

(** The dictionary [evaluate_model] returns. *)
Record report : Type := {
  accuracy : Q;
  precision : list Q;
  recall : list Q;
  f1 : list Q
}.

(** [range(n)] *)
Definition range (n : nat) : list Z := map Z.of_nat (seq 0 n).

(** The per-class metrics of [evaluate_model]:
    [precision_recall_fscore_support(y_true, y_pred, average=None,
    labels=range(len(class_names)))]. *)
Definition per_class_metrics (class_names : list string) (y_true y_pred : list Z)
  : result (list Q * list Q * list Q * list Z) :=
  precision_recall_fscore_support y_true y_pred (range (length class_names)).

(** [pd.DataFrame({"Class": ..., "Precision": ..., ...})]: columns of
    different lengths are refused. *)
Fixpoint data_frame (classes : list string) (p r f : list Q) (s : list Z)
  : result (list csv_row) :=
  match classes, p, r, f, s with
  | [], [], [], [], [] => Ok []
  | c :: classes, x :: p, y :: r, z :: f, n :: s =>
      let* rows := data_frame classes p r f s in
      mret ({| row_class := c; row_precision := x; row_recall := y;
               row_f1 := z; row_support := n |} :: rows)
  | _, _, _, _, _ => Raise (ValueError "All arrays must be of the same length")
  end.

(** [a[i]] on an array. *)
Definition item {A} (a : list A) (i : nat) : result A :=
  match a !! i with
  | Some x => Ok x
  | None => Raise IndexError
  end.

Section with_env.
Context (env : environment).

(** [load_config(config_path)] *)
Definition load_config (config_path : string) : M world value :=
  let* text := on_fs (read_file config_path) in
  lift (yaml_safe_load env text).

(** The [for images, labels in test_ds] loop: the class predicted
    for, and the class labelled on, every sample. *)
Fixpoint predict_all (i : nat) (batches : list (list (list Q * list Q)))
    (y_pred y_true : list Z) : M world (list Z * list Z) :=
  match batches with
  | [] => mret (y_pred, y_true)
  | batch :: rest =>
      ext env (Predict i) ;;
      let* pred := lift (mapM argmax (map fst batch)) in
      let* true := lift (mapM argmax (map snd batch)) in
      predict_all (S i) rest (y_pred ++ pred) (y_true ++ true)
  end.

(** The per-class table of [generate_performance_report]. *)
Definition report_rows (p r f : list Q) (class_names : list string)
  : result (list (string * Q * Q * Q)) :=
  mapM (fun entry : nat * string =>
          let* x := item p (fst entry) in
          let* y := item r (fst entry) in
          let* z := item f (fst entry) in
          mret (snd entry, x, y, z))
       (imap (fun i name => (i, name)) class_names).

(** [generate_performance_report(accuracy, precision, recall, f1,
    class_names, results_dir)] *)
Definition generate_performance_report (p r f : list Q) (class_names : list string)
    (results_dir : string) : M world unit :=
  let report_path := results_dir +:+ "/performance_analysis.md" in
  let* rows := lift (report_rows p r f class_names) in
  ext env (WriteReport report_path rows).

(** [evaluate_model(model_path, config_path)] *)
Definition evaluate_model (model_path config_path : string) : M world report :=
  let* config := load_config config_path in
  ext env (LoadModel model_path) ;;
  let* test_dir := lift (getitem_in config "dataset" "test_dir") in
  let* batch_size := lift (getitem_in config "dataset" "batch_size") in
  let* shape := lift (getitem_in config "model" "input_shape") in
  let* shape := lift (slice_to 2 shape) in
  let* image_size := lift (tuple shape) in
  ext env (LoadTestDataset test_dir batch_size image_size) ;;
  let class_names := test_class_names env in
  let* ys := predict_all 0 (test_batches env) [] [] in
  let y_pred := fst ys in
  let y_true := snd ys in
  ext env AccuracyScore ;;
  let acc := accuracy_score env y_true y_pred in
  let* prfs := lift (per_class_metrics class_names y_true y_pred) in
  let '(p, r, f, s) := prfs in
  ext env (AveragedScores "macro") ;;
  ext env (AveragedScores "weighted") ;;
  ext env (ClassificationReport class_names) ;;
  let results_dir := "../results" in
  on_fs (makedirs results_dir) ;;
  let* rows := lift (data_frame class_names p r f s) in
  ext env (WriteCsv (results_dir +:+ "/f1_scores.csv") rows) ;;
  ext env ConfusionMatrix ;;
  ext env (PlotConfusionMatrix (results_dir +:+ "/confusion_matrix.png")) ;;
  generate_performance_report p r f class_names results_dir ;;
  mret {| accuracy := acc; precision := p; recall := r; f1 := f |}.

End with_env.

End Evaluate.

(** ** quantization/post_training_quant.py *)

Module Quant.
Import OS Argparse.

(** A fresh [TFLiteConverter]. *)
Definition new_converter : converter :=
  {| optimizations := [];
     representative_dataset := None;
     supported_ops := [TFLITE_BUILTINS];
     inference_input_type := float32;
     inference_output_type := float32 |}.

(** Truth value of [representative_data_dir], [None] or a [str]. *)
Definition given (dir : option string) : option string :=
  match dir with
  | Some d => if String.eqb d EmptyString then None else Some d
  | None => None
  end.

(** The converter as [convert_to_tflite] has set it up when it calls
    [converter.convert()]. *)
Definition configure (quantize : bool) (representative_data_dir : option string)
  : converter :=
  let converter := new_converter in
  if quantize then
    let converter :=
      {| optimizations := [OPTIMIZE_DEFAULT];
         representative_dataset := representative_dataset converter;
         supported_ops := supported_ops converter;
         inference_input_type := inference_input_type converter;
         inference_output_type := inference_output_type converter |} in
    match given representative_data_dir with
    | Some dir =>
        {| optimizations := optimizations converter;
           representative_dataset := Some (dir, 1000%Z);
           supported_ops := [TFLITE_BUILTINS_INT8];
           inference_input_type := uint8;
           inference_output_type := uint8 |}
    | None => converter
    end
  else converter.

(** A parse in progress in which the required path [key], once its
    option has been seen, is held as a string. *)
Definition path_given (key : string) (st : progress) : Prop :=
  In ("--" +:+ key) (seen st) -> exists s, assoc key (ns st) = Some (VStr s).

(** A parse in progress that holds [quantize=True]. *)
Definition quantize_set (st : progress) : Prop :=
  assoc "quantize" (ns st) = Some (VBool true).

Section with_env.
Context (env : environment).

(** [convert_to_tflite(model_path, output_path, quantize,
    representative_data_dir)] *)
Definition convert_to_tflite (model_path output_path : string) (quantize : bool)
    (representative_data_dir : option string) : M world string :=
  (if endswith model_path ".h5" then ext env (LoadModel model_path)
   else ext env (LoadModel model_path)) ;;
  let converter := configure quantize representative_data_dir in
  ext env (Convert model_path converter) ;;
  let tflite_model := tflite_bytes env model_path converter in
  on_fs (makedirs (dirname output_path)) ;;
  on_fs (write_file output_path tflite_model) ;;
  let* w := get_store in
  let* original_size := (if isfile (fs w) model_path then on_fs (getsize model_path)
                         else mret 0%Z : M world Z) in
  let* tflite_size := on_fs (getsize output_path) in
  (if (0 <? original_size)%Z
   then lift (truediv tflite_size original_size) ;; mret tt
   else mret tt : M world unit) ;;
  mret output_path.

(** The [for images, labels in test_ds] loop of
    [evaluate_tflite_model]; a sample is the dequantized output
    vector of the interpreter and the label vector. *)
Fixpoint count_correct (num_samples : Z) (i : nat) (samples : list (list Q * list Q))
    (correct total : Z) : M world (Z * Z) :=
  match samples with
  | [] => mret (correct, total)
  | (output_data, labels) :: rest =>
      if (num_samples <=? total)%Z then mret (correct, total)
      else
        ext env (Invoke i) ;;
        let* predicted_class := lift (argmax output_data) in
        let* true_class := lift (argmax labels) in
        let correct := if (predicted_class =? true_class)%Z
                       then (correct + 1)%Z else correct in
        count_correct num_samples (S i) rest correct (total + 1)%Z
  end.

(** [evaluate_tflite_model(tflite_path, test_data_dir, num_samples)] *)
Definition evaluate_tflite_model (tflite_path test_data_dir : string) (num_samples : Z)
  : M world Q :=
  ext env (Interpreter tflite_path) ;;
  ext env (LoadTfliteDataset test_data_dir) ;;
  let test_ds := tflite_samples env test_data_dir in
  let* counts := count_correct num_samples 0 test_ds 0%Z 0%Z in
  lift (truediv (fst counts) (snd counts)).

(** [benchmark_inference_time(tflite_path, num_runs)] *)
Definition benchmark_inference_time (tflite_path : string) (num_runs : Z)
  : M world unit :=
  ext env (Interpreter tflite_path) ;;
  ext env (Benchmark tflite_path num_runs).

(** The parser [main] builds. *)
Definition parser : list argument :=
  [ add_store "--model_path" true VNone;
    add_store "--output_path" true VNone;
    add_store_true "--quantize" (Some (VBool true));
    add_store "--representative_data" false VNone;
    add_store_true "--evaluate" None;
    add_store "--test_data" false VNone;
    add_store_true "--benchmark" None ].

Definition str_of (v : value) : option string :=
  match v with
  | VStr s => Some s
  | _ => None
  end.

(** [main()] on the command line [argv]. *)
Definition main (argv : list string) : M world unit :=
  let* args := lift (parse_args parser argv) in
  let* model_path := lift (let* v := getattr args "model_path" in as_str v) in
  let* output_path := lift (let* v := getattr args "output_path" in as_str v) in
  let* quantize := lift (getattr args "quantize") in
  let* representative_data := lift (getattr args "representative_data") in
  let* tflite_path := convert_to_tflite model_path output_path (truthy quantize)
                        (str_of representative_data) in
  let* evaluate := lift (getattr args "evaluate") in
  let* test_data := lift (getattr args "test_data") in
  (if truthy evaluate && truthy test_data
   then let* dir := lift (as_str test_data) in
        evaluate_tflite_model tflite_path dir 100 ;; mret tt
   else mret tt : M world unit) ;;
  let* benchmark := lift (getattr args "benchmark") in
  if truthy benchmark then benchmark_inference_time tflite_path 100
  else mret tt.

End with_env.

End Quant.

(** ** A small run, for concrete instances *)

Module Sample.

(** A configuration as [yaml.safe_load] returns it; [freeze_base]
    and [architecture] vary. *)
Definition config_with (architecture : string) (training : list (string * value)) : value :=
  VDict [
    ("seed", VInt 42);
    ("dataset", VDict [("train_dir", VStr "data/train"); ("val_dir", VStr "data/val");
                       ("test_dir", VStr "data/test"); ("batch_size", VInt 32)]);
    ("model", VDict [("architecture", VStr architecture);
                     ("input_shape", VList [VInt 224; VInt 224; VInt 3]);
                     ("num_classes", VInt 3); ("dropout_rate", VFloat (1 # 2));
                     ("weights", VStr "imagenet")]);
    ("optimizer", VDict [("name", VStr "adam"); ("learning_rate", VFloat (1 # 1000))]);
    ("loss", VDict [("name", VStr "categorical_crossentropy")]);
    ("training", VDict training);
    ("class_weights", VDict [("enabled", VBool true)]);
    ("export", VDict [("save_dir", VStr "../models");
                      ("formats", VList [VStr "h5"; VStr "saved_model"])])
  ].

Definition config : value :=
  config_with "MobileNetV2" [("epochs", VInt 30); ("freeze_until_layer", VInt 2)].

Definition config_unfrozen : value :=
  config_with "MobileNetV2" [("epochs", VInt 30); ("freeze_base", VBool false)].

(** The text of a configuration file stands for the document it
    holds. *)
Definition parse_yaml (text : string) : result value :=
  if String.eqb text "frozen base" then Ok config
  else if String.eqb text "trainable base" then Ok config_unfrozen
  else if String.prefix "architecture: " text
       then Ok (config_with (substring 14 (String.length text - 14) text) [("epochs", VInt 30)])
  else Raise (FrameworkError "yaml.YAMLError").

Definition tree (path : string) : result (list string) :=
  if String.eqb path "data/train" then Ok ["b"; "a"; "readme.txt"]
  else if String.eqb path "data/train/a" then Ok ["1.png"; "2.JPG"; "x.txt"]
  else if String.eqb path "data/train/b" then Ok ["1.jpeg"]
  else if String.eqb path "data/new" then Ok ["c"]
  else if String.eqb path "data/new/c" then Ok ["notes.txt"]
  else Raise (FileNotFoundError path).

Definition env : environment := {|
  raises := fun _ => None;
  yaml_safe_load := parse_yaml;
  listdir := tree;
  isdir := fun path => existsb (String.eqb path) ["data/train/a"; "data/train/b"; "data/new/c"];
  timestamp := "20240101_120000";
  backbone_depth := fun _ => 4;
  test_class_names := ["a"; "b"; "c"];
  test_batches := [[([1 # 2; 1 # 4; 1 # 4]%Q, [1; 0; 0]%Q); ([0; 1; 0]%Q, [0; 1; 0]%Q)];
                   [([0; 1 # 3; 2 # 3]%Q, [0; 0; 1]%Q)]];
  accuracy_score := fun _ _ => 1%Q;
  tflite_bytes := fun _ _ => "TFL3";
  tflite_samples := fun dir => if String.eqb dir "data/test"
                               then [([0; 1]%Q, [0]%Q); ([1; 0]%Q, [1]%Q)] else []
|}.

(** A training directory with two classes of two images each. *)
Definition even_tree (path : string) : result (list string) :=
  if String.eqb path "data/even" then Ok ["y"; "x"]
  else if String.eqb path "data/even/x" then Ok ["1.png"; "2.png"]
  else if String.eqb path "data/even/y" then Ok ["3.JPEG"; "4.jpg"; "labels.csv"]
  else Raise (FileNotFoundError path).

Definition even_env : environment := {|
  raises := raises env;
  yaml_safe_load := yaml_safe_load env;
  listdir := even_tree;
  isdir := fun path => existsb (String.eqb path) ["data/even/x"; "data/even/y"];
  timestamp := timestamp env;
  backbone_depth := backbone_depth env;
  test_class_names := test_class_names env;
  test_batches := test_batches env;
  accuracy_score := accuracy_score env;
  tflite_bytes := tflite_bytes env;
  tflite_samples := tflite_samples env
|}.

(** A configuration with the checkpoint and the CSV log on, and early
    stopping off. *)
Definition callbacks_config : value :=
  VDict [
    ("export", VDict [("save_dir", VStr "../models")]);
    ("model", VDict [("architecture", VStr "mobilenetv2")]);
    ("callbacks",
     VDict [("checkpoint", VDict [("monitor", VStr "val_loss"); ("mode", VStr "min")]);
            ("early_stopping", VDict [("enabled", VBool false)]);
            ("csv_logger", VDict [("filename", VStr "../results/log.csv")])])
  ].

Definition start : world :=
  {| fs := {| OS.files := {[ "config.yaml" := "frozen base";
                             "unfrozen.yaml" := "trainable base";
                             "resnet.yaml" := "architecture: ResNet50" ]};
              OS.dirs := ∅ |};
     log := [] |}.

End Sample.

(** ** training/utils.py: logging, callbacks and augmentation *)

Module Setup.
Import OS.

(** A Keras callback object is the record of the arguments it was
    built with. *)
Inductive callback : Type :=
| ModelCheckpoint (filepath : string) (monitor save_best_only mode : value)
| EarlyStopping (monitor patience restore_best_weights mode : value)
| ReduceLROnPlateau (monitor factor patience min_lr : value)
| TensorBoard (log_dir : string) (histogram_freq write_graph : value)
| CSVLogger (filename : string).

Inductive callback_kind : Type :=
  Checkpoint | Stopping | Schedule | Board | Csv.

Definition kind_of (c : callback) : callback_kind :=
  match c with
  | ModelCheckpoint _ _ _ _ => Checkpoint
  | EarlyStopping _ _ _ _ => Stopping
  | ReduceLROnPlateau _ _ _ _ => Schedule
  | TensorBoard _ _ _ => Board
  | CSVLogger _ => Csv
  end.

(** The directory a callback writes into, when it writes. *)
Definition target_dir (c : callback) : option string :=
  match c with
  | ModelCheckpoint filepath _ _ _ => Some (dirname filepath)
  | TensorBoard log_dir _ _ => Some log_dir
  | CSVLogger filename => Some (dirname filename)
  | _ => None
  end.

(** The "Model Checkpoint" block of [setup_callbacks]. *)
Definition checkpoint_callback (config callback_config : value)
    (callbacks : list callback) : M filesystem (list callback) :=
  let* section := lift (get callback_config "checkpoint" (VDict [])) in
  let* enabled := lift (get section "enabled" (VBool true)) in
  if truthy enabled then
    let* checkpoint_config := lift (getitem callback_config "checkpoint") in
    let* save_dir := lift (getitem_in config "export" "save_dir") in
    let* architecture := lift (getitem_in config "model" "architecture") in
    let* save_dir := lift (as_str save_dir) in
    let* architecture := lift (as_str architecture) in
    let checkpoint_path :=
      join (join (join save_dir architecture) "checkpoints") "best_model.h5" in
    makedirs (dirname checkpoint_path) ;;
    let* monitor := lift (get checkpoint_config "monitor" (VStr "val_accuracy")) in
    let* best := lift (get checkpoint_config "save_best_only" (VBool true)) in
    let* mode := lift (get checkpoint_config "mode" (VStr "max")) in
    mret (callbacks ++ [ModelCheckpoint checkpoint_path monitor best mode])
  else mret callbacks.

(** The "Early Stopping" block. *)
Definition early_stopping_callback (callback_config : value)
    (callbacks : list callback) : M filesystem (list callback) :=
  let* section := lift (get callback_config "early_stopping" (VDict [])) in
  let* enabled := lift (get section "enabled" (VBool true)) in
  if truthy enabled then
    let* es_config := lift (getitem callback_config "early_stopping") in
    let* monitor := lift (get es_config "monitor" (VStr "val_loss")) in
    let* patience := lift (get es_config "patience" (VInt 10)) in
    let* restore := lift (get es_config "restore_best_weights" (VBool true)) in
    let* mode := lift (get es_config "mode" (VStr "min")) in
    mret (callbacks ++ [EarlyStopping monitor patience restore mode])
  else mret callbacks.

(** The "Learning Rate Scheduler" block. *)
Definition lr_schedule_callback (config : value)
    (callbacks : list callback) : M filesystem (list callback) :=
  let* section := lift (get config "lr_schedule" (VDict [])) in
  let* type := lift (get section "type" VNone) in
  if is_str "reduce_on_plateau" type then
    let* lr_config := lift (getitem config "lr_schedule") in
    let* monitor := lift (get lr_config "monitor" (VStr "val_loss")) in
    let* factor := lift (get lr_config "factor" (VFloat (1 # 2))) in
    let* patience := lift (get lr_config "patience" (VInt 5)) in
    let* min_lr := lift (get lr_config "min_lr" (VFloat (1 # 10000000))) in
    mret (callbacks ++ [ReduceLROnPlateau monitor factor patience min_lr])
  else mret callbacks.

(** The "TensorBoard" block. *)
Definition tensorboard_callback (callback_config : value)
    (callbacks : list callback) : M filesystem (list callback) :=
  let* section := lift (get callback_config "tensorboard" (VDict [])) in
  let* enabled := lift (get section "enabled" (VBool false)) in
  if truthy enabled then
    let* tb_config := lift (getitem callback_config "tensorboard") in
    let* log_dir := lift (get tb_config "log_dir" (VStr "../logs")) in
    let* log_dir := lift (as_str log_dir) in
    makedirs log_dir ;;
    let* freq := lift (get tb_config "histogram_freq" (VInt 1)) in
    let* graph := lift (get tb_config "write_graph" (VBool true)) in
    mret (callbacks ++ [TensorBoard log_dir freq graph])
  else mret callbacks.

(** The "CSV Logger" block. *)
Definition csv_logger_callback (callback_config : value)
    (callbacks : list callback) : M filesystem (list callback) :=
  let* section := lift (get callback_config "csv_logger" (VDict [])) in
  let* enabled := lift (get section "enabled" (VBool true)) in
  if truthy enabled then
    let* csv_config := lift (getitem callback_config "csv_logger") in
    let* csv_path := lift (get csv_config "filename" (VStr "../results/training_log.csv")) in
    let* csv_path := lift (as_str csv_path) in
    makedirs (dirname csv_path) ;;
    mret (callbacks ++ [CSVLogger csv_path])
  else mret callbacks.

(** [setup_callbacks(config)] *)
Definition setup_callbacks (config : value) : M filesystem (list callback) :=
  let callbacks := [] in
  let* callback_config := lift (get config "callbacks" (VDict [])) in
  let* callbacks := checkpoint_callback config callback_config callbacks in
  let* callbacks := early_stopping_callback callback_config callbacks in
  let* callbacks := lr_schedule_callback config callbacks in
  let* callbacks := tensorboard_callback callback_config callbacks in
  let* callbacks := csv_logger_callback callback_config callbacks in
  mret callbacks.

(** [logging.FileHandler(path)]: the file is opened for appending, so
    it exists afterwards and keeps what it held. *)
Definition open_append (path : string) : M filesystem unit := fun fs =>
  if bool_decide (path ∈ dirs fs) then (Raise (IsADirectoryError path), fs)
  else if negb (dir_exists fs (dirname path)) then (Raise (FileNotFoundError path), fs)
  else (Ok tt, {| files := match files fs !! path with
                           | Some _ => files fs
                           | None => <[path := EmptyString]> (files fs)
                           end;
                  dirs := dirs fs |}).

Section logging.
(** The logging module: [getattr(logging, name)],
    [logging.basicConfig(level=..., format=...)] and
    [logging.Formatter(fmt)]. *)
Context (logging_getattr : value -> result value)
        (basic_config : value -> value -> result unit)
        (formatter : value -> result unit).

(** [setup_logging(config)] *)
Definition setup_logging (config : value) : M filesystem unit :=
  let* log_config := lift (get config "logging" (VDict [])) in
  let* level_name := lift (get log_config "level" (VStr "INFO")) in
  let* level := lift (logging_getattr level_name) in
  let* fmt := lift (get log_config "format"
                      (VStr "%(asctime)s - %(levelname)s - %(message)s")) in
  lift (basic_config level fmt) ;;
  let* save_to_file := lift (get log_config "save_to_file" (VBool false)) in
  if truthy save_to_file then
    let* log_file := lift (get log_config "log_file" (VStr "training.log")) in
    let* log_file := lift (as_str log_file) in
    makedirs (dirname log_file) ;;
    open_append log_file ;;
    let* fmt := lift (getitem log_config "format") in
    lift (formatter fmt)
  else mret tt.

End logging.

(** The layers of the augmentation model, with the factor each is
    built with. *)
Inductive augmentation : Type :=
| RandomFlip (mode : string)
| RandomRotation (factor : Q)
| RandomZoom (factor : Q)
| RandomContrast (factor : Q).

(** A YAML number in arithmetic. *)
Definition number (v : value) : result Q :=
  match v with
  | VInt z => Ok (inject_Z z)
  | VFloat q => Ok q
  | VBool b => Ok (if b then 1%Q else 0%Q)
  | _ => Raise (TypeError "unsupported operand type(s)")
  end.

(** [v[0]] *)
Definition first_item (v : value) : result value :=
  match v with
  | VList (x :: _) => Ok x
  | VList [] => Raise IndexError
  | VStr (String c _) => Ok (VStr (String c EmptyString))
  | VStr EmptyString => Raise IndexError
  | VDict _ => Raise (KeyError "0")
  | _ => Raise (TypeError "object is not subscriptable")
  end.

(** [create_augmentation_layer(config)] *)
Definition create_augmentation_layer (config : value) : result (list augmentation) :=
  let* aug_config := get config "augmentation" (VDict []) in
  let* rotation_range := get aug_config "rotation_range" (VInt 45) in
  let* rotation_range := number rotation_range in
  let* zoom_range := get aug_config "zoom_range" (VList [VFloat (8 # 10); VFloat (12 # 10)]) in
  let* zoom_low := first_item zoom_range in
  let* zoom_low := number zoom_low in
  Ok [RandomFlip "horizontal_and_vertical";
      RandomRotation (rotation_range / 360)%Q;
      RandomZoom (zoom_low - 1)%Q;
      RandomContrast (2 # 10)%Q].

End Setup.

(** ** quantization/post_training_quant.py: the calibration data *)

Module Calibration.

(** An image tensor is the list of its values. *)
Definition normalize (images : list Q) : list Q := map (fun x => (x / 255)%Q) images.

(** The loop of [representative_dataset_generator]: what it yields,
    one list of one tensor per sample, given the samples of the data
    set in the order they come. *)
Fixpoint generate {L : Type} (num_samples count : Z) (dataset : list (list Q * L))
  : list (list (list Q)) :=
  match dataset with
  | [] => []
  | (images, _) :: rest =>
      if (num_samples <=? count)%Z then []
      else [normalize images] :: generate num_samples (count + 1)%Z rest
  end.

(** [representative_dataset_generator(data_dir, num_samples)] on the
    samples of [data_dir]. *)
Definition representative_dataset_generator {L : Type} (dataset : list (list Q * L))
    (num_samples : Z) : list (list (list Q)) :=
  generate num_samples 0%Z dataset.

End Calibration.

(** ** Observations on runs *)

Module Observe.

Definition is_compile (c : call) : bool :=
  match c with
  | Compile _ _ _ _ => true
  | _ => false
  end.

Definition is_conversion_call (c : call) : bool :=
  match c with
  | LoadModel _ | Convert _ _ => true
  | _ => false
  end.


(** A line as [readlines] returns it: a body without line feed and
    carriage return, with or without the line feed that ended it. *)
Definition line_body (l body : string) : Prop :=
  (l = body \/ l = body +:+ String LF EmptyString)
  /\ contains_char LF body = false /\ contains_char CR body = false.

(** A sample the interpreter assigns to class 0. *)
Definition predicted_zero {L : Type} (sample : list Q * L) : bool :=
  match argmax (fst sample) with
  | Ok z => (z =? 0)%Z
  | Raise _ => false
  end.

(** At most one callback, of the given kind, whose directory (when it
    has one) exists in [fs]. *)
Definition one_callback (kind : Setup.callback_kind) (fs : OS.filesystem)
    (l : list Setup.callback) : Prop :=
  l = [] \/ exists c, l = [c] /\ Setup.kind_of c = kind
                      /\ forall d, Setup.target_dir c = Some d -> d ∈ OS.dirs fs.

(** Whatever the outcome of [c], the framework calls it adds to the
    log all satisfy [P]. *)
Definition emits (P : call -> Prop) {A : Type} (c : M world A) : Prop :=
  forall w, exists calls, log (snd (c w)) = log w ++ calls /\ Forall P calls.

End Observe.

(** * Properties *)

(** Unfold the sequencing of [result] and [M]. *)
Ltac run :=
  unfold Py.bind, mbind, Py.M_bind, Py.result_bind, mret, Py.M_ret, Py.result_ret,
    Py.lift, Py.raise, Py.get_store, Framework.on_fs, Framework.ext in *;
  cbn [fst snd] in *.

(** ** The model on small inputs *)

Example dirname_of_default_path : OS.dirname "../models/class_names.txt" = "../models".
Proof. reflexivity. Qed.

Example dirname_of_bare_name : OS.dirname "model.tflite" = EmptyString.
Proof. reflexivity. Qed.

Example dirname_of_root_entry : OS.dirname "/a" = "/".
Proof. reflexivity. Qed.

Example join_three :
  OS.join (OS.join "../models" "mobilenetv2") "mobilenetv2_x.h5"
  = "../models/mobilenetv2/mobilenetv2_x.h5".
Proof. reflexivity. Qed.

Example sorted_by_code_point : Utils.sorted ["b"; "a"; "B"; "aa"] = ["B"; "a"; "aa"; "b"].
Proof. reflexivity. Qed.

Example is_image_ignores_case :
  map Utils.is_image ["leaf.PNG"; "leaf.jpeg"; "leaf.Jpg"; "notes.txt"; "png"]
  = [true; true; true; false; false].
Proof. reflexivity. Qed.

Example strip_line_end : strip (String " " "rust" +:+ String CR (String LF EmptyString)) = "rust".
Proof. reflexivity. Qed.

Example unfreeze_from_2 :
  Model.unfreeze_base_model [false; false; false; false; false] (VInt 2)
  = Ok [false; false; true; true; true].
Proof. reflexivity. Qed.

Example unfreeze_from_minus_2 :
  Model.unfreeze_base_model [false; false; false; false; false] (VInt (-2))
  = Ok [false; false; false; true; true].
Proof. reflexivity. Qed.

Example unfreeze_beyond_the_end :
  Model.unfreeze_base_model [false; false; false] (VInt 100) = Ok [false; false; false].
Proof. reflexivity. Qed.

Example parse_abbreviation :
  Argparse.parse_args Quant.parser
    ["--model"; "m.h5"; "--output_path=out/m.tflite"; "--bench"]
  = Ok [("model_path", VStr "m.h5"); ("output_path", VStr "out/m.tflite");
        ("quantize", VBool true); ("representative_data", VNone);
        ("evaluate", VBool false); ("test_data", VNone); ("benchmark", VBool true)].
Proof. reflexivity. Qed.

Example parse_missing_required :
  Argparse.parse_args Quant.parser ["--model_path"; "m.h5"] = Raise (SystemExit 2).
Proof. reflexivity. Qed.

Example per_class_metrics_absent_class :
  Evaluate.per_class_metrics ["a"; "b"; "c"] [0; 1; 1]%Z [0; 1; 0]%Z
  = Ok ([1 # 2; 1 # 1; 0]%Q, [1 # 1; 1 # 2; 0]%Q, [2 # 3; 2 # 3; 0]%Q, [1; 2; 0]%Z).
Proof. reflexivity. Qed.

(** ** Strings *)

Section strings.

Lemma append_nil_l (a : string) : EmptyString +:+ a = a.
Proof. reflexivity. Qed.

Lemma append_cons x (a b : string) : String x a +:+ b = String x (a +:+ b).
Proof. reflexivity. Qed.

Lemma append_assoc (a b c : string) : (a +:+ b) +:+ c = a +:+ (b +:+ c).
Proof.
  induction a as [|x a IH]; [reflexivity|].
  now rewrite !append_cons, IH.
Qed.

Lemma append_empty_r (a : string) : a +:+ EmptyString = a.
Proof.
  induction a as [|x a IH]; [reflexivity|].
  now rewrite append_cons, IH.
Qed.

Lemma contains_char_cons c x s :
  contains_char c (String x s) = Ascii.eqb c x || contains_char c s.
Proof. reflexivity. Qed.

Lemma contains_char_append c a b :
  contains_char c (a +:+ b) = contains_char c a || contains_char c b.
Proof.
  induction a as [|x a IH]; [reflexivity|].
  change (String x a +:+ b) with (String x (a +:+ b)).
  rewrite !contains_char_cons, IH. now rewrite orb_assoc.
Qed.

Lemma concat_empty_cons (x : string) (xs : list string) :
  String.concat EmptyString (x :: xs) = x +:+ String.concat EmptyString xs.
Proof.
  destruct xs as [|y ys]; cbn [String.concat].
  - now rewrite append_empty_r.
  - reflexivity.
Qed.

Lemma universal_newlines_without_cr s :
  contains_char CR s = false -> universal_newlines false s = s.
Proof.
  induction s as [|c s IH]; [reflexivity|].
  rewrite contains_char_cons. intros [Hc Hs]%orb_false_elim.
  cbn [universal_newlines]. rewrite eqb_sym, Hc.
  destruct (Ascii.eqb_spec c LF) as [->|_]; now rewrite IH.
Qed.

Lemma split_keepends_line cur line rest :
  contains_char LF line = false ->
  split_keepends cur (line +:+ String LF rest)
  = (cur +:+ line +:+ String LF EmptyString) :: split_keepends EmptyString rest.
Proof.
  revert cur. induction line as [|c line IH]; intros cur Hline.
  - rewrite !append_nil_l. cbn [split_keepends]. now rewrite Ascii.eqb_refl.
  - rewrite contains_char_cons in Hline.
    apply orb_false_elim in Hline as [Hc Hline].
    change (String c line +:+ String LF rest) with (String c (line +:+ String LF rest)).
    cbn [split_keepends]. rewrite eqb_sym, Hc, IH by assumption.
    now rewrite append_assoc.
Qed.

Lemma rstrip_cons c s :
  rstrip (String c s)
  = match rstrip s with
    | EmptyString => if is_space c then EmptyString else String c EmptyString
    | String c' s' => String c (String c' s')
    end.
Proof. reflexivity. Qed.

Lemma rstrip_line_end s : rstrip (s +:+ String LF EmptyString) = rstrip s.
Proof.
  induction s as [|c s IH]; [reflexivity|].
  change (String c s +:+ String LF EmptyString) with (String c (s +:+ String LF EmptyString)).
  now rewrite !rstrip_cons, IH.
Qed.

Lemma rstrip_id s : has_trailing_space s = false -> rstrip s = s.
Proof.
  unfold has_trailing_space. induction s as [|c s IH]; [reflexivity|].
  destruct s as [|c' s'].
  - cbn. now intros ->.
  - intros H. change (last_char (String c (String c' s')))
      with (last_char (String c' s')) in H.
    now rewrite rstrip_cons, (IH H).
Qed.

Lemma lstrip_id s : has_leading_space s = false -> lstrip s = s.
Proof. destruct s as [|c s]; cbn; [reflexivity | now intros ->]. Qed.

Lemma strip_line s :
  has_leading_space s = false -> has_trailing_space s = false ->
  strip (s +:+ String LF EmptyString) = s.
Proof.
  intros Hl Ht. unfold strip.
  now rewrite rstrip_line_end, (rstrip_id s Ht), (lstrip_id s Hl).
Qed.

End strings.

(** ** Class-name files *)

Section class_names.
Import OS Utils.

Lemma write_lines_cons name names :
  write_lines (name :: names) = name +:+ String LF (write_lines names).
Proof.
  unfold write_lines. cbn [map]. rewrite concat_empty_cons, append_assoc.
  reflexivity.
Qed.

Lemma write_lines_without_cr names :
  Forall clean_name names -> contains_char CR (write_lines names) = false.
Proof.
  induction 1 as [|name names (_ & Hcr & _) _ IH]; [reflexivity|].
  rewrite write_lines_cons, contains_char_append, Hcr.
  now rewrite contains_char_cons, IH.
Qed.

Lemma split_write_lines names :
  Forall clean_name names ->
  split_keepends EmptyString (write_lines names)
  = map (fun name => name +:+ String LF EmptyString) names.
Proof.
  induction 1 as [|name names (Hlf & _) _ IH]; [reflexivity|].
  rewrite write_lines_cons, split_keepends_line by assumption.
  cbn [map]. now rewrite IH.
Qed.

Lemma read_back_lines names :
  Forall clean_name names -> map strip (readlines (write_lines names)) = names.
Proof.
  intros H. unfold readlines.
  rewrite universal_newlines_without_cr by now apply write_lines_without_cr.
  rewrite split_write_lines by assumption.
  induction H as [|name names (_ & _ & Hl & Ht) _ IH]; [reflexivity|].
  cbn [map]. now rewrite strip_line, IH.
Qed.

Lemma save_class_names_writes names path fs fs' :
  save_class_names names path fs = (Ok tt, fs') ->
  files fs' !! path = Some (write_lines names).
Proof.
  unfold save_class_names, makedirs, write_file. run.
  repeat (case_match; try discriminate); intros [= <-]; cbn.
  all: apply lookup_insert_eq.
Qed.

(** C10, as amended: a list of names without line feed, carriage
    return or white space at either end of a name is read back from
    the file [save_class_names] wrote, name by name and in order. *)
Theorem save_load_class_names_roundtrip names path fs fs' :
  Forall clean_name names ->
  save_class_names names path fs = (Ok tt, fs') ->
  load_class_names path fs' = (Ok names, fs').
Proof.
  intros Hnames Hsave.
  apply save_class_names_writes in Hsave.
  unfold load_class_names, read_file. run. rewrite Hsave.
  now rewrite read_back_lines.
Qed.

Lemma save_load_class_names_roundtrip_witness :
  load_class_names "../models/class_names.txt"
    (snd (save_class_names ["Apple scab"; "Corn rust"; EmptyString] "../models/class_names.txt" empty_fs))
  = (Ok ["Apple scab"; "Corn rust"; EmptyString],
     snd (save_class_names ["Apple scab"; "Corn rust"; EmptyString] "../models/class_names.txt" empty_fs)).
Proof.
  apply (save_load_class_names_roundtrip
           ["Apple scab"; "Corn rust"; EmptyString] "../models/class_names.txt" empty_fs).
  - repeat constructor.
  - vm_compute. reflexivity.
Defined.

(** C10, as stated, fails: a carriage return inside a name is not a
    line feed and not at an end of the name, yet reading the file
    splits the name there. *)
Lemma carriage_return_splits_class_name :
  let name := String "a" (String CR (String "b" EmptyString)) in
  let path := "../models/class_names.txt" in
  Forall (fun n => contains_char LF n = false /\
                   has_leading_space n = false /\ has_trailing_space n = false) [name]
  /\ fst ((save_class_names [name] path ;; load_class_names path) empty_fs)
     = Ok ["a"; "b"]
  /\ ["a"; "b"] <> [name].
Proof.
  cbn zeta. split; [|split].
  - repeat constructor.
  - vm_compute. reflexivity.
  - discriminate.
Qed.

End class_names.

(** ** Sequences of fallible steps *)

Section map_m.
Context {A B : Type} (f : A -> result B).

Lemma mapM_cons x l :
  mapM f (x :: l)
  = match f x with
    | Ok y => match mapM f l with Ok k => Ok (y :: k) | Raise e => Raise e end
    | Raise e => Raise e
    end.
Proof. reflexivity. Qed.

Lemma mapM_ok l k : Forall2 (fun x y => f x = Ok y) l k -> mapM f l = Ok k.
Proof.
  induction 1 as [|x y l k Hx _ IH]; [reflexivity|].
  now rewrite mapM_cons, Hx, IH.
Qed.

Lemma mapM_ok_inv l k : mapM f l = Ok k -> Forall2 (fun x y => f x = Ok y) l k.
Proof.
  revert k. induction l as [|x l IH]; intros k.
  - intros [= <-]. constructor.
  - rewrite mapM_cons. destruct (f x) as [y|e] eqn:Hx; [|discriminate].
    destruct (mapM f l) as [k'|e]; [|discriminate].
    intros [= <-]. constructor; auto.
Qed.

(** When every step can only fail in one way, so can the sequence,
    and it does as soon as one step fails. *)
Lemma mapM_raise e l :
  (forall x, x ∈ l -> f x = Raise e \/ exists y, f x = Ok y) ->
  Exists (fun x => f x = Raise e) l -> mapM f l = Raise e.
Proof.
  induction l as [|x l IH]; intros Hall Hex; [inversion Hex|].
  rewrite mapM_cons.
  destruct (Hall x) as [-> | [y Hy]]; [left | reflexivity |].
  rewrite Hy. inversion Hex as [? ? Hx|? ? Hl]; subst; [congruence|].
  rewrite IH; [reflexivity | | assumption].
  intros z Hz. apply Hall. now right.
Qed.

End map_m.

(** ** Class weights *)

Section class_weights.
Import OS Utils.
Context (env : environment).

Lemma inject_Z_nonzero z : z <> 0%Z -> ~ (inject_Z z == 0)%Q.
Proof. intros Hz H. now apply (inject_Z_injective z 0) in H. Qed.

Lemma weight_of_ok total n i count :
  (n * count)%Z <> 0%Z ->
  weight_of total n (i, count) = Ok (i, (inject_Z total / inject_Z (n * count))%Q).
Proof.
  intros H. unfold weight_of, truediv. cbn [snd fst].
  destruct (Z.eqb_spec (n * count) 0); [contradiction | reflexivity].
Qed.

Lemma weight_of_zero total n i :
  weight_of total n (i, 0%Z) = Raise ZeroDivisionError.
Proof. unfold weight_of, truediv. cbn [snd]. now rewrite Z.mul_0_r. Qed.

Lemma weight_of_cases total n item :
  weight_of total n item = Raise ZeroDivisionError \/ exists y, weight_of total n item = Ok y.
Proof.
  unfold weight_of, truediv. destruct (n * snd item =? 0)%Z; [left | right; eexists]; reflexivity.
Qed.

Lemma weights_ok total n (key : nat -> nat) counts :
  n <> 0%Z -> Forall (fun c => (0 < c)%Z) counts ->
  mapM (weight_of total n) (imap (fun i c => (key i, c)) counts)
  = Ok (imap (fun i c => (key i, (inject_Z total / inject_Z (n * c))%Q)) counts).
Proof.
  intros Hn H. revert key. induction H as [|c counts Hc _ IH]; intros key; [reflexivity|].
  rewrite !imap_cons, mapM_cons, weight_of_ok by nia.
  unfold compose. now rewrite (IH (fun i => key (S i))).
Qed.

Lemma snd_enumerate (counts : list Z) : map snd (imap (fun i c => (i, c)) counts) = counts.
Proof.
  change (map snd) with (fmap (M:=list) (@snd nat Z)).
  rewrite fmap_imap. unfold compose. cbn [snd].
  rewrite (imap_const id). apply list_fmap_id.
Qed.

Lemma Zsum_positive counts :
  counts <> [] -> Forall (fun c => (0 < c)%Z) counts -> (0 < Zsum counts)%Z.
Proof.
  intros Hne H. destruct H as [|c counts Hc H]; [contradiction|]. clear Hne.
  assert (0 <= Zsum counts)%Z by (unfold Zsum; induction H; cbn; lia).
  unfold Zsum in *. cbn. lia.
Qed.






End class_weights.

(** ** Accuracy of a converted model *)

Section tflite_accuracy.
Import Quant.
Context (env : environment).

Lemma count_correct_spec num_samples samples :
  forall i correct total w correct' total' w',
    count_correct env num_samples i samples correct total w = (Ok (correct', total'), w') ->
    total' = Z.max total (Z.min num_samples (total + Z.of_nat (length samples)))
    /\ (correct <= correct')%Z /\ (correct' - correct <= total' - total)%Z.
Proof.
  induction samples as [|[output_data labels] rest IH];
    intros i correct total w correct' total' w'.
  - cbn. run. intros [= <- <- <-]. lia.
  - cbn [count_correct length].
    destruct (Z.leb_spec num_samples total) as [Hstop|Hgo].
    + run. intros [= <- <- <-]. lia.
    + run. destruct (raises env (Invoke i)); [discriminate|].
      destruct (argmax output_data) as [predicted|]; [|discriminate].
      destruct (argmax labels) as [true_class|]; [|discriminate].
      intros Hrest. apply IH in Hrest. destruct (predicted =? true_class)%Z; lia.
Qed.

Lemma count_correct_none num_samples samples i w :
  samples = [] \/ (num_samples <= 0)%Z ->
  count_correct env num_samples i samples 0%Z 0%Z w = (Ok (0%Z, 0%Z), w).
Proof.
  intros [-> | Hn]; [reflexivity|].
  destruct samples as [|[output_data labels] rest]; [reflexivity|].
  cbn [count_correct]. destruct (Z.leb_spec num_samples 0); [reflexivity | lia].
Qed.

Lemma ratio_in_unit_interval correct total :
  (0 <= correct <= total)%Z -> (0 < total)%Z ->
  (0 <= inject_Z correct / inject_Z total <= 1)%Q.
Proof.
  intros [H0 H1] Ht.
  assert (Hq : (0 < inject_Z total)%Q).
  { change (inject_Z 0 < inject_Z total)%Q. rewrite <- Zlt_Qlt. exact Ht. }
  split.
  - apply Qle_shift_div_l; [exact Hq|]. rewrite Qmult_0_l.
    change (inject_Z 0 <= inject_Z correct)%Q. rewrite <- Zle_Qle. exact H0.
  - apply Qle_shift_div_r; [exact Hq|]. rewrite Qmult_1_l.
    rewrite <- Zle_Qle. exact H1.
Qed.

(** C3: when [evaluate_tflite_model] returns after processing at
    least one sample, the accuracy is [correct / total] with
    [0 <= correct <= total] and [total] the smaller of [num_samples]
    and the size of the data set; so it lies between 0 and 1. *)
Theorem tflite_accuracy_is_a_proportion tflite_path test_data_dir num_samples w acc :
  fst (evaluate_tflite_model env tflite_path test_data_dir num_samples w) = Ok acc ->
  tflite_samples env test_data_dir <> [] ->
  (0 < num_samples)%Z ->
  exists correct total : Z,
    acc = (inject_Z correct / inject_Z total)%Q
    /\ (0 <= correct <= total)%Z
    /\ total = Z.min num_samples (Z.of_nat (length (tflite_samples env test_data_dir)))
    /\ (0 <= acc <= 1)%Q.
Proof.
  intros Hrun Hds Hn. unfold evaluate_tflite_model in Hrun. run.
  destruct (raises env (Interpreter tflite_path)); [discriminate|].
  destruct (raises env (LoadTfliteDataset test_data_dir)); [discriminate|].
  destruct (count_correct env _ _ _ _ _ _) as [[[correct total]|e] w'] eqn:Hloop;
    [|discriminate].
  apply count_correct_spec in Hloop as (Htotal & Hc0 & Hc1).
  destruct (tflite_samples env test_data_dir) as [|s samples] eqn:Hs; [contradiction|].
  assert (Ht : (0 < total)%Z) by (cbn [length] in Htotal; lia).
  cbn [fst snd] in Hrun. unfold truediv in Hrun.
  destruct (Z.eqb_spec total 0); [lia|]. injection Hrun as <-.
  exists correct, total. repeat split; try lia.
  - apply ratio_in_unit_interval; lia.
  - apply ratio_in_unit_interval; lia.
Qed.

End tflite_accuracy.

(** ** Divisions without a guard *)

(** C9: two divisions can raise.  [evaluate_tflite_model] divides by
    [total], which is 0 when the data set is empty or [num_samples]
    is not positive; [compute_class_weights] divides by
    [n * count_i], which is 0 for a class directory without image
    files. *)
Theorem unguarded_divisions_raise :
  (forall env tflite_path test_data_dir num_samples w,
      raises env (Interpreter tflite_path) = None ->
      raises env (LoadTfliteDataset test_data_dir) = None ->
      tflite_samples env test_data_dir = [] \/ (num_samples <= 0)%Z ->
      fst (Quant.evaluate_tflite_model env tflite_path test_data_dir num_samples w)
      = Raise ZeroDivisionError)
  /\ (forall env data_dir entries counts,
      listdir env data_dir = Ok entries ->
      mapM (Utils.count_images env data_dir) (Utils.class_dirs env data_dir entries)
      = Ok counts ->
      0%Z ∈ counts ->
      Utils.compute_class_weights env data_dir = Raise ZeroDivisionError).
Proof.
  split.
  - intros env tflite_path test_data_dir num_samples w Hi Hd Hnone.
    unfold Quant.evaluate_tflite_model. run. rewrite Hi, Hd.
    now rewrite count_correct_none.
  - intros env data_dir entries counts Hls Hcounts Hzero.
    unfold Utils.compute_class_weights. run. rewrite Hls.
    fold (Utils.class_dirs env data_dir entries). rewrite Hcounts.
    apply mapM_raise.
    + intros item _. apply weight_of_cases.
    + apply list_elem_of_lookup in Hzero as [i Hi].
      apply Exists_exists. exists (i, 0%Z). split.
      * apply list_elem_of_lookup. exists i.
        rewrite list_lookup_imap, Hi. reflexivity.
      * apply weight_of_zero.
Qed.

Lemma unguarded_divisions_raise_witness :
  fst (Quant.evaluate_tflite_model Sample.env "model.tflite" "data/test" 0 Sample.start)
  = Raise ZeroDivisionError
  /\ Utils.compute_class_weights Sample.env "data/new" = Raise ZeroDivisionError.
Proof.
  split.
  - apply (proj1 unguarded_divisions_raise); [reflexivity | reflexivity | right; lia].
  - apply (proj2 unguarded_divisions_raise Sample.env "data/new" ["c"] [0%Z]);
      [reflexivity | reflexivity | constructor].
Defined.


Lemma tflite_accuracy_is_a_proportion_witness :
  exists correct total : Z,
    (1 # 2)%Q = (inject_Z correct / inject_Z total)%Q
    /\ (0 <= correct <= total)%Z
    /\ total = Z.min 100 2
    /\ (0 <= 1 # 2 <= 1)%Q.
Proof.
  apply (tflite_accuracy_is_a_proportion Sample.env "model.tflite" "data/test" 100
           Sample.start (1 # 2)%Q).
  - vm_compute. reflexivity.
  - discriminate.
  - lia.
Defined.

(** ** Running a computation step by step *)

Section stepping.
Context {S A B : Type}.

Lemma bind_ok (c : M S A) (k : A -> M S B) s b s' :
  mbind k c s = (Ok b, s') -> exists a s1, c s = (Ok a, s1) /\ k a s1 = (Ok b, s').
Proof.
  unfold mbind, M_bind. destruct (c s) as [[a|e] s1]; [eauto | discriminate].
Qed.

Lemma bind_unfold (c : M S A) (k : A -> M S B) s :
  mbind k c s = match c s with
                | (Ok a, s') => k a s'
                | (Raise e, s') => (Raise e, s')
                end.
Proof. reflexivity. Qed.

Lemma bind_raise (c : M S A) (k : A -> M S B) s e s' :
  c s = (Raise e, s') -> mbind k c s = (Raise e, s').
Proof. unfold mbind, M_bind. now intros ->. Qed.

Lemma bind_step (c : M S A) (k : A -> M S B) s a s1 :
  c s = (Ok a, s1) -> mbind k c s = k a s1.
Proof. unfold mbind, M_bind. now intros ->. Qed.

Lemma lift_ok (r : result A) (s : S) a s' :
  lift r s = (Ok a, s') -> r = Ok a /\ s' = s.
Proof. unfold lift. now intros [= -> ->]. Qed.

Lemma mret_ok (x : A) (s : S) a s' :
  mret (M:=M S) x s = (Ok a, s') -> a = x /\ s' = s.
Proof. unfold mret, M_ret. now intros [= -> ->]. Qed.

End stepping.

Section calls.
Context (env : environment).

Lemma ext_ok c w u w' :
  ext env c w = (Ok u, w') -> raises env c = None /\ w' = logged w [c].
Proof.
  unfold ext. destruct (raises env c); [discriminate|]. now intros [= _ <-].
Qed.

Lemma ext_run c w :
  ext env c w = (match raises env c with Some e => Raise e | None => Ok tt end,
                 logged w [c]).
Proof. unfold ext. now destruct (raises env c). Qed.

Lemma on_fs_ok {A} (c : M OS.filesystem A) w a w' :
  on_fs c w = (Ok a, w') -> c (fs w) = (Ok a, fs w') /\ log w' = log w.
Proof.
  unfold on_fs. destruct (c (fs w)) as [r fs'] eqn:E. now intros [= -> <-].
Qed.

Lemma on_fs_log {A} (c : M OS.filesystem A) w : log (snd (on_fs c w)) = log w.
Proof. unfold on_fs. now destruct (c (fs w)). Qed.

Lemma logged_nil w : logged w [] = w.
Proof. destruct w. unfold logged. cbn. now rewrite app_nil_r. Qed.

Lemma logged_logged w a b : logged (logged w a) b = logged w (a ++ b).
Proof. unfold logged. cbn. now rewrite app_assoc. Qed.

End calls.

(** ** Conversion to TFLite *)

Section conversion.
Import OS Quant.
Context (env : environment).

Lemma dir_chain_head name :
  name <> EmptyString -> exists rest, dir_chain name = name :: rest.
Proof.
  intros Hne. unfold dir_chain. cbn [ancestors].
  destruct (String.eqb_spec name EmptyString); [contradiction | eauto].
Qed.

Lemma makedirs_ok name fs0 u fs1 :
  makedirs name fs0 = (Ok u, fs1) -> files fs1 = files fs0 /\ name ∈ dirs fs1.
Proof.
  unfold makedirs. destruct (String.eqb_spec name EmptyString) as [|Hne]; [discriminate|].
  destruct (List.find _ _); [discriminate|]. intros [= _ <-].
  destruct (dir_chain_head name Hne) as [rest ->]. cbn [files dirs].
  split; [reflexivity | set_solver].
Qed.

Lemma write_file_ok path data fs0 u fs1 :
  write_file path data fs0 = (Ok u, fs1) ->
  files fs1 = <[path := data]> (files fs0) /\ dirs fs1 = dirs fs0.
Proof.
  unfold write_file. repeat case_match; try discriminate. now intros [= _ <-].
Qed.

Lemma getsize_ok path fs0 n fs1 : getsize path fs0 = (Ok n, fs1) -> fs1 = fs0.
Proof. unfold getsize. case_match; [|discriminate]. now intros [= _ <-]. Qed.

(** The framework calls of [convert_to_tflite]: the model is loaded,
    and the converter runs with the settings of [configure]. *)
Lemma convert_to_tflite_log model_path output_path quantize dir w :
  raises env (LoadModel model_path) = None ->
  log (snd (convert_to_tflite env model_path output_path quantize dir w))
  = log w ++ [LoadModel model_path; Convert model_path (configure quantize dir)].
Proof.
  intros Hload. unfold convert_to_tflite.
  assert (Hfirst : (if endswith model_path ".h5" then ext env (LoadModel model_path)
                    else ext env (LoadModel model_path)) w
                   = (Ok tt, logged w [LoadModel model_path])).
  { destruct (endswith model_path ".h5"); now rewrite ext_run, Hload. }
  rewrite (bind_step _ _ _ _ _ Hfirst). cbv beta zeta.
  rewrite bind_unfold, ext_run, logged_logged.
  set (w1 := logged w _).
  assert (Hw1 : log w1 = log w ++ [LoadModel model_path;
                                    Convert model_path (configure quantize dir)]) by reflexivity.
  clearbody w1. destruct (raises env (Convert _ _)); run; [exact Hw1|].
  unfold OS.makedirs, OS.write_file, OS.getsize.
  repeat (case_match; simplify_eq; cbn [fst snd log fs] in * ); try exact Hw1.
Qed.

(** C6: when [convert_to_tflite] returns, it returns [output_path],
    the file at [output_path] holds the bytes the converter produced,
    and the directory of [output_path] exists. *)
Theorem convert_to_tflite_writes_output model_path output_path quantize dir w ret :
  fst (convert_to_tflite env model_path output_path quantize dir w) = Ok ret ->
  let w' := snd (convert_to_tflite env model_path output_path quantize dir w) in
  ret = output_path
  /\ files (fs w') !! output_path
     = Some (tflite_bytes env model_path (configure quantize dir))
  /\ dirname output_path ∈ dirs (fs w').
Proof.
  destruct (convert_to_tflite env model_path output_path quantize dir w) as [r w'] eqn:Hrun.
  cbn [fst snd]. intros ->. unfold convert_to_tflite in Hrun.
  apply bind_ok in Hrun as (u0 & w0 & _ & Hrun).
  apply bind_ok in Hrun as (u1 & w1 & _ & Hrun).
  apply bind_ok in Hrun as (u2 & w2 & Hmk & Hrun).
  apply bind_ok in Hrun as (u3 & w3 & Hwr & Hrun).
  apply on_fs_ok in Hmk as [Hmk _]. apply makedirs_ok in Hmk as [_ Hdir].
  apply on_fs_ok in Hwr as [Hwr _]. apply write_file_ok in Hwr as [Hfiles Hdirs].
  assert (Hw3 : files (fs w3) !! output_path
                = Some (tflite_bytes env model_path (configure quantize dir))
                /\ dirname output_path ∈ dirs (fs w3)).
  { rewrite Hfiles, Hdirs, lookup_insert_eq. auto. }
  clear Hfiles Hdirs Hdir.
  apply bind_ok in Hrun as (w3' & w4 & Hget & Hrun). injection Hget as <- <-.
  apply bind_ok in Hrun as (size0 & w4 & Hsize0 & Hrun).
  assert (fs w4 = fs w3) as Hw4.
  { destruct (isfile (fs w3) model_path).
    - apply on_fs_ok in Hsize0 as [Hs _]. now apply getsize_ok in Hs.
    - now apply mret_ok in Hsize0 as [_ ->]. }
  apply bind_ok in Hrun as (size1 & w5 & Hsize1 & Hrun).
  apply on_fs_ok in Hsize1 as [Hs _]. apply getsize_ok in Hs.
  apply bind_ok in Hrun as (u6 & w6 & Hratio & Hrun).
  assert (w6 = w5) as ->.
  { destruct (0 <? size0)%Z.
    - apply bind_ok in Hratio as (q & w7 & Hq & Hret).
      apply lift_ok in Hq as [_ ->]. now apply mret_ok in Hret as [_ ->].
    - now apply mret_ok in Hratio as [_ ->]. }
  apply mret_ok in Hrun as [-> ->].
  rewrite Hs, Hw4. auto.
Qed.

(** C2, as amended: with [quantize=True], a non-empty
    [representative_data_dir] makes the converter run with full
    integer quantization and [uint8] input and output; [None] or the
    empty string leaves it with dynamic range quantization only, and
    the input and output types stay at their default. *)
Theorem quantized_converter_settings model_path output_path dir w :
  (raises env (LoadModel model_path) = None ->
   log (snd (convert_to_tflite env model_path output_path true dir w))
   = log w ++ [LoadModel model_path; Convert model_path (configure true dir)])
  /\ (forall d, dir = Some d -> d <> EmptyString ->
        configure true dir
        = {| optimizations := [OPTIMIZE_DEFAULT];
             representative_dataset := Some (d, 1000%Z);
             supported_ops := [TFLITE_BUILTINS_INT8];
             inference_input_type := uint8;
             inference_output_type := uint8 |})
  /\ (dir = None \/ dir = Some EmptyString ->
        configure true dir
        = {| optimizations := [OPTIMIZE_DEFAULT];
             representative_dataset := None;
             supported_ops := [TFLITE_BUILTINS];
             inference_input_type := float32;
             inference_output_type := float32 |}).
Proof.
  split; [apply convert_to_tflite_log | split].
  - intros d -> Hd. unfold configure, given.
    destruct (String.eqb_spec d EmptyString); [contradiction | reflexivity].
  - now intros [-> | ->].
Qed.

(** C2, as stated, fails: the empty string is a
    [representative_data_dir] that is provided and is not [None], but
    the converter keeps its default input and output types. *)
Lemma empty_representative_dir_is_dynamic_range :
  Some EmptyString <> None
  /\ inference_input_type (configure true (Some EmptyString)) = float32
  /\ inference_output_type (configure true (Some EmptyString)) = float32
  /\ supported_ops (configure true (Some EmptyString)) = [TFLITE_BUILTINS]
  /\ float32 <> uint8.
Proof. repeat split; discriminate. Qed.

End conversion.

Lemma convert_to_tflite_writes_output_witness :
  fst (Quant.convert_to_tflite Sample.env "model.h5" "out/model.tflite" true None Sample.start)
  = Ok "out/model.tflite"
  /\ OS.files (fs (snd (Quant.convert_to_tflite Sample.env "model.h5" "out/model.tflite" true None
                       Sample.start))) !! "out/model.tflite" = Some "TFL3".
Proof.
  split; [vm_compute; reflexivity|].
  apply (convert_to_tflite_writes_output Sample.env "model.h5" "out/model.tflite" true None
           Sample.start "out/model.tflite").
  vm_compute. reflexivity.
Defined.

Lemma quantized_converter_settings_witness :
  log (snd (Quant.convert_to_tflite Sample.env "model.h5" "out/model.tflite" true
              (Some "data/calibration") Sample.start))
  = [LoadModel "model.h5";
     Convert "model.h5"
       {| optimizations := [OPTIMIZE_DEFAULT];
          representative_dataset := Some ("data/calibration", 1000%Z);
          supported_ops := [TFLITE_BUILTINS_INT8];
          inference_input_type := uint8;
          inference_output_type := uint8 |}]
  /\ Quant.configure true None
     = {| optimizations := [OPTIMIZE_DEFAULT];
          representative_dataset := None;
          supported_ops := [TFLITE_BUILTINS];
          inference_input_type := float32;
          inference_output_type := float32 |}.
Proof.
  destruct (quantized_converter_settings Sample.env "model.h5" "out/model.tflite"
              (Some "data/calibration") Sample.start) as (Hlog & Hfull & _).
  destruct (quantized_converter_settings Sample.env "model.h5" "out/model.tflite" None Sample.start)
    as (_ & _ & Hdyn).
  split.
  - rewrite <- (Hfull "data/calibration" eq_refl ltac:(discriminate)).
    apply Hlog. reflexivity.
  - apply Hdyn. now left.
Defined.

(** ** The command line of the quantization script *)

Section quantize_flag.
Import Argparse.

Lemma resolve_known parser name a : resolve parser name = Known a -> In a parser.
Proof.
  unfold resolve. destruct (List.find _ parser) as [a'|] eqn:Hfind.
  - intros [= <-]. now apply find_some in Hfind as [? _].
  - destruct (List.filter _ parser) as [|a' [|? ?]] eqn:Hfilter; try discriminate.
    intros [= <-].
    assert (Hin : In a' (List.filter (fun a => String.prefix name (option_string a)) parser))
      by (rewrite Hfilter; now left).
    now apply filter_In in Hin as [? _].
Qed.

Lemma assoc_setattr (k k' : string) (v : value) ns :
  assoc k (setattr ns k' v) = if String.eqb k k' then Some v else assoc k ns.
Proof.
  induction ns as [|[k0 v0] ns IH]; cbn [setattr assoc].
  - reflexivity.
  - destruct (String.eqb_spec k' k0) as [<-|Hne]; cbn [assoc].
    + now destruct (String.eqb k k').
    + destruct (String.eqb_spec k k0) as [->|_].
      * destruct (String.eqb_spec k0 k'); [congruence | reflexivity].
      * exact IH.
Qed.

Lemma store_is_not_quantize a :
  In a (help_argument :: Quant.parser) -> action_of a = store ->
  String.eqb "quantize" (dest a) = false.
Proof.
  cbn [In Quant.parser]. intros H Hact.
  repeat (destruct H as [<-|H]; [first [discriminate Hact | reflexivity]|]).
  contradiction.
Qed.

Lemma record_value_keeps st a v :
  In a (help_argument :: Quant.parser) ->
  action_of a = store \/ v = VBool true ->
  Quant.quantize_set st -> Quant.quantize_set (record_value st a v).
Proof.
  unfold Quant.quantize_set. intros Hin Hv Hst. cbn [record_value ns].
  rewrite assoc_setattr. destruct Hv as [Hstore | ->].
  - now rewrite (store_is_not_quantize a Hin Hstore).
  - now destruct (String.eqb "quantize" (dest a)).
Qed.

Lemma consume_keeps n : forall argv st st',
  length argv <= n ->
  consume (help_argument :: Quant.parser) argv st = Ok st' ->
  Quant.quantize_set st -> Quant.quantize_set st'.
Proof.
  induction n as [|n IH]; intros argv st st' Hlen; destruct argv as [|t rest];
    cbn [consume length] in *; try lia.
  - now intros [= <-].
  - now intros [= <-].
  - destruct (String.eqb t "--").
    { intros [= <-]. now destruct rest. }
    destruct (String.eqb t "-h"); [discriminate|].
    destruct (String.prefix "--" t).
    2:{ intros H. apply (IH rest (with_extras st)); [lia | exact H]. }
    destruct (split_eq t) as [name explicit].
    destruct (resolve _ name) as [a| |] eqn:Hres; [|discriminate|].
    2:{ intros H. apply (IH rest (with_extras st)); [lia | exact H]. }
    apply resolve_known in Hres.
    destruct (action_of a) eqn:Hact, explicit as [v|]; try discriminate.
    + intros H Hst. eapply IH; [| exact H |]; [lia|].
      apply record_value_keeps; auto.
    + destruct rest as [|v rest']; [discriminate|].
      destruct (String.eqb v "--").
      * destruct rest' as [|v' rest'']; [discriminate|].
        intros [= <-] Hst.
        assert (Quant.quantize_set (record_value st a (VStr v')))
          by (apply record_value_keeps; auto).
        now destruct rest''.
      * destruct (option_like v); [discriminate|].
        intros H Hst. eapply IH; [| exact H |]; [cbn [length] in Hlen; lia|].
        apply record_value_keeps; auto.
    + intros H Hst. eapply IH; [| exact H |]; [lia|].
      apply record_value_keeps; auto.
Qed.

(** Whatever the command line, a parse that succeeds leaves
    [args.quantize] at [True]: the flag can only store the value its
    default already has. *)
Lemma parsed_quantize_is_true argv args :
  parse_args Quant.parser argv = Ok args -> getattr args "quantize" = Ok (VBool true).
Proof.
  unfold parse_args. run.
  destruct (consume _ argv _) as [st|] eqn:Hrun; [|discriminate].
  apply (consume_keeps (length argv)) in Hrun; [|lia|reflexivity].
  repeat case_match; try discriminate. intros [= <-].
  unfold getattr. now rewrite Hrun.
Qed.

End quantize_flag.

(** C7, at a command line without [--quantize]: [main] still passes
    [quantize=True], and the converter runs with
    [optimizations = [DEFAULT]]. *)
Theorem main_quantizes_without_flag :
  let argv := ["--model_path"; "model.h5"; "--output_path"; "out/model.tflite"] in
  ~ In "--quantize" argv
  /\ (let* args := Argparse.parse_args Quant.parser argv in Argparse.getattr args "quantize")
     = Ok (VBool true)
  /\ Quant.main Sample.env argv Sample.start
     = (Ok tt,
        {| fs := snd (OS.write_file "out/model.tflite" "TFL3"
                        (snd (OS.makedirs "out" (fs Sample.start))));
           log := [LoadModel "model.h5";
                   Convert "model.h5"
                     {| optimizations := [OPTIMIZE_DEFAULT];
                        representative_dataset := None;
                        supported_ops := [TFLITE_BUILTINS];
                        inference_input_type := float32;
                        inference_output_type := float32 |}] |}).
Proof.
  cbn zeta. split; [|split].
  - cbn. intuition discriminate.
  - reflexivity.
  - vm_compute. reflexivity.
Qed.

(** ** Evaluation metrics *)

Tactic Notation "step" hyp(H) "as" simple_intropattern(a) ident(w) simple_intropattern(Ha) :=
  apply bind_ok in H as (a & w & Ha & H).

Section evaluation.
Import Evaluate Sklearn.
Context (env : environment).

Lemma data_frame_ok classes : forall p r f s rows,
  data_frame classes p r f s = Ok rows ->
  length rows = length classes /\ map row_class rows = classes.
Proof.
  induction classes as [|c classes IH]; intros [|x p] [|y r] [|z f] [|n s] rows;
    cbn [data_frame]; try discriminate.
  - now intros [= <-].
  - run. destruct (data_frame classes p r f s) as [rows'|] eqn:Hrows; [|discriminate].
    intros [= <-]. apply IH in Hrows as [Hlen Hnames]. cbn. now rewrite Hlen, Hnames.
Qed.

Lemma per_class_metrics_lengths class_names y_true y_pred :
  match per_class_metrics class_names y_true y_pred with
  | Ok (p, r, f, s) =>
      length p = length class_names /\ length r = length class_names
      /\ length f = length class_names /\ length s = length class_names
  | Raise _ => length y_true <> length y_pred
  end.
Proof.
  unfold per_class_metrics, precision_recall_fscore_support, range.
  destruct (Nat.eqb_spec (length y_true) (length y_pred)) as [Heq|Hne]; cbn [negb].
  - now rewrite !length_map, length_seq.
  - exact Hne.
Qed.

Lemma generate_performance_report_log p r f class_names dir w u w' :
  generate_performance_report env p r f class_names dir w = (Ok u, w') ->
  exists c, w' = logged w [c].
Proof.
  unfold generate_performance_report, Py.bind. intros H. step H as rows w1 Hrows.
  apply lift_ok in Hrows as [_ ->]. apply ext_ok in H as [_ ->]. eauto.
Qed.

(** C5: the per-class precision, recall, F1 and support arrays
    [evaluate_model] computes have one entry per class name, whatever
    the labels and predictions are; and when [evaluate_model]
    returns, the arrays it returns and the rows it writes to
    [f1_scores.csv] are as many as there are class names. *)
Theorem per_class_arrays_have_class_count :
  (forall class_names y_true y_pred,
      match per_class_metrics class_names y_true y_pred with
      | Ok (p, r, f, s) =>
          length p = length class_names /\ length r = length class_names
          /\ length f = length class_names /\ length s = length class_names
      | Raise _ => length y_true <> length y_pred
      end)
  /\ (forall model_path config_path w rep,
      fst (evaluate_model env model_path config_path w) = Ok rep ->
      length (precision rep) = length (test_class_names env)
      /\ length (recall rep) = length (test_class_names env)
      /\ length (f1 rep) = length (test_class_names env)
      /\ exists rows,
           WriteCsv "../results/f1_scores.csv" rows
             ∈ log (snd (evaluate_model env model_path config_path w))
           /\ length rows = length (test_class_names env)
           /\ map row_class rows = test_class_names env).
Proof.
  split; [exact per_class_metrics_lengths|].
  intros model_path config_path w rep.
  destruct (evaluate_model env model_path config_path w) as [r w'] eqn:Hrun.
  cbn [fst snd]. intros ->. unfold evaluate_model in Hrun. unfold Py.bind in Hrun.
  step Hrun as config w1 _. step Hrun as ? w2 _. step Hrun as test_dir w3 _.
  step Hrun as batch_size w4 _. step Hrun as shape w5 _. step Hrun as shape2 w6 _.
  step Hrun as image_size w7 _. step Hrun as ? w8 _. step Hrun as ys w9 _.
  step Hrun as ? w10 _. step Hrun as prfs w11 Hprfs.
  apply lift_ok in Hprfs as [Hprfs _].
  pose proof (per_class_metrics_lengths (test_class_names env) ys.2 ys.1) as Hlen.
  rewrite Hprfs in Hlen. destruct prfs as [[[p rc] f] s].
  step Hrun as ? w12 _. step Hrun as ? w13 _. step Hrun as ? w14 _.
  step Hrun as ? w15 _. step Hrun as rows w16 Hrows.
  apply lift_ok in Hrows as [Hrows _]. apply data_frame_ok in Hrows as [Hn Hnames].
  step Hrun as ? w17 Hcsv. step Hrun as ? w18 Hcm. step Hrun as ? w19 Hplot.
  step Hrun as ? w20 Hreport.
  apply ext_ok in Hcsv as [_ ->]. apply ext_ok in Hcm as [_ ->].
  apply ext_ok in Hplot as [_ ->].
  apply generate_performance_report_log in Hreport as [c ->].
  apply mret_ok in Hrun as [-> ->]. cbn [precision recall f1].
  destruct Hlen as (Hp & Hr & Hf & _). repeat split; try assumption.
  exists rows. split; [|split; assumption].
  cbn [log logged]. set_solver.
Qed.

End evaluation.

Lemma per_class_arrays_have_class_count_witness :
  length (Evaluate.precision
            {| Evaluate.accuracy := 1; Evaluate.precision := [1; 1; 1]%Q;
               Evaluate.recall := [1; 1; 1]%Q; Evaluate.f1 := [2 # 2; 2 # 2; 2 # 2]%Q |}) = 3
  /\ match Evaluate.per_class_metrics ["a"; "b"; "c"] [0; 1]%Z [0; 1]%Z with
     | Ok (p, r, f, s) => length p = 3 /\ length r = 3 /\ length f = 3 /\ length s = 3
     | Raise _ => 2 <> 2
     end.
Proof.
  split.
  - apply (proj2 (per_class_arrays_have_class_count Sample.env)
             "model.h5" "config.yaml" Sample.start).
    vm_compute. reflexivity.
  - exact (proj1 (per_class_arrays_have_class_count Sample.env)
             ["a"; "b"; "c"] [0; 1]%Z [0; 1]%Z).
Defined.

(** ** Training *)

Section training.
Import Model Train.
Context (env : environment).

Lemma getitem2_ok config a b w v w' :
  getitem2 config a b w = (Ok v, w') -> getitem_in config a b = Ok v /\ w' = w.
Proof. unfold getitem2. apply lift_ok. Qed.


Lemma create_model_ok b kw w m w' :
  create_model env b kw w = (Ok m, w') ->
  m = {| base := b; layers := repeat false (backbone_depth env b); compiled_with := None |}
  /\ w' = logged w [BuildBackbone b (input_shape kw) (weights kw);
                    BuildHead b (input_shape kw) (num_classes kw) (dropout_rate kw)].
Proof.
  unfold create_model. intros H. step H as ? w1 H1. step H as ? w2 H2.
  apply ext_ok in H1 as [_ ->]. apply ext_ok in H2 as [_ ->].
  apply mret_ok in H as [-> ->]. now rewrite logged_logged.
Qed.








Lemma const_map_repeat {A B} (b : B) (l : list A) :
  map (fun _ => b) l = repeat b (length l).
Proof. induction l as [|x l IH]; cbn; [reflexivity | now rewrite IH]. Qed.

Lemma firstn_repeat {A} (x : A) n m : firstn n (repeat x m) = repeat x (Nat.min n m).
Proof.
  revert m. induction n as [|n IH]; intros [|m]; cbn; try reflexivity.
  now rewrite IH.
Qed.

Lemma skipn_repeat {A} (x : A) n m : skipn n (repeat x m) = repeat x (m - n).
Proof.
  revert m. induction n as [|n IH]; intros [|m]; cbn; try reflexivity.
  apply IH.
Qed.

Lemma slice_bound_le z len : slice_bound z len <= len.
Proof. unfold slice_bound. destruct (Z.ltb_spec z 0); lia. Qed.

(** After [unfreeze_base_model] with an integer index, the layers
    before the index are frozen and the layers from it on are
    trainable. *)
Lemma unfreeze_from_index flags z :
  let k := slice_bound z (length flags) in
  unfreeze_base_model flags (VInt z)
  = Ok (repeat false k ++ repeat true (length flags - k)).
Proof.
  cbn zeta. unfold unfreeze_base_model, slice_bounds. run.
  rewrite length_map. set (k := slice_bound z (length flags)).
  assert (Hk : k <= length flags) by apply slice_bound_le.
  rewrite (const_map_repeat true flags), firstn_repeat, skipn_repeat.
  rewrite !const_map_repeat, !repeat_length, Nat.min_l by exact Hk.
  rewrite take_app_length', drop_app_length' by now rewrite repeat_length.
  now rewrite repeat_length.
Qed.


End training.



(** ** Errors *)

Section errors.
Import Model Train.
Context (env : environment).



Lemma lift_run {A} (r : result A) (w : world) : lift r w = (r, w).
Proof. reflexivity. Qed.








End errors.


(** * Further properties *)

(** ** Class-name files, from the side of the file *)

Section class_name_files.
Import OS Utils.

Lemma strip_keeps_line_end_out s : strip (s +:+ String LF EmptyString) = strip s.
Proof. unfold strip. now rewrite rstrip_line_end. Qed.

Lemma write_lines_cr_free names :
  Forall (fun n => contains_char CR n = false) names ->
  contains_char CR (write_lines names) = false.
Proof.
  induction 1 as [|name names Hcr _ IH]; [reflexivity|].
  rewrite write_lines_cons, contains_char_append, Hcr.
  now rewrite contains_char_cons, IH.
Qed.

Lemma split_written_lines names :
  Forall (fun n => contains_char LF n = false) names ->
  split_keepends EmptyString (write_lines names)
  = map (fun name => name +:+ String LF EmptyString) names.
Proof.
  induction 1 as [|name names Hlf _ IH]; [reflexivity|].
  rewrite write_lines_cons, split_keepends_line by assumption.
  cbn [map]. now rewrite IH.
Qed.

(** X1: names without line feed and carriage return come back from the
    file stripped: [load_class_names] after [save_class_names] is
    [strip] on every name, in order. *)
Theorem load_after_save_strips names path fs fs' :
  Forall (fun n => contains_char LF n = false /\ contains_char CR n = false) names ->
  save_class_names names path fs = (Ok tt, fs') ->
  load_class_names path fs' = (Ok (map strip names), fs').
Proof.
  intros Hnames Hsave. apply save_class_names_writes in Hsave.
  unfold load_class_names, read_file. run. rewrite Hsave. unfold readlines.
  rewrite universal_newlines_without_cr.
  2:{ apply write_lines_cr_free. eapply Forall_impl; [exact Hnames|]. now intros n [_ ?]. }
  rewrite split_written_lines.
  2:{ eapply Forall_impl; [exact Hnames|]. now intros n [? _]. }
  rewrite map_map. do 2 f_equal.
  apply map_ext. intros n. apply strip_keeps_line_end_out.
Qed.

Lemma universal_newlines_cr_free after_cr s :
  contains_char CR (universal_newlines after_cr s) = false.
Proof.
  revert after_cr. induction s as [|c s IH]; intros after_cr; [reflexivity|].
  cbn [universal_newlines].
  destruct (Ascii.eqb c CR) eqn:Hcr; [now rewrite contains_char_cons, IH|].
  destruct (Ascii.eqb c LF) eqn:Hlf.
  - destruct after_cr; [apply IH | now rewrite contains_char_cons, IH].
  - rewrite contains_char_cons, IH, eqb_sym, Hcr. reflexivity.
Qed.

Lemma split_keepends_bodies s : forall cur,
  contains_char CR s = false ->
  contains_char LF cur = false -> contains_char CR cur = false ->
  Forall (fun l => exists body, Observe.line_body l body) (split_keepends cur s).
Proof.
  induction s as [|c s IH]; intros cur Hs Hlf Hcr.
  - cbn. destruct cur; constructor; [|constructor].
    eexists. split; [left; reflexivity | auto].
  - rewrite contains_char_cons in Hs. apply orb_false_elim in Hs as [Hc Hs].
    cbn [split_keepends]. destruct (Ascii.eqb c LF) eqn:Hclf.
    + constructor; [|now apply IH].
      exists cur. split; [right; reflexivity | auto].
    + apply IH; [assumption| |]; rewrite contains_char_append, contains_char_cons.
      * now rewrite Hlf, eqb_sym, Hclf.
      * now rewrite Hcr, Hc.
Qed.

Lemma lstrip_keeps_out c s : contains_char c s = false -> contains_char c (lstrip s) = false.
Proof.
  induction s as [|x s IH]; [reflexivity|]. cbn [lstrip].
  destruct (is_space x); [|trivial].
  rewrite contains_char_cons. intros [_ H]%orb_false_elim. now apply IH.
Qed.

Lemma rstrip_keeps_out c s : contains_char c s = false -> contains_char c (rstrip s) = false.
Proof.
  induction s as [|x s IH]; [reflexivity|].
  rewrite contains_char_cons. intros [Hx Hs]%orb_false_elim.
  rewrite rstrip_cons. specialize (IH Hs). destruct (rstrip s) as [|x' s'].
  - destruct (is_space x); [reflexivity|]. now rewrite contains_char_cons, Hx.
  - now rewrite contains_char_cons, Hx.
Qed.

Lemma lstrip_has_no_leading_space s : has_leading_space (lstrip s) = false.
Proof.
  induction s as [|x s IH]; [reflexivity|]. cbn [lstrip].
  destruct (is_space x) eqn:Hx; [exact IH|]. unfold has_leading_space. cbn. exact Hx.
Qed.

Lemma rstrip_has_no_trailing_space s : has_trailing_space (rstrip s) = false.
Proof.
  induction s as [|x s IH]; [reflexivity|]. rewrite rstrip_cons.
  destruct (rstrip s) as [|x' s'].
  - destruct (is_space x) eqn:Hx; [reflexivity|]. unfold has_trailing_space. cbn. exact Hx.
  - exact IH.
Qed.

Lemma lstrip_keeps_end s : has_trailing_space s = false -> has_trailing_space (lstrip s) = false.
Proof.
  induction s as [|x s IH]; [reflexivity|]. cbn [lstrip].
  destruct (is_space x) eqn:Hx; [|trivial].
  destruct s as [|x' s']; [reflexivity|]. intros H. apply IH. exact H.
Qed.

Lemma strip_is_clean body :
  contains_char LF body = false -> contains_char CR body = false -> clean_name (strip body).
Proof.
  intros Hlf Hcr. unfold clean_name, strip. repeat split.
  - now apply lstrip_keeps_out, rstrip_keeps_out.
  - now apply lstrip_keeps_out, rstrip_keeps_out.
  - apply lstrip_has_no_leading_space.
  - apply lstrip_keeps_end, rstrip_has_no_trailing_space.
Qed.

Lemma load_class_names_reads path fs names fs' :
  load_class_names path fs = (Ok names, fs') ->
  exists content, names = map strip (readlines content).
Proof.
  unfold load_class_names, read_file. run. intros H.
  destruct (files fs !! path) as [content|];
    [|destruct (bool_decide (path ∈ dirs fs)); discriminate H].
  injection H as <- _. eauto.
Qed.

(** X2: whatever the file holds, the names [load_class_names] returns
    have no line feed, no carriage return and no white space at
    either end; so writing them with [save_class_names] and loading
    again returns the same list. *)
Theorem loaded_class_names_are_stable path fs names fs1 path' fs2 fs3 :
  load_class_names path fs = (Ok names, fs1) ->
  Forall clean_name names
  /\ (save_class_names names path' fs2 = (Ok tt, fs3) ->
      load_class_names path' fs3 = (Ok names, fs3)).
Proof.
  intros Hload. apply load_class_names_reads in Hload as [content ->].
  assert (Hclean : Forall clean_name (map strip (readlines content))).
  { unfold readlines. apply Forall_map.
    eapply Forall_impl;
      [apply split_keepends_bodies;
       [apply universal_newlines_cr_free | reflexivity | reflexivity]|].
    intros l (body & [-> | ->] & Hlf & Hcr); cbn beta.
    - now apply strip_is_clean.
    - rewrite strip_keeps_line_end_out. now apply strip_is_clean. }
  split; [exact Hclean|].
  intros Hsave. apply save_class_names_writes in Hsave.
  unfold load_class_names, read_file. run. rewrite Hsave.
  now rewrite read_back_lines.
Qed.

Lemma head_upto_slash_without_slash p :
  contains_char SLASH p = false -> head_upto_slash p = EmptyString.
Proof.
  induction p as [|c p IH]; [reflexivity|].
  rewrite contains_char_cons. intros [Hc Hp]%orb_false_elim.
  cbn [head_upto_slash]. now rewrite (IH Hp), eqb_sym, Hc.
Qed.

Lemma dirname_without_slash p : contains_char SLASH p = false -> dirname p = EmptyString.
Proof. intros H. unfold dirname. now rewrite head_upto_slash_without_slash. Qed.

(** X3: a save path without a directory part is refused:
    [os.makedirs] gets the empty name and raises
    [FileNotFoundError], and no file is written. *)
Theorem save_class_names_needs_a_directory names path fs :
  contains_char SLASH path = false ->
  save_class_names names path fs = (Raise (FileNotFoundError EmptyString), fs).
Proof.
  intros Hpath. unfold save_class_names. apply bind_raise.
  now rewrite dirname_without_slash.
Qed.

End class_name_files.

Lemma loaded_class_names_are_stable_witness :
  let fs := snd (OS.write_file "names.txt"
                   (" Apple scab " +:+ String CR (String LF "Corn rust")) OS.empty_fs) in
  Utils.load_class_names "names.txt" fs = (Ok ["Apple scab"; "Corn rust"], fs)
  /\ Forall Utils.clean_name ["Apple scab"; "Corn rust"].
Proof.
  cbn zeta.
  set (fs := snd (OS.write_file "names.txt" _ OS.empty_fs)).
  assert (H : Utils.load_class_names "names.txt" fs = (Ok ["Apple scab"; "Corn rust"], fs))
    by (vm_compute; reflexivity).
  split; [exact H|].
  exact (proj1 (loaded_class_names_are_stable "names.txt" fs _ fs "x/names.txt"
                  OS.empty_fs OS.empty_fs H)).
Defined.

Lemma load_after_save_strips_witness :
  Utils.load_class_names "out/names.txt"
    (snd (Utils.save_class_names [" Apple scab"; "Corn rust  "] "out/names.txt" OS.empty_fs))
  = (Ok ["Apple scab"; "Corn rust"],
     snd (Utils.save_class_names [" Apple scab"; "Corn rust  "] "out/names.txt" OS.empty_fs)).
Proof.
  apply (load_after_save_strips [" Apple scab"; "Corn rust  "] "out/names.txt" OS.empty_fs).
  - repeat constructor.
  - vm_compute. reflexivity.
Defined.

Lemma save_class_names_needs_a_directory_witness :
  Utils.save_class_names ["Apple scab"] "class_names.txt" OS.empty_fs
  = (Raise (FileNotFoundError EmptyString), OS.empty_fs).
Proof. apply save_class_names_needs_a_directory. reflexivity. Defined.

(** ** Conversion: when it fails *)

Section failing_steps.
Context {S A B : Type}.

Lemma bind_raise_inv (c : M S A) (k : A -> M S B) s e s' :
  mbind k c s = (Raise e, s') ->
  c s = (Raise e, s') \/ exists a s1, c s = (Ok a, s1) /\ k a s1 = (Raise e, s').
Proof.
  unfold mbind, M_bind. destruct (c s) as [[a|e0] s1]; [eauto|].
  intros [= <- <-]. now left.
Qed.

End failing_steps.

Section conversion_failures.
Import OS Quant.
Context (env : environment).

Lemma ext_files c w : fs (snd (ext env c w)) = fs w.
Proof. rewrite ext_run. reflexivity. Qed.

Lemma on_fs_raise {A} (c : M filesystem A) w e w' :
  on_fs c w = (Raise e, w') ->
  exists fs', c (fs w) = (Raise e, fs') /\ fs w' = fs' /\ log w' = log w.
Proof.
  unfold on_fs. destruct (c (fs w)) as [r fs'] eqn:E. intros [= -> <-]. eauto.
Qed.

Lemma makedirs_raise name fs0 e fs1 : makedirs name fs0 = (Raise e, fs1) -> fs1 = fs0.
Proof. unfold makedirs. repeat case_match; now intros [= _ <-]. Qed.

Lemma write_file_raise path data fs0 e fs1 :
  write_file path data fs0 = (Raise e, fs1) -> fs1 = fs0.
Proof. unfold write_file. repeat case_match; now intros [= _ <-]. Qed.

Lemma load_model_step model_path w :
  (if endswith model_path ".h5" then ext env (LoadModel model_path)
   else ext env (LoadModel model_path)) w
  = ext env (LoadModel model_path) w.
Proof. now destruct (endswith model_path ".h5"). Qed.

(** After the file is written, the rest of [convert_to_tflite] only
    measures sizes and returns. *)
Lemma convert_to_tflite_tail model_path output_path data w3 r w' :
  files (fs w3) !! output_path = Some data ->
  (let* w := get_store in
   let* original_size := (if isfile (fs w) model_path then on_fs (getsize model_path)
                          else mret 0%Z : M world Z) in
   let* tflite_size := on_fs (getsize output_path) in
   (if (0 <? original_size)%Z
    then lift (truediv tflite_size original_size) ;; mret tt
    else mret tt : M world unit) ;;
   mret output_path) w3 = (r, w') ->
  r = Ok output_path.
Proof.
  intros Hfile. unfold Py.bind. rewrite bind_unfold. unfold get_store at 1.
  rewrite bind_unfold.
  assert (Hsize0 : exists n, (if isfile (fs w3) model_path then on_fs (getsize model_path)
                              else mret 0%Z : M world Z) w3 = (Ok n, w3)).
  { unfold isfile. destruct (files (fs w3) !! model_path) as [d|] eqn:Hm.
    - rewrite bool_decide_eq_true_2 by eauto.
      unfold on_fs, getsize. rewrite Hm. destruct w3. eauto.
    - rewrite bool_decide_eq_false_2 by (intros [? ?]; discriminate). eauto. }
  destruct Hsize0 as [n ->].
  rewrite bind_unfold. unfold on_fs at 1, getsize at 1. rewrite Hfile.
  rewrite bind_unfold.
  destruct (Z.ltb_spec 0 n) as [Hn|Hn].
  - rewrite bind_unfold, lift_run. unfold truediv.
    destruct (Z.eqb_spec n 0); [lia|]. now intros [= <- _].
  - now intros [= <- _].
Qed.

(** X4: a call of [convert_to_tflite] that raises has written no
    file: the files are the ones there were before the call. *)
Theorem failed_conversion_writes_no_file model_path output_path quantize dir w e :
  fst (convert_to_tflite env model_path output_path quantize dir w) = Raise e ->
  files (fs (snd (convert_to_tflite env model_path output_path quantize dir w)))
  = files (fs w).
Proof.
  destruct (convert_to_tflite env model_path output_path quantize dir w) as [r w'] eqn:Hrun.
  cbn [fst snd]. intros ->. unfold convert_to_tflite in Hrun.
  apply bind_raise_inv in Hrun as [Hrun | (u0 & w0 & H0 & Hrun)].
  { rewrite load_model_step, ext_run in Hrun. now injection Hrun as _ <-. }
  rewrite load_model_step, ext_run in H0. injection H0 as _ <-.
  cbv zeta in Hrun.
  apply bind_raise_inv in Hrun as [Hrun | (u1 & w1 & H1 & Hrun)].
  { rewrite ext_run in Hrun. now injection Hrun as _ <-. }
  rewrite ext_run in H1. injection H1 as _ <-.
  apply bind_raise_inv in Hrun as [Hrun | (u2 & w2 & H2 & Hrun)].
  { apply on_fs_raise in Hrun as (f & Hmk & -> & _).
    now apply makedirs_raise in Hmk as ->. }
  apply on_fs_ok in H2 as [Hmk _]. apply makedirs_ok in Hmk as [Hfiles2 _].
  apply bind_raise_inv in Hrun as [Hrun | (u3 & w3 & H3 & Hrun)].
  { apply on_fs_raise in Hrun as (f & Hwr & -> & _).
    apply write_file_raise in Hwr as ->. exact Hfiles2. }
  apply on_fs_ok in H3 as [Hwr _]. apply write_file_ok in Hwr as [Hfiles3 _].
  apply convert_to_tflite_tail with (data := tflite_bytes env model_path
                                                (configure quantize dir)) in Hrun.
  - discriminate Hrun.
  - rewrite Hfiles3. apply lookup_insert_eq.
Qed.

(** X5: an output path without a directory part is refused after the
    conversion has run: the model is loaded and converted, then
    [os.makedirs] gets the empty name and raises [FileNotFoundError];
    nothing is written. *)
Theorem convert_to_tflite_needs_a_directory model_path output_path quantize dir w :
  contains_char SLASH output_path = false ->
  raises env (LoadModel model_path) = None ->
  raises env (Convert model_path (configure quantize dir)) = None ->
  convert_to_tflite env model_path output_path quantize dir w
  = (Raise (FileNotFoundError EmptyString),
     logged w [LoadModel model_path; Convert model_path (configure quantize dir)]).
Proof.
  intros Hpath Hload Hconvert. unfold convert_to_tflite.
  rewrite bind_unfold, load_model_step, ext_run, Hload. cbv zeta.
  rewrite bind_unfold, ext_run, Hconvert, logged_logged.
  apply bind_raise. unfold on_fs. now rewrite dirname_without_slash.
Qed.

End conversion_failures.

Lemma failed_conversion_writes_no_file_witness :
  OS.files (fs (snd (Quant.convert_to_tflite Sample.env "model.h5" "model.tflite" true None
                       Sample.start)))
  = OS.files (fs Sample.start).
Proof.
  apply (failed_conversion_writes_no_file Sample.env "model.h5" "model.tflite" true None
           Sample.start (FileNotFoundError EmptyString)).
  vm_compute. reflexivity.
Defined.

Lemma convert_to_tflite_needs_a_directory_witness :
  Quant.convert_to_tflite Sample.env "model.h5" "model.tflite" true None Sample.start
  = (Raise (FileNotFoundError EmptyString),
     logged Sample.start [LoadModel "model.h5"; Convert "model.h5" (Quant.configure true None)]).
Proof. apply convert_to_tflite_needs_a_directory; reflexivity. Defined.

(** ** Evaluation of a converted model: which samples, which labels *)

Section tflite_samples.
Import Quant.
Context (env : environment).

Lemma count_correct_log num_samples samples :
  forall i correct total w correct' total' w',
    count_correct env num_samples i samples correct total w = (Ok (correct', total'), w') ->
    w' = logged w (map Invoke (seq i (Z.to_nat (total' - total)))).
Proof.
  induction samples as [|[output_data labels] rest IH];
    intros i correct total w correct' total' w'.
  - cbn. run. intros [= <- <- <-]. rewrite Z.sub_diag. cbn. now rewrite logged_nil.
  - cbn [count_correct].
    destruct (Z.leb_spec num_samples total) as [Hstop|Hgo].
    + run. intros [= <- <- <-]. rewrite Z.sub_diag. cbn. now rewrite logged_nil.
    + intros H. apply bind_ok in H as (u & w1 & Hinvoke & H).
      apply ext_ok in Hinvoke as [_ ->]. unfold Py.bind in H.
      apply bind_ok in H as (predicted & w2 & Hp & H). apply lift_ok in Hp as [_ ->].
      apply bind_ok in H as (true_class & w2 & Ht & H). apply lift_ok in Ht as [_ ->].
      pose proof (count_correct_spec env _ _ _ _ _ _ _ _ _ H) as (Htotal & _ & _).
      apply IH in H. subst w'. rewrite logged_logged. f_equal.
      replace (Z.to_nat (total' - total)) with (Datatypes.S (Z.to_nat (total' - (total + 1))))
        by lia.
      reflexivity.
Qed.

(** X6: a call of [evaluate_tflite_model] that returns has run the
    interpreter on the first [min(num_samples, size)] samples of the
    data set, once each and in order, on no other sample, and has
    left the files alone. *)
Theorem tflite_evaluation_runs_a_prefix tflite_path test_data_dir num_samples w acc :
  fst (evaluate_tflite_model env tflite_path test_data_dir num_samples w) = Ok acc ->
  snd (evaluate_tflite_model env tflite_path test_data_dir num_samples w)
  = logged w ([Interpreter tflite_path; LoadTfliteDataset test_data_dir]
              ++ map Invoke
                   (seq 0 (Z.to_nat (Z.min num_samples
                                       (Z.of_nat (length (tflite_samples env test_data_dir))))))).
Proof.
  destruct (evaluate_tflite_model env tflite_path test_data_dir num_samples w)
    as [r w'] eqn:Hrun.
  cbn [fst snd]. intros ->. unfold evaluate_tflite_model, Py.bind in Hrun.
  apply bind_ok in Hrun as (u0 & w0 & H0 & Hrun). apply ext_ok in H0 as [_ ->].
  apply bind_ok in Hrun as (u1 & w1 & H1 & Hrun). apply ext_ok in H1 as [_ ->].
  cbv zeta in Hrun.
  apply bind_ok in Hrun as ([correct total] & w2 & Hloop & Hrun).
  apply lift_ok in Hrun as [Hdiv ->]. cbn [fst snd] in Hdiv.
  pose proof (count_correct_spec env _ _ _ _ _ _ _ _ _ Hloop) as (Htotal & _ & _).
  apply count_correct_log in Hloop as ->. rewrite !logged_logged.
  unfold truediv in Hdiv. destruct (Z.eqb_spec total 0); [discriminate|].
  replace (total - 0)%Z
    with (Z.min num_samples (Z.of_nat (length (tflite_samples env test_data_dir)))) by lia.
  reflexivity.
Qed.

Lemma argmax_single x : argmax [x] = Ok 0%Z.
Proof. reflexivity. Qed.

Lemma count_correct_zero_label num_samples samples :
  Forall (fun s : list Q * list Q => exists x, snd s = [x]) samples ->
  forall i correct total w correct' total' w',
    count_correct env num_samples i samples correct total w = (Ok (correct', total'), w') ->
    (correct' - correct)%Z
    = Z.of_nat (length (List.filter Observe.predicted_zero
                          (firstn (Z.to_nat (total' - total)) samples))).
Proof.
  induction 1 as [|[output_data labels] rest [x Hx] _ IH];
    intros i correct total w correct' total' w'.
  - cbn. run. intros [= <- <- <-]. rewrite firstn_nil, Z.sub_diag. reflexivity.
  - cbn [count_correct]. cbn [snd] in Hx. subst labels.
    destruct (Z.leb_spec num_samples total) as [Hstop|Hgo].
    + run. intros [= <- <- <-]. rewrite !Z.sub_diag. reflexivity.
    + intros H. apply bind_ok in H as (u & w1 & _ & H). unfold Py.bind in H.
      apply bind_ok in H as (predicted & w2 & Hp & H). apply lift_ok in Hp as [Hp _].
      apply bind_ok in H as (true_class & w3 & Ht & H). apply lift_ok in Ht as [Ht _].
      rewrite argmax_single in Ht. injection Ht as <-.
      pose proof (count_correct_spec env _ _ _ _ _ _ _ _ _ H) as (Htotal & _ & _).
      apply IH in H.
      replace (Z.to_nat (total' - total)) with (Datatypes.S (Z.to_nat (total' - (total + 1))))
        by lia.
      cbn [firstn List.filter]. unfold Observe.predicted_zero at 1. cbn [fst]. rewrite Hp.
      destruct (predicted =? 0)%Z; cbn [length]; lia.
Qed.

(** X7: the test data of [evaluate_tflite_model] is loaded with
    integer labels in batches of one, so a label vector has one
    entry and its [argmax] is 0.  On such data the accuracy returned
    is the share of the processed samples that the model assigns to
    class 0, whatever their labels. *)
Theorem tflite_accuracy_counts_class_zero tflite_path test_data_dir num_samples w acc :
  Forall (fun s : list Q * list Q => exists x, snd s = [x])
         (tflite_samples env test_data_dir) ->
  fst (evaluate_tflite_model env tflite_path test_data_dir num_samples w) = Ok acc ->
  let total := Z.min num_samples (Z.of_nat (length (tflite_samples env test_data_dir))) in
  acc = (inject_Z (Z.of_nat (length (List.filter Observe.predicted_zero
                                       (firstn (Z.to_nat total)
                                               (tflite_samples env test_data_dir)))))
         / inject_Z total)%Q.
Proof.
  intros Hlabels.
  destruct (evaluate_tflite_model env tflite_path test_data_dir num_samples w)
    as [r w'] eqn:Hrun.
  cbn [fst snd]. intros ->. unfold evaluate_tflite_model, Py.bind in Hrun.
  apply bind_ok in Hrun as (u0 & w0 & _ & Hrun).
  apply bind_ok in Hrun as (u1 & w1 & _ & Hrun).
  cbv zeta in Hrun.
  apply bind_ok in Hrun as ([correct total] & w2 & Hloop & Hrun).
  apply lift_ok in Hrun as [Hdiv _]. cbn [fst snd] in Hdiv.
  pose proof (count_correct_spec env _ _ _ _ _ _ _ _ _ Hloop) as (Htotal & _ & _).
  apply (count_correct_zero_label _ _ Hlabels) in Hloop.
  unfold truediv in Hdiv. destruct (Z.eqb_spec total 0); [discriminate|].
  injection Hdiv as <-. cbn zeta.
  replace (Z.min num_samples (Z.of_nat (length (tflite_samples env test_data_dir))))
    with total by lia.
  rewrite !Z.sub_0_r in Hloop. now rewrite <- Hloop.
Qed.

End tflite_samples.

Lemma tflite_evaluation_runs_a_prefix_witness :
  snd (Quant.evaluate_tflite_model Sample.env "model.tflite" "data/test" 1 Sample.start)
  = logged Sample.start [Interpreter "model.tflite"; LoadTfliteDataset "data/test"; Invoke 0].
Proof.
  apply (tflite_evaluation_runs_a_prefix Sample.env "model.tflite" "data/test" 1
           Sample.start 0%Q).
  vm_compute. reflexivity.
Defined.

Lemma tflite_accuracy_counts_class_zero_witness :
  (1 # 2)%Q = (inject_Z 1 / inject_Z 2)%Q.
Proof.
  apply (tflite_accuracy_counts_class_zero Sample.env "model.tflite" "data/test" 100
           Sample.start (1 # 2)%Q).
  - repeat constructor; eexists; reflexivity.
  - vm_compute. reflexivity.
Defined.

(** ** The command line of the quantization script: what is required *)

Section required_paths.
Import Argparse.

(** An invariant of a parse is kept by [consume] when it is kept by
    every value an option can store. *)
Lemma consume_invariant (P : progress -> Prop) parser :
  (forall st, P st -> P (with_extras st)) ->
  (forall st a v, In a parser ->
      (action_of a = store /\ exists s, v = VStr s)
      \/ (action_of a = store_true /\ v = VBool true) ->
      P st -> P (record_value st a v)) ->
  forall n argv st st',
    length argv <= n -> consume parser argv st = Ok st' -> P st -> P st'.
Proof.
  intros Hextras Hrecord.
  induction n as [|n IH]; intros argv st st' Hlen; destruct argv as [|t rest];
    cbn [consume length] in *; try lia.
  - now intros [= <-].
  - now intros [= <-].
  - destruct (String.eqb t "--").
    { intros [= <-] Hst. destruct rest; auto. }
    destruct (String.eqb t "-h"); [discriminate|].
    destruct (String.prefix "--" t).
    2:{ intros H Hst. apply (IH rest (with_extras st)); [lia | exact H | auto]. }
    destruct (split_eq t) as [name explicit].
    destruct (resolve _ name) as [a| |] eqn:Hres; [|discriminate|].
    2:{ intros H Hst. apply (IH rest (with_extras st)); [lia | exact H | auto]. }
    apply resolve_known in Hres.
    destruct (action_of a) eqn:Hact, explicit as [v|]; try discriminate.
    + intros H Hst. eapply IH; [| exact H |]; [lia|].
      apply Hrecord; eauto.
    + destruct rest as [|v rest']; [discriminate|].
      destruct (String.eqb v "--").
      * destruct rest' as [|v' rest'']; [discriminate|].
        intros [= <-] Hst.
        assert (P (record_value st a (VStr v'))) by (apply Hrecord; eauto).
        destruct rest''; auto.
      * destruct (option_like v); [discriminate|].
        intros H Hst. eapply IH; [| exact H |]; [cbn [length] in Hlen; lia|].
        apply Hrecord; eauto.
    + intros H Hst. eapply IH; [| exact H |]; [lia|].
      apply Hrecord; eauto.
Qed.

Lemma required_path_recorded key st a v :
  key = "model_path" \/ key = "output_path" ->
  In a (help_argument :: Quant.parser) ->
  (action_of a = store /\ exists s, v = VStr s)
  \/ (action_of a = store_true /\ v = VBool true) ->
  Quant.path_given key st -> Quant.path_given key (record_value st a v).
Proof.
  unfold Quant.path_given. intros Hkey Hin Hv Hst. cbn [record_value seen ns].
  rewrite assoc_setattr.
  cbn [In Quant.parser] in Hin.
  destruct Hkey as [-> | ->];
    [change ("--" +:+ "model_path") with "--model_path" in *
    |change ("--" +:+ "output_path") with "--output_path" in *];
    repeat (destruct Hin as [<-|Hin];
            [cbn in Hv |- *; destruct Hv as [[Hact [s ->]] | [Hact ->]];
             try discriminate Hact;
             first [solve [eauto] | intros [Heq|Hseen]; [discriminate Heq | auto]]|]);
    contradiction.
Qed.

Lemma required_option_seen (parser : list argument) (given : list string) a :
  existsb (fun a => required a
                    && negb (existsb (String.eqb (option_string a)) given)) parser = false ->
  In a parser -> required a = true -> In (option_string a) given.
Proof.
  intros Hreq Hin Hr.
  destruct (existsb (String.eqb (option_string a)) given) eqn:Hex.
  - apply existsb_exists in Hex as (x & Hx & ->%String.eqb_eq). exact Hx.
  - assert (Hex' : existsb (fun a => required a
                      && negb (existsb (String.eqb (option_string a)) given)) parser = true).
    { apply existsb_exists. exists a. split; [exact Hin|]. now rewrite Hr, Hex. }
    congruence.
Qed.

Lemma parsed_path_is_a_string key argv args :
  key = "model_path" \/ key = "output_path" ->
  parse_args Quant.parser argv = Ok args -> exists s, getattr args key = Ok (VStr s).
Proof.
  intros Hkey. unfold parse_args. run.
  destruct (consume _ argv _) as [st|] eqn:Hrun; [|discriminate].
  apply (consume_invariant (Quant.path_given key) _) with (n := length argv) in Hrun;
    [| now intros st' | intros; now apply required_path_recorded | lia | intros [] ].
  destruct (existsb _ _) eqn:Hreq; [discriminate|].
  destruct (extras st); [discriminate|]. intros [= <-].
  unfold Quant.path_given in Hrun. unfold getattr.
  assert (Hseen : In ("--" +:+ key) (seen st)).
  { destruct Hkey as [-> | ->].
    - apply (required_option_seen _ _ (add_store "--model_path" true VNone) Hreq);
        [cbn; auto | reflexivity].
    - apply (required_option_seen _ _ (add_store "--output_path" true VNone) Hreq);
        [cbn; auto | reflexivity]. }
  destruct (Hrun Hseen) as [s ->]. eauto.
Qed.

End required_paths.

(** X8: [--model_path] and [--output_path] are required: whenever the
    command line of [post_training_quant.py] parses, both attributes
    hold strings, so [main] always hands [convert_to_tflite] two
    paths. *)
Theorem parsed_paths_are_strings argv args :
  Argparse.parse_args Quant.parser argv = Py.Ok args ->
  exists m o, Argparse.getattr args "model_path" = Py.Ok (Py.VStr m)
              /\ Argparse.getattr args "output_path" = Py.Ok (Py.VStr o).
Proof.
  intros H.
  destruct (parsed_path_is_a_string "model_path" argv args) as [m Hm]; auto.
  destruct (parsed_path_is_a_string "output_path" argv args) as [o Ho]; auto.
  eauto.
Qed.

Lemma parsed_paths_are_strings_witness :
  exists m o,
    Argparse.getattr
      [("model_path", Py.VStr "m.h5"); ("output_path", Py.VStr "out/m.tflite");
       ("quantize", Py.VBool true); ("representative_data", Py.VNone);
       ("evaluate", Py.VBool false); ("test_data", Py.VNone);
       ("benchmark", Py.VBool false)] "model_path" = Py.Ok (Py.VStr m)
    /\ Argparse.getattr
      [("model_path", Py.VStr "m.h5"); ("output_path", Py.VStr "out/m.tflite");
       ("quantize", Py.VBool true); ("representative_data", Py.VNone);
       ("evaluate", Py.VBool false); ("test_data", Py.VNone);
       ("benchmark", Py.VBool false)] "output_path" = Py.Ok (Py.VStr o).
Proof.
  apply (parsed_paths_are_strings ["--model_path"; "m.h5"; "--output_path=out/m.tflite"]).
  vm_compute. reflexivity.
Defined.

(** ** Unfreezing the backbone *)

Section unfreezing.
Import Model.

(** X9: an index at or beyond the number of backbone layers (the
    default 100 on a backbone of at most 100 layers) leaves every
    layer frozen: the fine-tuning phase then trains no backbone
    layer. *)
Theorem unfreeze_beyond_depth_freezes_all flags z :
  (Z.of_nat (length flags) <= z)%Z ->
  unfreeze_base_model flags (VInt z) = Ok (repeat false (length flags)).
Proof.
  intros Hz. rewrite unfreeze_from_index. unfold slice_bound.
  destruct (Z.ltb_spec z 0); [lia|].
  rewrite Nat.min_r, Nat.sub_diag by lia. cbn [repeat]. now rewrite app_nil_r.
Qed.

(** X10: a negative index counts from the end: with [-k] the last [k]
    layers become trainable and the layers before them are frozen. *)
Theorem unfreeze_negative_index_counts_from_end flags k :
  (0 < k)%Z -> (k <= Z.of_nat (length flags))%Z ->
  unfreeze_base_model flags (VInt (- k))
  = Ok (repeat false (length flags - Z.to_nat k) ++ repeat true (Z.to_nat k)).
Proof.
  intros Hk Hlen. rewrite unfreeze_from_index. unfold slice_bound.
  destruct (Z.ltb_spec (- k) 0); [|lia].
  do 2 f_equal; f_equal; lia.
Qed.

(** X11: [unfreeze_base_model] overwrites every flag: what it leaves
    depends on the number of layers and on the index only, not on
    which layers were trainable before, whatever the index is (an
    integer, a boolean, [None], or a value a slice refuses). *)
Theorem unfreeze_forgets_previous_flags flags1 flags2 v :
  length flags1 = length flags2 ->
  unfreeze_base_model flags1 v = unfreeze_base_model flags2 v.
Proof.
  intros Hlen. unfold unfreeze_base_model.
  now rewrite (const_map_repeat true flags1), (const_map_repeat true flags2), Hlen.
Qed.

End unfreezing.

Lemma unfreeze_beyond_depth_freezes_all_witness :
  Model.unfreeze_base_model [false; false; false; false] (VInt 100)
  = Ok [false; false; false; false].
Proof.
  apply (unfreeze_beyond_depth_freezes_all [false; false; false; false] 100).
  cbn. lia.
Defined.

Lemma unfreeze_negative_index_counts_from_end_witness :
  Model.unfreeze_base_model [false; false; false; false] (VInt (- 1))
  = Ok [false; false; false; true].
Proof.
  apply (unfreeze_negative_index_counts_from_end [false; false; false; false] 1).
  - lia.
  - cbn. lia.
Defined.

Lemma unfreeze_forgets_previous_flags_witness :
  Model.unfreeze_base_model [true; false; true] (VInt 1)
  = Model.unfreeze_base_model [false; false; false] (VInt 1).
Proof.
  apply (unfreeze_forgets_previous_flags [true; false; true] [false; false; false]).
  reflexivity.
Defined.

(** ** Building and compiling the model *)

Section model_building.
Import Model Train.
Context (env : environment).

Lemma lower_of_ok v a : lower_of v = Ok a -> exists s, v = VStr s /\ a = lower s.
Proof. destruct v; try discriminate. intros [= <-]. eauto. Qed.

(** X12: what [get_model] returns is an uncompiled model on a fully
    frozen backbone, built by exactly two framework calls; the name
    is a string and is matched in lower case: MobileNetV2 for
    [mobilenetv2], EfficientNetB0 for [efficientnet] and
    [efficientnet_lite0]. *)
Theorem get_model_returns_frozen_backbone architecture kw w m w' :
  get_model env architecture kw w = (Ok m, w') ->
  exists s, architecture = VStr s
    /\ base m = (if String.eqb (lower s) "mobilenetv2" then MobileNetV2 else EfficientNetB0)
    /\ (base m = EfficientNetB0 ->
        lower s = "efficientnet" \/ lower s = "efficientnet_lite0")
    /\ layers m = repeat false (backbone_depth env (base m))
    /\ compiled_with m = None
    /\ w' = logged w [BuildBackbone (base m) (input_shape kw) (weights kw);
                      BuildHead (base m) (input_shape kw) (num_classes kw)
                        (dropout_rate kw)].
Proof.
  unfold get_model, Py.bind. intros H. step H as a w1 Ha.
  apply lift_ok in Ha as [Ha ->]. apply lower_of_ok in Ha as (s & -> & ->).
  exists s. split; [reflexivity|].
  destruct (String.eqb (lower s) "mobilenetv2") eqn:Hm.
  - apply create_model_ok in H as [-> ->]. cbn [base layers compiled_with].
    repeat split; try reflexivity. discriminate.
  - cbn [existsb] in H.
    destruct (String.eqb_spec (lower s) "efficientnet") as [He|He];
      [|destruct (String.eqb_spec (lower s) "efficientnet_lite0") as [Hl|Hl]];
      cbn [orb] in H; try discriminate H;
      apply create_model_ok in H as [-> ->]; cbn [base layers compiled_with];
      repeat split; auto.
Qed.


Lemma compile_model_exact model config w m w' :
  compile_model env model config w = (Ok m, w') ->
  exists lr name loss metrics,
    getitem_in config "optimizer" "learning_rate" = Ok lr
    /\ getitem_in config "optimizer" "name" = Ok (VStr name)
    /\ getitem_in config "loss" "name" = Ok loss
    /\ get config "metrics" (VList [VStr "accuracy"]) = Ok metrics
    /\ let optimizer := if String.eqb (lower name) "sgd" then SGD lr (9 # 10) else Adam lr in
       m = {| base := base model; layers := layers model;
              compiled_with := Some optimizer |}
       /\ w' = logged w [MakeOptimizer optimizer;
                         Compile optimizer loss metrics (layers model)].
Proof.
  unfold compile_model, Py.bind. intros H.
  step H as optimizer_config w1 H1. apply lift_ok in H1 as [Hoc ->].
  step H as lr w1 H1. apply lift_ok in H1 as [Hlr ->].
  step H as name w1 H1. apply lift_ok in H1 as [Hname ->].
  step H as name' w1 H1. apply lift_ok in H1 as [Hlower ->].
  apply lower_of_ok in Hlower as (s & -> & ->).
  step H as ? w1 H1. apply ext_ok in H1 as [_ ->].
  step H as loss w2 H2. apply getitem2_ok in H2 as [Hloss ->].
  step H as has_metrics w2 H2. apply lift_ok in H2 as [Hhas ->].
  step H as metrics w2 H2. apply lift_ok in H2 as [Hmetrics ->].
  step H as ? w2 H2. apply ext_ok in H2 as [_ ->].
  apply mret_ok in H as [-> ->]. rewrite logged_logged.
  exists lr, s, loss, metrics.
  assert (Hopt : (if String.eqb (lower s) "adam" then Adam lr
                  else if String.eqb (lower s) "sgd" then SGD lr (9 # 10) else Adam lr)
                 = (if String.eqb (lower s) "sgd" then SGD lr (9 # 10) else Adam lr)).
  { destruct (String.eqb_spec (lower s) "adam") as [->|]; reflexivity. }
  rewrite Hopt. unfold getitem_in. rewrite Hoc.
  repeat (split; [assumption|]). split; [|split; reflexivity].
  destruct config as [| | | | | |d]; try discriminate Hoc.
  cbn [contains] in Hhas. injection Hhas as <-. cbn [get].
  destruct (assoc "metrics" d) as [v|] eqn:Hm.
  - cbn [getitem] in Hmetrics. now rewrite Hm in Hmetrics.
  - exact Hmetrics.
Qed.

(** X13: [compile_model] knows two optimizers.  A name that is
    [sgd] in any letter case gives SGD with momentum 0.9; every
    other name, known or not, gives Adam, and no name is refused.
    The layers of the model are left as they are. *)
Theorem compile_model_falls_back_to_adam model config w m w' :
  compile_model env model config w = (Ok m, w') ->
  exists lr name,
    getitem_in config "optimizer" "learning_rate" = Ok lr
    /\ getitem_in config "optimizer" "name" = Ok (VStr name)
    /\ compiled_with m
       = Some (if String.eqb (lower name) "sgd" then SGD lr (9 # 10) else Adam lr)
    /\ layers m = layers model /\ base m = base model.
Proof.
  intros H. apply compile_model_exact in H
    as (lr & name & loss & metrics & Hlr & Hname & _ & _ & -> & _).
  exists lr, name. repeat split; assumption.
Qed.

End model_building.

Lemma get_model_returns_frozen_backbone_witness :
  exists s, VStr "MobileNetV2" = VStr s
    /\ Model.base (Model.Build_net MobileNetV2 (repeat false 4) None)
       = (if String.eqb (lower s) "mobilenetv2" then MobileNetV2 else EfficientNetB0).
Proof.
  destruct (get_model_returns_frozen_backbone Sample.env (VStr "MobileNetV2")
              (Model.Build_kwargs (VList [VInt 224; VInt 224; VInt 3]) (VInt 3)
                 (VFloat (1 # 2)) (VStr "imagenet"))
              Sample.start (Model.Build_net MobileNetV2 (repeat false 4) None)
              (logged Sample.start
                 [BuildBackbone MobileNetV2 (VList [VInt 224; VInt 224; VInt 3])
                    (VStr "imagenet");
                  BuildHead MobileNetV2 (VList [VInt 224; VInt 224; VInt 3]) (VInt 3)
                    (VFloat (1 # 2))]))
    as (s & Hs & Hbase & _).
  - vm_compute. reflexivity.
  - exists s. split; assumption.
Defined.

Lemma compile_model_falls_back_to_adam_witness :
  let config :=
    VDict [("optimizer", VDict [("name", VStr "RMSprop");
                                ("learning_rate", VFloat (1 # 1000))]);
           ("loss", VDict [("name", VStr "categorical_crossentropy")])] in
  exists lr name,
    getitem_in config "optimizer" "learning_rate" = Ok lr
    /\ getitem_in config "optimizer" "name" = Ok (VStr name)
    /\ Model.compiled_with
         (Model.Build_net MobileNetV2 [false; false] (Some (Adam (VFloat (1 # 1000)))))
       = Some (if String.eqb (lower name) "sgd" then SGD lr (9 # 10) else Adam lr)
    /\ [false; false] = [false; false] /\ MobileNetV2 = MobileNetV2.
Proof.
  cbn zeta.
  apply (compile_model_falls_back_to_adam Sample.env
           (Model.Build_net MobileNetV2 [false; false] None)
           (VDict [("optimizer", VDict [("name", VStr "RMSprop");
                                        ("learning_rate", VFloat (1 # 1000))]);
                   ("loss", VDict [("name", VStr "categorical_crossentropy")])])
           Sample.start
           (Model.Build_net MobileNetV2 [false; false] (Some (Adam (VFloat (1 # 1000)))))
           (logged Sample.start
              [MakeOptimizer (Adam (VFloat (1 # 1000)));
               Compile (Adam (VFloat (1 # 1000))) (VStr "categorical_crossentropy")
                 (VList [VStr "accuracy"]) [false; false]])).
  vm_compute. reflexivity.
Defined.

(** ** A training run, step by step *)

Section training_run.
Import Model Train.
Context (env : environment).










End training_run.




(** ** Class weights: the edges *)

Section class_weight_edges.
Import OS Utils.
Context (env : environment).

Lemma filter_none {A} (f : A -> bool) l :
  Forall (fun x => f x = false) l -> List.filter f l = [].
Proof. induction 1 as [|x l Hx _ IH]; [reflexivity|]. cbn. now rewrite Hx. Qed.

(** X17: a data directory without class subdirectories gives the
    empty dictionary: nothing is counted and nothing is divided. *)
Theorem no_class_directories_no_weights data_dir entries :
  listdir env data_dir = Ok entries ->
  Forall (fun d => isdir env (join data_dir d) = false) entries ->
  compute_class_weights env data_dir = Ok [].
Proof.
  intros Hls Hnone. unfold compute_class_weights. run. rewrite Hls.
  now rewrite (filter_none _ _ Hnone).
Qed.

Lemma count_images_nonneg data_dir name n :
  count_images env data_dir name = Ok n -> (0 <= n)%Z.
Proof.
  unfold count_images. run. destruct (listdir env _); [|discriminate].
  intros [= <-]. lia.
Qed.

Lemma weights_inv total n (key : nat -> nat) counts ws :
  mapM (weight_of total n) (imap (fun i c => (key i, c)) counts) = Ok ws ->
  Forall (fun c => (n * c)%Z <> 0%Z) counts.
Proof.
  revert key ws. induction counts as [|c counts IH]; intros key ws; [constructor|].
  rewrite imap_cons, mapM_cons.
  destruct (weight_of total n (key 0, c)) as [y|] eqn:Hw; [|discriminate].
  destruct (mapM _ _) as [k|] eqn:Hrest; [|discriminate]. intros _.
  constructor.
  - unfold weight_of, truediv in Hw. cbn [snd] in Hw.
    destruct (Z.eqb_spec (n * c) 0); [discriminate | assumption].
  - exact (IH (fun i => key (S i)) k Hrest).
Qed.

Lemma compute_class_weights_inv data_dir ws :
  compute_class_weights env data_dir = Ok ws ->
  exists entries counts,
    listdir env data_dir = Ok entries
    /\ mapM (count_images env data_dir) (class_dirs env data_dir entries) = Ok counts
    /\ Forall (fun c => (0 < c)%Z) counts
    /\ ws = balanced counts.
Proof.
  unfold compute_class_weights. run.
  destruct (listdir env data_dir) as [entries|] eqn:Hls; [|discriminate].
  fold (class_dirs env data_dir entries).
  destruct (mapM _ (class_dirs env data_dir entries)) as [counts|] eqn:Hcounts;
    [|discriminate].
  rewrite snd_enumerate, length_imap. fold (Zsum counts). intros Hws.
  assert (Hpos : Forall (fun c => (0 < c)%Z) counts).
  { pose proof (weights_inv _ _ (fun i => i) _ _ Hws) as Hnz.
    apply mapM_ok_inv in Hcounts.
    assert (Hge : Forall (fun c => (0 <= c)%Z) counts).
    { clear Hws Hnz. induction Hcounts as [|name c names counts Hc _ IH]; constructor.
      - now apply count_images_nonneg in Hc.
      - exact IH. }
    apply Forall_lookup. intros i c Hc. rewrite Forall_lookup in Hnz, Hge.
    specialize (Hnz i c Hc). specialize (Hge i c Hc). cbn beta in Hnz, Hge. nia. }
  exists entries, counts. repeat (split; [assumption|]).
  destruct counts as [|c counts]; [now injection Hws as <-|].
  rewrite (weights_ok (Zsum (c :: counts)) _ (fun i => i)) in Hws;
    [now injection Hws as <- | cbn; lia | assumption].
Qed.

Lemma smaller_divisor_larger_quotient a b c :
  (0 < a)%Z -> (0 < b)%Z -> (b <= c)%Z ->
  (0 < inject_Z a / inject_Z c)%Q /\ (inject_Z a / inject_Z c <= inject_Z a / inject_Z b)%Q.
Proof.
  intros Ha Hb Hc.
  destruct a as [|a|a]; try lia. destruct b as [|b|b]; try lia.
  destruct c as [|c|c]; try lia.
  unfold Qlt, Qle, Qdiv, Qmult, Qinv, inject_Z. cbn. split; nia.
Qed.

(** X18: when [compute_class_weights] returns, every class
    directory holds at least one image file, every weight is
    positive, and a class with fewer images never has the smaller
    weight. *)
Theorem rarer_classes_weigh_more data_dir ws :
  compute_class_weights env data_dir = Ok ws ->
  exists entries counts,
    listdir env data_dir = Ok entries
    /\ mapM (count_images env data_dir) (class_dirs env data_dir entries) = Ok counts
    /\ Forall (fun c => (0 < c)%Z) counts
    /\ length ws = length counts
    /\ forall i j ci cj wi wj,
         counts !! i = Some ci -> counts !! j = Some cj ->
         ws !! i = Some wi -> ws !! j = Some wj ->
         (ci <= cj)%Z -> (0 < snd wj)%Q /\ (snd wj <= snd wi)%Q.
Proof.
  intros H. apply compute_class_weights_inv in H
    as (entries & counts & Hls & Hcounts & Hpos & ->).
  exists entries, counts. repeat (split; [assumption|]).
  split; [unfold balanced; now rewrite length_imap|].
  intros i j ci cj wi wj Hi Hj Hwi Hwj Hle. unfold balanced in Hwi, Hwj.
  apply list_lookup_imap_Some in Hwi as (ci' & Hi' & ->).
  apply list_lookup_imap_Some in Hwj as (cj' & Hj' & ->).
  assert (ci' = ci) as -> by congruence. assert (cj' = cj) as -> by congruence.
  cbn [snd].
  assert (Hci : (0 < ci)%Z).
  { rewrite Forall_lookup in Hpos. exact (Hpos i ci Hi). }
  assert (Hne : counts <> []) by (intros ->; discriminate Hi).
  pose proof (Zsum_positive counts Hne Hpos) as Ht.
  assert (Hn : (0 < Z.of_nat (length counts))%Z) by (destruct counts; [contradiction | cbn; lia]).
  apply smaller_divisor_larger_quotient; nia.
Qed.

End class_weight_edges.

Lemma no_class_directories_no_weights_witness :
  Utils.compute_class_weights Sample.env "data/train/a" = Ok [].
Proof.
  apply (no_class_directories_no_weights Sample.env "data/train/a" ["1.png"; "2.JPG"; "x.txt"]).
  - reflexivity.
  - repeat constructor.
Defined.

Lemma rarer_classes_weigh_more_witness :
  exists entries counts,
    listdir Sample.env "data/train" = Ok entries
    /\ mapM (Utils.count_images Sample.env "data/train")
         (Utils.class_dirs Sample.env "data/train" entries) = Ok counts
    /\ Forall (fun c => (0 < c)%Z) counts
    /\ length [(0%nat, (3 # 4)%Q); (1%nat, (3 # 2)%Q)] = length counts
    /\ forall i j ci cj wi wj,
         counts !! i = Some ci -> counts !! j = Some cj ->
         [(0%nat, (3 # 4)%Q); (1%nat, (3 # 2)%Q)] !! i = Some wi ->
         [(0%nat, (3 # 4)%Q); (1%nat, (3 # 2)%Q)] !! j = Some wj ->
         (ci <= cj)%Z -> (0 < snd wj)%Q /\ (snd wj <= snd wi)%Q.
Proof.
  apply (rarer_classes_weigh_more Sample.env "data/train").
  vm_compute. reflexivity.
Defined.

(** ** Callbacks *)

Ltac lifts H :=
  repeat (let a := fresh "a" in
          let s := fresh "s" in
          let Ha := fresh "Ha" in
          apply bind_ok in H as (a & s & Ha & H); apply lift_ok in Ha as [_ ->]).

Section callbacks.
Import OS Setup.

Lemma makedirs_grows name fs0 u fs1 :
  makedirs name fs0 = (Ok u, fs1) ->
  files fs1 = files fs0 /\ name ∈ dirs fs1 /\ dirs fs0 ⊆ dirs fs1.
Proof.
  intros H. destruct (makedirs_ok _ _ _ _ H) as [Hfiles Hin].
  split; [assumption|]. split; [assumption|].
  unfold makedirs in H. destruct (String.eqb name EmptyString); [discriminate|].
  destruct (List.find _ _); [discriminate|]. injection H as _ <-. cbn [dirs].
  apply union_subseteq_r.
Qed.

Lemma one_callback_mono kind fs0 fs1 l :
  dirs fs0 ⊆ dirs fs1 -> Observe.one_callback kind fs0 l -> Observe.one_callback kind fs1 l.
Proof.
  intros Hsub [->|(c & -> & Hk & Hd)]; [now left|].
  right. exists c. repeat split; try assumption. intros d Hc. apply Hsub. auto.
Qed.

Lemma checkpoint_callback_ok config callback_config callbacks fs0 r fs1 :
  checkpoint_callback config callback_config callbacks fs0 = (Ok r, fs1) ->
  files fs1 = files fs0 /\ dirs fs0 ⊆ dirs fs1
  /\ exists l, r = callbacks ++ l /\ Observe.one_callback Checkpoint fs1 l.
Proof.
  unfold checkpoint_callback, Py.bind. intros H. lifts H.
  destruct (truthy _).
  - lifts H. step H as ? fs2 Hmk. apply makedirs_grows in Hmk as (Hfiles & Hin & Hsub).
    lifts H. apply mret_ok in H as [-> ->]. repeat (split; [assumption|]).
    eexists. split; [reflexivity|]. right. eexists. repeat split.
    cbn [target_dir]. now intros d [= <-].
  - apply mret_ok in H as [-> ->]. repeat (split; [reflexivity|]).
    exists []. split; [now rewrite app_nil_r | now left].
Qed.

Lemma early_stopping_callback_ok callback_config callbacks fs0 r fs1 :
  early_stopping_callback callback_config callbacks fs0 = (Ok r, fs1) ->
  fs1 = fs0 /\ exists l, r = callbacks ++ l /\ Observe.one_callback Stopping fs1 l.
Proof.
  unfold early_stopping_callback, Py.bind. intros H. lifts H.
  destruct (truthy _).
  - lifts H. apply mret_ok in H as [-> ->]. split; [reflexivity|].
    eexists. split; [reflexivity|]. right. eexists. repeat split. discriminate.
  - apply mret_ok in H as [-> ->]. split; [reflexivity|].
    exists []. split; [now rewrite app_nil_r | now left].
Qed.

Lemma lr_schedule_callback_ok config callbacks fs0 r fs1 :
  lr_schedule_callback config callbacks fs0 = (Ok r, fs1) ->
  fs1 = fs0 /\ exists l, r = callbacks ++ l /\ Observe.one_callback Schedule fs1 l.
Proof.
  unfold lr_schedule_callback, Py.bind. intros H. lifts H.
  destruct (is_str _ _).
  - lifts H. apply mret_ok in H as [-> ->]. split; [reflexivity|].
    eexists. split; [reflexivity|]. right. eexists. repeat split. discriminate.
  - apply mret_ok in H as [-> ->]. split; [reflexivity|].
    exists []. split; [now rewrite app_nil_r | now left].
Qed.

Lemma tensorboard_callback_ok callback_config callbacks fs0 r fs1 :
  tensorboard_callback callback_config callbacks fs0 = (Ok r, fs1) ->
  files fs1 = files fs0 /\ dirs fs0 ⊆ dirs fs1
  /\ exists l, r = callbacks ++ l /\ Observe.one_callback Board fs1 l.
Proof.
  unfold tensorboard_callback, Py.bind. intros H. lifts H.
  destruct (truthy _).
  - lifts H. step H as ? fs2 Hmk. apply makedirs_grows in Hmk as (Hfiles & Hin & Hsub).
    lifts H. apply mret_ok in H as [-> ->]. repeat (split; [assumption|]).
    eexists. split; [reflexivity|]. right. eexists. repeat split.
    cbn [target_dir]. now intros d [= <-].
  - apply mret_ok in H as [-> ->]. repeat (split; [reflexivity|]).
    exists []. split; [now rewrite app_nil_r | now left].
Qed.

Lemma csv_logger_callback_ok callback_config callbacks fs0 r fs1 :
  csv_logger_callback callback_config callbacks fs0 = (Ok r, fs1) ->
  files fs1 = files fs0 /\ dirs fs0 ⊆ dirs fs1
  /\ exists l, r = callbacks ++ l /\ Observe.one_callback Csv fs1 l.
Proof.
  unfold csv_logger_callback, Py.bind. intros H. lifts H.
  destruct (truthy _).
  - lifts H. step H as ? fs2 Hmk. apply makedirs_grows in Hmk as (Hfiles & Hin & Hsub).
    apply mret_ok in H as [-> ->]. repeat (split; [assumption|]).
    eexists. split; [reflexivity|]. right. eexists. repeat split.
    cbn [target_dir]. now intros d [= <-].
  - apply mret_ok in H as [-> ->]. repeat (split; [reflexivity|]).
    exists []. split; [now rewrite app_nil_r | now left].
Qed.

Lemma setup_callbacks_blocks config fs0 callbacks fs1 :
  setup_callbacks config fs0 = (Ok callbacks, fs1) ->
  files fs1 = files fs0 /\ dirs fs0 ⊆ dirs fs1
  /\ exists l1 l2 l3 l4 l5,
       callbacks = l1 ++ l2 ++ l3 ++ l4 ++ l5
       /\ Observe.one_callback Checkpoint fs1 l1
       /\ Observe.one_callback Stopping fs1 l2
       /\ Observe.one_callback Schedule fs1 l3
       /\ Observe.one_callback Board fs1 l4
       /\ Observe.one_callback Csv fs1 l5.
Proof.
  unfold setup_callbacks, Py.bind. intros H.
  step H as callback_config fs H0. apply lift_ok in H0 as [_ ->].
  step H as c1 fsa H1. apply checkpoint_callback_ok in H1 as (Hf1 & Hd1 & l1 & -> & Hl1).
  step H as c2 fsb H2. apply early_stopping_callback_ok in H2 as (-> & l2 & -> & Hl2).
  step H as c3 fsc H3. apply lr_schedule_callback_ok in H3 as (-> & l3 & -> & Hl3).
  step H as c4 fsd H4. apply tensorboard_callback_ok in H4 as (Hf4 & Hd4 & l4 & -> & Hl4).
  step H as c5 fse H5. apply csv_logger_callback_ok in H5 as (Hf5 & Hd5 & l5 & -> & Hl5).
  apply mret_ok in H as [-> ->].
  split; [congruence|]. split; [set_solver|].
  exists l1, l2, l3, l4, l5. split; [now rewrite <- !app_assoc|].
  assert (Hsub : dirs fsa ⊆ dirs fse) by set_solver.
  repeat split; try assumption.
  - now apply (one_callback_mono _ fsa).
  - now apply (one_callback_mono _ fsa).
  - now apply (one_callback_mono _ fsa).
  - now apply (one_callback_mono _ fsd).
Qed.

Lemma one_callback_targets kind fs l :
  Observe.one_callback kind fs l ->
  Forall (fun c => forall d, target_dir c = Some d -> d ∈ dirs fs) l.
Proof. intros [->|(c & -> & _ & Hd)]; repeat constructor. exact Hd. Qed.

(** X20: when [setup_callbacks] returns, it has written no file and
    removed no directory, and the directory of every callback that
    writes (the checkpoint directory, the TensorBoard log directory
    and the directory of the CSV log) exists. *)
Theorem callback_directories_exist config fs0 callbacks fs1 :
  setup_callbacks config fs0 = (Ok callbacks, fs1) ->
  files fs1 = files fs0 /\ dirs fs0 ⊆ dirs fs1
  /\ Forall (fun c => forall d, target_dir c = Some d -> d ∈ dirs fs1) callbacks.
Proof.
  intros H. apply setup_callbacks_blocks in H
    as (Hfiles & Hdirs & l1 & l2 & l3 & l4 & l5 & -> & H1 & H2 & H3 & H4 & H5).
  repeat (split; [assumption|]).
  repeat (apply Forall_app; split); eapply one_callback_targets; eassumption.
Qed.

(** X21: the callbacks come in one fixed order (checkpoint, early
    stopping, learning-rate schedule, TensorBoard, CSV log), each at
    most once. *)
Theorem callbacks_come_in_order config fs0 callbacks fs1 :
  setup_callbacks config fs0 = (Ok callbacks, fs1) ->
  sublist (map kind_of callbacks) [Checkpoint; Stopping; Schedule; Board; Csv].
Proof.
  intros H. apply setup_callbacks_blocks in H
    as (_ & _ & l1 & l2 & l3 & l4 & l5 & -> & H1 & H2 & H3 & H4 & H5).
  destruct H1 as [->|(c1 & -> & <- & _)], H2 as [->|(c2 & -> & <- & _)],
    H3 as [->|(c3 & -> & <- & _)], H4 as [->|(c4 & -> & <- & _)],
    H5 as [->|(c5 & -> & <- & _)];
    cbn [app map];
    repeat first [apply sublist_nil_l | apply sublist_skip | apply sublist_cons].
Qed.

(** X19: the checkpoint block reads its section with a default but
    then indexes it: a configuration without a [callbacks.checkpoint]
    section (or without [callbacks] at all) is refused with
    [KeyError], before any directory is made. *)
Theorem callbacks_need_a_checkpoint_section config sections fs0 :
  get config "callbacks" (VDict []) = Ok (VDict sections) ->
  assoc "checkpoint" sections = None ->
  setup_callbacks config fs0 = (Raise (KeyError "checkpoint"), fs0).
Proof.
  intros Hget Hnone. unfold setup_callbacks, checkpoint_callback. run.
  rewrite Hget. cbn [get getitem]. rewrite Hnone. reflexivity.
Qed.

End callbacks.

Lemma callbacks_need_a_checkpoint_section_witness :
  Setup.setup_callbacks (VDict [("callbacks", VDict [("early_stopping", VDict [])])])
    OS.empty_fs
  = (Raise (KeyError "checkpoint"), OS.empty_fs).
Proof.
  apply (callbacks_need_a_checkpoint_section _ [("early_stopping", VDict [])]);
    reflexivity.
Defined.

Lemma callback_directories_exist_witness :
  let callbacks :=
    [Setup.ModelCheckpoint "../models/mobilenetv2/checkpoints/best_model.h5"
       (VStr "val_loss") (VBool true) (VStr "min");
     Setup.CSVLogger "../results/log.csv"] in
  let fs1 := snd (Setup.setup_callbacks Sample.callbacks_config OS.empty_fs) in
  OS.files fs1 = OS.files OS.empty_fs /\ OS.dirs OS.empty_fs ⊆ OS.dirs fs1
  /\ Forall (fun c => forall d, Setup.target_dir c = Some d -> d ∈ OS.dirs fs1) callbacks.
Proof.
  cbn zeta. apply (callback_directories_exist Sample.callbacks_config).
  vm_compute. reflexivity.
Defined.

Lemma callbacks_come_in_order_witness :
  sublist
    (map Setup.kind_of
       [Setup.ModelCheckpoint "../models/mobilenetv2/checkpoints/best_model.h5"
          (VStr "val_loss") (VBool true) (VStr "min");
        Setup.CSVLogger "../results/log.csv"])
    [Setup.Checkpoint; Setup.Stopping; Setup.Schedule; Setup.Board; Setup.Csv].
Proof.
  apply (callbacks_come_in_order Sample.callbacks_config OS.empty_fs _
           (snd (Setup.setup_callbacks Sample.callbacks_config OS.empty_fs))).
  vm_compute. reflexivity.
Defined.

(** ** Logging to a file *)

Section logging.
Import OS Setup.
Context (logging_getattr : value -> result value)
        (basic_config : value -> value -> result unit)
        (formatter : value -> result unit).

Lemma lift_at {S A} (r : result A) (s : S) : lift r s = (r, s).
Proof. reflexivity. Qed.

(** X22: with [save_to_file] on, a log file name without a directory
    part is refused, and so is the default name [training.log]:
    [os.makedirs] gets the empty name and raises [FileNotFoundError]
    once [logging.basicConfig] has run. *)
Theorem log_file_needs_a_directory config d level_name level fmt save log_file fs0 :
  get config "logging" (VDict []) = Ok (VDict d) ->
  get (VDict d) "level" (VStr "INFO") = Ok level_name ->
  logging_getattr level_name = Ok level ->
  get (VDict d) "format" (VStr "%(asctime)s - %(levelname)s - %(message)s") = Ok fmt ->
  basic_config level fmt = Ok tt ->
  get (VDict d) "save_to_file" (VBool false) = Ok save ->
  truthy save = true ->
  get (VDict d) "log_file" (VStr "training.log") = Ok (VStr log_file) ->
  contains_char SLASH log_file = false ->
  setup_logging logging_getattr basic_config formatter config fs0
  = (Raise (FileNotFoundError EmptyString), fs0).
Proof.
  intros Hcfg Hname Hlevel Hfmt Hbasic Hsave Htrue Hfile Hbare.
  unfold setup_logging, Py.bind.
  rewrite bind_unfold, lift_at, Hcfg.
  rewrite bind_unfold, lift_at, Hname.
  rewrite bind_unfold, lift_at, Hlevel.
  rewrite bind_unfold, lift_at, Hfmt.
  rewrite bind_unfold, lift_at, Hbasic.
  rewrite bind_unfold, lift_at, Hsave. rewrite Htrue.
  rewrite bind_unfold, lift_at, Hfile.
  rewrite bind_unfold, lift_at. cbn [as_str].
  apply bind_raise. now rewrite dirname_without_slash.
Qed.

Lemma open_append_ok path fs0 u fs1 :
  open_append path fs0 = (Ok u, fs1) ->
  is_Some (files fs1 !! path) /\ dirs fs1 = dirs fs0
  /\ forall p, is_Some (files fs0 !! p) -> files fs1 !! p = files fs0 !! p.
Proof.
  unfold open_append. destruct (bool_decide _); [discriminate|].
  destruct (negb _); [discriminate|]. intros [= _ <-]. cbn [files dirs].
  destruct (files fs0 !! path) as [data|] eqn:Hold.
  - rewrite Hold. eauto.
  - rewrite lookup_insert_eq. repeat split; [eauto|].
    intros p [x Hp]. rewrite lookup_insert_ne; [reflexivity|]. congruence.
Qed.

Lemma makedirs_name name fs0 u fs1 :
  makedirs name fs0 = (Ok u, fs1) -> name <> EmptyString.
Proof.
  unfold makedirs. destruct (String.eqb_spec name EmptyString); [discriminate | auto].
Qed.

(** X23: when [setup_logging] returns, either [save_to_file] is off
    and no file or directory was touched, or the log file name has a
    directory part, the log file exists, no other file has changed,
    and the [logging] section gives [format] explicitly: the default
    format of [basicConfig] does not reach the file handler. *)
Theorem file_logging_needs_format_and_directory config fs0 u fs1 :
  setup_logging logging_getattr basic_config formatter config fs0 = (Ok u, fs1) ->
  exists log_config save,
    get config "logging" (VDict []) = Ok log_config
    /\ get log_config "save_to_file" (VBool false) = Ok save
    /\ if truthy save then
         exists log_file fmt,
           get log_config "log_file" (VStr "training.log") = Ok (VStr log_file)
           /\ dirname log_file <> EmptyString
           /\ is_Some (files fs1 !! log_file)
           /\ (forall p, is_Some (files fs0 !! p) -> files fs1 !! p = files fs0 !! p)
           /\ getitem log_config "format" = Ok fmt
       else fs1 = fs0.
Proof.
  unfold setup_logging, Py.bind. intros H.
  step H as log_config s H1. apply lift_ok in H1 as [Hcfg ->].
  step H as level_name s H1. apply lift_ok in H1 as [_ ->].
  step H as level s H1. apply lift_ok in H1 as [_ ->].
  step H as fmt s H1. apply lift_ok in H1 as [_ ->].
  step H as ? s H1. apply lift_ok in H1 as [_ ->].
  step H as save s H1. apply lift_ok in H1 as [Hsave ->].
  exists log_config, save. repeat (split; [assumption|]).
  destruct (truthy save).
  - step H as log_file s H1. apply lift_ok in H1 as [Hfile ->].
    step H as name s H1. apply lift_ok in H1 as [Hname ->].
    destruct log_file; try discriminate Hname. injection Hname as ->.
    step H as ? fsa Hmk. pose proof (makedirs_name _ _ _ _ Hmk) as Hdir.
    apply makedirs_ok in Hmk as [Hfiles _].
    step H as ? fsb Hopen. apply open_append_ok in Hopen as (Hlog & _ & Hkeep).
    step H as fmt' s H1. apply lift_ok in H1 as [Hfmt ->].
    apply lift_ok in H as [_ ->].
    exists name, fmt'. repeat (split; [assumption|]). split; [|assumption].
    intros p Hp. rewrite <- Hfiles. apply Hkeep. now rewrite Hfiles.
  - now apply mret_ok in H as [_ ->].
Qed.

End logging.

Lemma log_file_needs_a_directory_witness :
  Setup.setup_logging (fun _ => Ok (VInt 20)) (fun _ _ => Ok tt) (fun _ => Ok tt)
    (VDict [("logging", VDict [("save_to_file", VBool true)])]) OS.empty_fs
  = (Raise (FileNotFoundError EmptyString), OS.empty_fs).
Proof.
  apply (log_file_needs_a_directory _ _ _ _ [("save_to_file", VBool true)]
           (VStr "INFO") (VInt 20) (VStr "%(asctime)s - %(levelname)s - %(message)s")
           (VBool true) "training.log"); reflexivity.
Defined.

Lemma file_logging_needs_format_and_directory_witness :
  let config :=
    VDict [("logging", VDict [("save_to_file", VBool true);
                              ("log_file", VStr "../logs/training.log");
                              ("format", VStr "%(message)s")])] in
  let fs1 := snd (Setup.setup_logging (fun _ => Ok (VInt 20)) (fun _ _ => Ok tt)
                    (fun _ => Ok tt) config OS.empty_fs) in
  exists log_config save,
    get config "logging" (VDict []) = Ok log_config
    /\ get log_config "save_to_file" (VBool false) = Ok save
    /\ if truthy save then
         exists log_file fmt,
           get log_config "log_file" (VStr "training.log") = Ok (VStr log_file)
           /\ OS.dirname log_file <> EmptyString
           /\ is_Some (OS.files fs1 !! log_file)
           /\ (forall p, is_Some (OS.files OS.empty_fs !! p) ->
                 OS.files fs1 !! p = OS.files OS.empty_fs !! p)
           /\ getitem log_config "format" = Ok fmt
       else fs1 = OS.empty_fs.
Proof.
  cbn zeta.
  apply (file_logging_needs_format_and_directory (fun _ => Ok (VInt 20)) (fun _ _ => Ok tt)
           (fun _ => Ok tt) _ OS.empty_fs tt).
  vm_compute. reflexivity.
Defined.

(** ** Augmentation and calibration data *)

Section augmentation.
Import Setup.

(** X24: of the configuration, [create_augmentation_layer] reads
    [augmentation.rotation_range] and the first entry of
    [augmentation.zoom_range] only: two configurations that agree on
    these build the same layers, or fail alike.  The flip mode and
    the contrast factor are fixed, and every other key of the
    section, like the upper zoom bound, is ignored. *)
Theorem augmentation_reads_two_settings config1 config2 aug1 aug2 zoom1 zoom2 :
  get config1 "augmentation" (VDict []) = Ok aug1 ->
  get config2 "augmentation" (VDict []) = Ok aug2 ->
  get aug1 "rotation_range" (VInt 45) = get aug2 "rotation_range" (VInt 45) ->
  get aug1 "zoom_range" (VList [VFloat (8 # 10); VFloat (12 # 10)]) = Ok zoom1 ->
  get aug2 "zoom_range" (VList [VFloat (8 # 10); VFloat (12 # 10)]) = Ok zoom2 ->
  first_item zoom1 = first_item zoom2 ->
  create_augmentation_layer config1 = create_augmentation_layer config2.
Proof.
  intros Haug1 Haug2 Hrotation Hzoom1 Hzoom2 Hfirst.
  unfold create_augmentation_layer, Py.bind, mbind, result_bind.
  rewrite Haug1, Haug2, Hrotation.
  destruct (get aug2 "rotation_range" (VInt 45)) as [rotation|]; [|reflexivity].
  destruct (number rotation) as [angle|]; [|reflexivity].
  now rewrite Hzoom1, Hzoom2, Hfirst.
Qed.

End augmentation.

Lemma augmentation_reads_two_settings_witness :
  Setup.create_augmentation_layer
    (VDict [("augmentation",
             VDict [("rotation_range", VInt 90);
                    ("zoom_range", VList [VFloat (9 # 10); VFloat (11 # 10)]);
                    ("horizontal_flip", VBool false)])])
  = Setup.create_augmentation_layer
      (VDict [("augmentation",
               VDict [("zoom_range", VList [VFloat (9 # 10); VInt 2; VInt 3]);
                      ("rotation_range", VInt 90)])]).
Proof.
  apply (augmentation_reads_two_settings _ _
           (VDict [("rotation_range", VInt 90);
                   ("zoom_range", VList [VFloat (9 # 10); VFloat (11 # 10)]);
                   ("horizontal_flip", VBool false)])
           (VDict [("zoom_range", VList [VFloat (9 # 10); VInt 2; VInt 3]);
                   ("rotation_range", VInt 90)])
           (VList [VFloat (9 # 10); VFloat (11 # 10)])
           (VList [VFloat (9 # 10); VInt 2; VInt 3])); reflexivity.
Defined.

Section calibration.
Import Calibration.
Context {L : Type}.

Lemma generate_prefix (num_samples : Z) (dataset : list (list Q * L)) :
  forall count,
    generate num_samples count dataset
    = map (fun sample => [normalize (fst sample)])
          (firstn (Z.to_nat (num_samples - count)) dataset).
Proof.
  induction dataset as [|[images label] rest IH]; intros count.
  - now rewrite firstn_nil.
  - cbn [generate]. destruct (Z.leb_spec num_samples count) as [Hle|Hlt].
    + now replace (Z.to_nat (num_samples - count)) with 0 by lia.
    + replace (Z.to_nat (num_samples - count))
        with (S (Z.to_nat (num_samples - (count + 1)))) by lia.
      cbn [firstn map fst]. now rewrite IH.
Qed.

(** X25: the calibration generator yields the first [num_samples]
    samples of the data set in order (all of them when the data set
    is smaller, none when [num_samples] is not positive), each as a
    one-element list holding the image divided by 255; the labels
    are dropped. *)
Theorem generator_yields_a_normalized_prefix (dataset : list (list Q * L)) num_samples :
  representative_dataset_generator dataset num_samples
  = map (fun sample => [normalize (fst sample)]) (firstn (Z.to_nat num_samples) dataset)
  /\ length (representative_dataset_generator dataset num_samples)
     = Nat.min (Z.to_nat num_samples) (length dataset).
Proof.
  unfold representative_dataset_generator. rewrite generate_prefix, Z.sub_0_r.
  split; [reflexivity|]. now rewrite length_map, length_firstn.
Qed.

End calibration.

(** ** Evaluation: predictions, labels and the tables *)

Section evaluation_tables.
Import Evaluate Sklearn.
Context (env : environment).

Lemma mapM_length {A B} (f : A -> result B) l k : mapM f l = Ok k -> length k = length l.
Proof. intros H. apply mapM_ok_inv in H. symmetry. exact (Forall2_length _ _ _ H). Qed.

Lemma predict_all_aligned batches :
  forall i y_pred y_true w ys w',
    predict_all env i batches y_pred y_true w = (Ok ys, w') ->
    length (fst ys) = length y_pred + length (concat batches)
    /\ length (snd ys) = length y_true + length (concat batches)
    /\ w' = logged w (map Predict (seq i (length batches))).
Proof.
  induction batches as [|batch rest IH]; intros i y_pred y_true w ys w' H.
  - apply mret_ok in H as [-> ->]. cbn [fst snd concat length seq map].
    rewrite logged_nil. split; [lia|]. split; [lia|]. reflexivity.
  - cbn [predict_all] in H. unfold Py.bind in H.
    step H as ? w1 H1. apply ext_ok in H1 as [_ ->].
    step H as pred w1 H1. apply lift_ok in H1 as [Hpred ->].
    step H as true w1 H1. apply lift_ok in H1 as [Htrue ->].
    apply IH in H as (Hp & Ht & ->).
    apply mapM_length in Hpred, Htrue. rewrite length_map in Hpred, Htrue.
    rewrite !length_app in *. cbn [concat length seq map]. rewrite length_app, logged_logged.
    split; [lia|]. split; [lia|]. reflexivity.
Qed.

(** X26: the prediction loop of [evaluate_model] calls the model
    once per batch, and when it returns it has one predicted and one
    true class per sample of the test set; so the per-class metrics
    that follow are never refused for lists of unequal length. *)
Theorem predictions_and_labels_align class_names w ys w' :
  predict_all env 0 (test_batches env) [] [] w = (Ok ys, w') ->
  length (fst ys) = length (concat (test_batches env))
  /\ length (snd ys) = length (concat (test_batches env))
  /\ w' = logged w (map Predict (seq 0 (length (test_batches env))))
  /\ exists prfs, per_class_metrics class_names (snd ys) (fst ys) = Ok prfs.
Proof.
  intros H. apply predict_all_aligned in H as (Hp & Ht & ->). cbn [length] in Hp, Ht.
  repeat (split; [first [assumption | reflexivity]|]).
  unfold per_class_metrics, precision_recall_fscore_support.
  rewrite Hp, Ht, Nat.eqb_refl. cbn [negb]. eauto.
Qed.

Lemma data_frame_total classes : forall p r f s,
  length p = length classes -> length r = length classes ->
  length f = length classes -> length s = length classes ->
  exists rows, data_frame classes p r f s = Ok rows.
Proof.
  induction classes as [|c classes IH]; intros [|x p] [|y r] [|z f] [|n s];
    cbn [length]; try discriminate; intros Hp Hr Hf Hs.
  - eexists. reflexivity.
  - destruct (IH p r f s) as [rows Hrows]; try lia.
    cbn [data_frame]. run. rewrite Hrows. eauto.
Qed.

Lemma item_in_range {A} (a : list A) i : i < length a -> exists x, item a i = Ok x.
Proof.
  intros Hi. unfold item. destruct (lookup_lt_is_Some_2 a i Hi) as [x ->]. eauto.
Qed.

Lemma mapM_tagged {A B C} (f : A -> result B) (tag : A -> C) (untag : B -> C) l :
  Forall (fun x => exists y, f x = Ok y /\ untag y = tag x) l ->
  exists k, mapM f l = Ok k /\ map untag k = map tag l.
Proof.
  induction 1 as [|x l (y & Hy & Ht) _ (k & Hk & Hm)].
  - exists []. split; reflexivity.
  - exists (y :: k). rewrite mapM_cons, Hy, Hk. split; [reflexivity|].
    cbn [map]. now rewrite Ht, Hm.
Qed.

Lemma report_rows_total p r f class_names :
  length p = length class_names -> length r = length class_names ->
  length f = length class_names ->
  exists rows, report_rows p r f class_names = Ok rows
               /\ map (fun row => fst (fst (fst row))) rows = class_names.
Proof.
  intros Hp Hr Hf. unfold report_rows.
  assert (Hnames : map snd (imap (fun i (name : string) => (i, name)) class_names)
                   = class_names).
  { change (map snd) with (fmap (M:=list) (@snd nat string)).
    rewrite fmap_imap. unfold compose. cbn [snd].
    rewrite (imap_const id). apply list_fmap_id. }
  match goal with
  | |- exists rows, mapM ?f ?l = _ /\ _ =>
      destruct (mapM_tagged f snd (fun row => fst (fst (fst row))) l)
        as (rows & Hrows & Hmap);
      [|exists rows; split; [exact Hrows | now rewrite Hmap]]
  end.
  apply Forall_forall. intros [i name] Hin.
  apply elem_of_lookup_imap in Hin as (i' & name' & [= -> ->] & Hlook).
  apply lookup_lt_Some in Hlook.
  destruct (item_in_range p i') as [x Hx]; [lia|].
  destruct (item_in_range r i') as [y Hy]; [lia|].
  destruct (item_in_range f i') as [z Hz]; [lia|].
  exists (name', x, y, z). cbn [fst snd]. run. now rewrite Hx, Hy, Hz.
Qed.

(** X27: the arrays [evaluate_model] gets from the per-class metrics
    always fit the class names: the data frame of [f1_scores.csv] is
    built without a length error, and the table of the performance
    report is indexed without an index error and has one row per
    class, in the order of the class names. *)
Theorem metrics_always_fit_the_tables class_names y_true y_pred p r f s :
  per_class_metrics class_names y_true y_pred = Ok (p, r, f, s) ->
  (exists csv, data_frame class_names p r f s = Ok csv
               /\ map row_class csv = class_names)
  /\ exists rows, report_rows p r f class_names = Ok rows
                  /\ map (fun row => fst (fst (fst row))) rows = class_names.
Proof.
  intros H. pose proof (per_class_metrics_lengths class_names y_true y_pred) as Hlen.
  rewrite H in Hlen. destruct Hlen as (Hp & Hr & Hf & Hs). split.
  - destruct (data_frame_total class_names p r f s) as [csv Hcsv]; try assumption.
    exists csv. split; [assumption|]. now apply data_frame_ok in Hcsv.
  - now apply report_rows_total.
Qed.

End evaluation_tables.

Lemma predictions_and_labels_align_witness :
  let w' := snd (Evaluate.predict_all Sample.env 0 (test_batches Sample.env) [] []
                   Sample.start) in
  length [0; 1; 2]%Z = length (concat (test_batches Sample.env))
  /\ length [0; 1; 2]%Z = length (concat (test_batches Sample.env))
  /\ w' = logged Sample.start (map Predict (seq 0 (length (test_batches Sample.env))))
  /\ exists prfs,
       Evaluate.per_class_metrics ["a"; "b"; "c"] [0; 1; 2]%Z [0; 1; 2]%Z = Ok prfs.
Proof.
  cbn zeta.
  apply (predictions_and_labels_align Sample.env ["a"; "b"; "c"] Sample.start
           ([0; 1; 2]%Z, [0; 1; 2]%Z)).
  vm_compute. reflexivity.
Defined.

Lemma metrics_always_fit_the_tables_witness :
  (exists csv,
      Evaluate.data_frame ["a"; "b"; "c"] [1; 1; 1]%Q [1; 1; 1]%Q [2 # 2; 2 # 2; 2 # 2]%Q
        [1; 1; 1]%Z = Ok csv
      /\ map row_class csv = ["a"; "b"; "c"])
  /\ exists rows,
       Evaluate.report_rows [1; 1; 1]%Q [1; 1; 1]%Q [2 # 2; 2 # 2; 2 # 2]%Q ["a"; "b"; "c"]
       = Ok rows
       /\ map (fun row => fst (fst (fst row))) rows = ["a"; "b"; "c"].
Proof.
  apply (metrics_always_fit_the_tables ["a"; "b"; "c"] [0; 1; 2]%Z [0; 1; 2]%Z).
  vm_compute. reflexivity.
Defined.

(** ** What a run never calls *)

Section emitted_calls.
Import Observe.
Context (env : environment) (P : call -> Prop).

Lemma emits_mret {A} (x : A) : emits P (mret (M:=M world) x).
Proof. intros w. exists []. now rewrite app_nil_r. Qed.

Lemma emits_lift {A} (r : result A) : emits P (lift r).
Proof. intros w. exists []. now rewrite app_nil_r. Qed.


Lemma emits_on_fs {A} (c : M OS.filesystem A) : emits P (on_fs c).
Proof. intros w. exists []. now rewrite on_fs_log, app_nil_r. Qed.

Lemma emits_ext c : P c -> emits P (ext env c).
Proof. intros Hc w. exists [c]. rewrite ext_run. split; [reflexivity | now constructor]. Qed.

Lemma emits_bind {A B} (c : M world A) (k : A -> M world B) :
  emits P c -> (forall a, emits P (k a)) -> emits P (mbind k c).
Proof.
  intros Hc Hk w. destruct (Hc w) as (c1 & Hlog1 & Hall1).
  rewrite bind_unfold. destruct (c w) as [[a|e] w1]; cbn [snd] in *.
  - destruct (Hk a w1) as (c2 & Hlog2 & Hall2). exists (c1 ++ c2).
    rewrite Hlog2, Hlog1, <- app_assoc. split; [reflexivity | now apply Forall_app].
  - eauto.
Qed.

Lemma emits_bind_lift {A B} (r : result A) (k : A -> M world B) :
  (forall a, r = Ok a -> emits P (k a)) -> emits P (mbind k (lift r)).
Proof.
  intros Hk w. rewrite bind_unfold. unfold lift. destruct r as [a|e].
  - now apply Hk.
  - exists []. now rewrite app_nil_r.
Qed.


End emitted_calls.

Section evaluation_flags.
Import Observe Argparse.
Context (env : environment).


End evaluation_flags.


(** ** Classes of equal size *)

Section equal_classes.
Import OS Utils.
Context (env : environment).

Lemma compute_class_weights_of_counts data_dir entries counts :
  listdir env data_dir = Ok entries ->
  mapM (count_images env data_dir) (class_dirs env data_dir entries) = Ok counts ->
  Forall (fun c => (0 < c)%Z) counts ->
  compute_class_weights env data_dir = Ok (balanced counts).
Proof.
  intros Hls Hok Hpos. unfold compute_class_weights. run. rewrite Hls.
  fold (class_dirs env data_dir entries). rewrite Hok.
  rewrite snd_enumerate, length_imap. fold (Zsum counts).
  destruct counts as [|c counts]; [reflexivity|].
  apply (weights_ok (Zsum (c :: counts)) _ (fun i => i)); [cbn; lia | assumption].
Qed.

Lemma Zsum_repeat k n : Zsum (repeat k n) = (Z.of_nat n * k)%Z.
Proof. induction n as [|n IH]; [reflexivity|]. unfold Zsum in *. cbn. rewrite IH. lia. Qed.

Lemma lookup_repeat {A} (x y : A) n i : repeat x n !! i = Some y -> y = x /\ i < n.
Proof.
  revert i. induction n as [|n IH]; intros [|i]; cbn; try discriminate.
  - intros [= <-]. split; [reflexivity | lia].
  - intros H. apply IH in H as [-> Hi]. split; [reflexivity | lia].
Qed.

(** X29: when every class directory holds the same number of image
    files, at least one, every class gets the weight 1. *)
Theorem equal_classes_weigh_one data_dir entries k :
  listdir env data_dir = Ok entries ->
  (0 < k)%Z ->
  Forall (fun name => count_images env data_dir name = Ok k)
         (class_dirs env data_dir entries) ->
  exists ws,
    compute_class_weights env data_dir = Ok ws
    /\ length ws = length (class_dirs env data_dir entries)
    /\ Forall (fun w => (snd w == 1)%Q) ws.
Proof.
  intros Hls Hk Hall.
  set (n := length (class_dirs env data_dir entries)).
  assert (Hok : mapM (count_images env data_dir) (class_dirs env data_dir entries)
                = Ok (repeat k n)).
  { apply mapM_ok. subst n.
    induction Hall as [|name names Hname _ IH]; cbn [length repeat]; constructor; auto. }
  assert (Hpos : Forall (fun c => (0 < c)%Z) (repeat k n)).
  { apply Forall_lookup. intros i c Hc. apply lookup_repeat in Hc as [-> _]. exact Hk. }
  exists (balanced (repeat k n)).
  split; [now apply (compute_class_weights_of_counts data_dir entries)|].
  unfold balanced. split; [now rewrite length_imap, repeat_length|].
  apply Forall_forall. intros w Hw.
  apply elem_of_lookup_imap in Hw as (i & c & -> & Hc).
  apply lookup_repeat in Hc as [-> Hi].
  cbn [snd]. rewrite Zsum_repeat, repeat_length.
  assert (Hn : (0 < Z.of_nat n)%Z) by lia.
  rewrite inject_Z_mult. field. split; apply inject_Z_nonzero; lia.
Qed.

End equal_classes.

Lemma equal_classes_weigh_one_witness :
  exists ws,
    Utils.compute_class_weights Sample.even_env "data/even" = Ok ws
    /\ length ws = length (Utils.class_dirs Sample.even_env "data/even" ["y"; "x"])
    /\ Forall (fun w => (snd w == 1)%Q) ws.
Proof.
  apply (equal_classes_weigh_one Sample.even_env "data/even" ["y"; "x"] 2).
  - reflexivity.
  - lia.
  - replace (Utils.class_dirs Sample.even_env "data/even" ["y"; "x"]) with ["x"; "y"]
      by (vm_compute; reflexivity).
    repeat constructor.
Defined.

(** ** Evaluation leaves the model alone *)

Section evaluation_calls.
Import Observe Evaluate.
Context (env : environment).

Lemma predict_all_emits (P : call -> Prop) batches :
  (forall i, P (Predict i)) ->
  forall i y_pred y_true, emits P (predict_all env i batches y_pred y_true).
Proof.
  intros HP. induction batches as [|batch rest IH]; intros i y_pred y_true.
  - apply emits_mret.
  - cbn [predict_all]. unfold Py.bind.
    apply emits_bind; [now apply emits_ext|]. intros _.
    apply emits_bind_lift. intros pred _.
    apply emits_bind_lift. intros true _. apply IH.
Qed.

(** X30: however a run of [evaluate_model] ends, it has not
    compiled, fitted or saved a model: the model is loaded and used
    for prediction only. *)
Theorem evaluation_never_trains model_path config_path w :
  exists calls,
    log (snd (evaluate_model env model_path config_path w)) = log w ++ calls
    /\ Forall (fun c => is_compile c = false /\ is_fit c = false /\ is_save c = false)
              calls.
Proof.
  revert w.
  change (emits (fun c => is_compile c = false /\ is_fit c = false /\ is_save c = false)
            (evaluate_model env model_path config_path)).
  unfold evaluate_model, load_config, generate_performance_report, Py.bind.
  apply emits_bind.
  { apply emits_bind; [apply emits_on_fs | intros text; apply emits_lift]. }
  intros config.
  apply emits_bind; [apply emits_ext; now repeat split|]. intros _.
  apply emits_bind_lift. intros test_dir _.
  apply emits_bind_lift. intros batch_size _.
  apply emits_bind_lift. intros shape _.
  apply emits_bind_lift. intros shape' _.
  apply emits_bind_lift. intros image_size _.
  apply emits_bind; [apply emits_ext; now repeat split|]. intros _.
  apply emits_bind; [apply predict_all_emits; now repeat split|]. intros ys.
  apply emits_bind; [apply emits_ext; now repeat split|]. intros _.
  apply emits_bind_lift. intros [[[p r] f] s] _.
  apply emits_bind; [apply emits_ext; now repeat split|]. intros _.
  apply emits_bind; [apply emits_ext; now repeat split|]. intros _.
  apply emits_bind; [apply emits_ext; now repeat split|]. intros _.
  apply emits_bind; [apply emits_on_fs|]. intros _.
  apply emits_bind_lift. intros rows _.
  apply emits_bind; [apply emits_ext; now repeat split|]. intros _.
  apply emits_bind; [apply emits_ext; now repeat split|]. intros _.
  apply emits_bind; [apply emits_ext; now repeat split|]. intros _.
  apply emits_bind; [|intros _; apply emits_mret].
  apply emits_bind_lift. intros report _. apply emits_ext. now repeat split.
Qed.

End evaluation_calls.
